(** * go-phoenix: a shallow embedding of the SDK's glue code

    The development follows the packages of the repository:
    - [GoStrings]: the few functions of Go's [strings] package the code calls;
    - [Phoenix]: package [phoenix] (configuration, client options, errors,
      the client and its transport, the project and span conversions);
    - [Otel]: package [otel] (configuration, options, [Register], the
      OpenInference attributes);
    - [Evals]: package [evals] (the evaluator);
    - [Adapter]: package [llmops] of the repository (the provider and the
      trace and span wrappers);
    - [PhoenixRest], [PhoenixAnnotations]: the REST wrappers of package
      [phoenix] (projects, spans, datasets, annotations, prompts);
    - [EvalsFeedback]: the evaluator's feedback scores;
    - [AdapterProvider]: the provider's constructor and resource methods.

    Go strings are byte strings and are modelled by [string]; a pointer that
    the code tests against nil is an [option]; a signed 64-bit quantity that
    is only stored and passed on is a [Z]. *)

From Stdlib Require Import ZArith Bool Ascii String List Lia PrimFloat.
From stdpp Require Import base option strings gmap list.

Set Warnings "-register-all".

Local Open Scope string_scope.
Local Open Scope bool_scope.

(* ===================================================================== *)
(** ** Package strings (Go standard library) *)
(* ===================================================================== *)

Module GoStrings.

(** [len(s) >= len(suffix) && s[len(s)-len(suffix):] == suffix] *)
Definition HasSuffix (s suffix : string) : bool :=
  (String.length suffix <=? String.length s)%nat &&
  String.eqb
    (substring (String.length s - String.length suffix)
               (String.length suffix) s)
    suffix.

(** [if HasSuffix(s, suffix) { return s[:len(s)-len(suffix)] }; return s] *)
Definition TrimSuffix (s suffix : string) : string :=
  if HasSuffix s suffix
  then substring 0 (String.length s - String.length suffix) s
  else s.

(** [len(s) >= len(prefix) && s[:len(prefix)] == prefix] *)
Definition HasPrefix (s prefix : string) : bool :=
  (String.length prefix <=? String.length s)%nat &&
  String.eqb (substring 0 (String.length prefix) s) prefix.

End GoStrings.

(* ===================================================================== *)
(** ** Package net/http (Go standard library): headers and requests *)
(* ===================================================================== *)

Module Http.

Definition is_lower (c : ascii) : bool :=
  let n := nat_of_ascii c in (97 <=? n)%nat && (n <=? 122)%nat.

Definition is_upper (c : ascii) : bool :=
  let n := nat_of_ascii c in (65 <=? n)%nat && (n <=? 90)%nat.

Definition is_digit (c : ascii) : bool :=
  let n := nat_of_ascii c in (48 <=? n)%nat && (n <=? 57)%nat.

(** [validHeaderFieldByte]: the token characters of RFC 7230. *)
Definition validHeaderFieldByte (c : ascii) : bool :=
  is_lower c || is_upper c || is_digit c ||
  existsb (Ascii.eqb c) (list_ascii_of_string "!#$%&'*+-.^_`|~").

Definition to_upper (c : ascii) : ascii :=
  if is_lower c then ascii_of_nat (nat_of_ascii c - 32) else c.

Definition to_lower (c : ascii) : ascii :=
  if is_upper c then ascii_of_nat (nat_of_ascii c + 32) else c.

(** The canonicalising loop: upper case at the start and after each dash,
    lower case elsewhere. *)
Fixpoint canonical_walk (upper : bool) (s : string) : string :=
  match s with
  | EmptyString => EmptyString
  | String c rest =>
      let c' := if upper then to_upper c else to_lower c in
      String c' (canonical_walk (Ascii.eqb c' "-") rest)
  end.

(** [textproto.CanonicalMIMEHeaderKey]: a key holding a byte that is not a
    token character is returned unchanged. *)
Definition CanonicalMIMEHeaderKey (s : string) : string :=
  if forallb validHeaderFieldByte (list_ascii_of_string s)
  then canonical_walk true s
  else s.

(** [http.Header] is [map[string][]string]. *)
Abbreviation Header := (gmap string (list string)).

(** [Header.Set]: the canonical key is bound to the single value. *)
Definition Header_Set (h : Header) (key value : string) : Header :=
  <[CanonicalMIMEHeaderKey key := [value]]> h.

(** [Header.Get]: the first value of the canonical key, or [""]. *)
Definition Header_Get (h : Header) (key : string) : string :=
  match h !! CanonicalMIMEHeaderKey key with
  | Some (v :: _) => v
  | _ => ""
  end.

(** The parts of [*http.Request] a transport wrapper can touch. *)
Record Request := mkRequest {
  req_Method : string;
  req_URL : string;
  req_Header : Header;
  req_Body : string;
}.

Record Response := mkResponse {
  resp_StatusCode : Z;
  resp_Body : string;
}.

(** [*http.Client]: its timeout and what its [Do] answers to a request
    (the response, or the message of the transport error). *)
Record Client := mkClient {
  Client_Timeout : Z;
  Client_Do : Request -> Response + string;
}.

End Http.

(** [os.Getenv]: the value of the variable, [""] when it is unset. *)
Module Os.

Abbreviation Environ := (gmap string string).

Definition Getenv (env : Environ) (key : string) : string :=
  default "" (env !! key).

End Os.

(* ===================================================================== *)
(** ** Package phoenix *)
(* ===================================================================== *)

Module Phoenix.

Import GoStrings.

(** *** errors.go *)

(** The package-level [errors.New] values; two of them are equal only when
    they are the same variable. *)
Inductive sentinel :=
  | ErrMissingURL | ErrMissingAPIKey | ErrProjectNotFound | ErrTraceNotFound
  | ErrSpanNotFound | ErrDatasetNotFound | ErrExperimentNotFound
  | ErrPromptNotFound | ErrInvalidInput.

Definition sentinel_eqb (a b : sentinel) : bool :=
  match a, b with
  | ErrMissingURL, ErrMissingURL | ErrMissingAPIKey, ErrMissingAPIKey
  | ErrProjectNotFound, ErrProjectNotFound
  | ErrTraceNotFound, ErrTraceNotFound | ErrSpanNotFound, ErrSpanNotFound
  | ErrDatasetNotFound, ErrDatasetNotFound
  | ErrExperimentNotFound, ErrExperimentNotFound
  | ErrPromptNotFound, ErrPromptNotFound
  | ErrInvalidInput, ErrInvalidInput => true
  | _, _ => false
  end.

Definition sentinel_message (s : sentinel) : string :=
  match s with
  | ErrMissingURL => "phoenix: missing API URL"
  | ErrMissingAPIKey => "phoenix: missing API key"
  | ErrProjectNotFound => "phoenix: project not found"
  | ErrTraceNotFound => "phoenix: trace not found"
  | ErrSpanNotFound => "phoenix: span not found"
  | ErrDatasetNotFound => "phoenix: dataset not found"
  | ErrExperimentNotFound => "phoenix: experiment not found"
  | ErrPromptNotFound => "phoenix: prompt not found"
  | ErrInvalidInput => "phoenix: invalid input"
  end.

Record APIError := mkAPIError {
  StatusCode : Z;
  Message : string;
  Details : string;
}.

(** A non-nil Go [error] value, by its dynamic type: one of the sentinels,
    a [*APIError], an error built by [fmt.Errorf] with [%w] around another,
    an [errors.Join] of several, or an error of any other type (which has
    neither [Unwrap] nor [Is]).  The nil error is [None : option error]. *)
Inductive error :=
  | ESentinel (s : sentinel)
  | EAPI (e : APIError)
  | EWrap (msg : string) (inner : error)
  | EJoin (errs : list error)
  | EOther (msg : string).

Definition APIError_Error (e : APIError) : string :=
  if negb (String.eqb (Details e) "")
  then "phoenix: API error (" ++ Message e ++ "): " ++ Details e
  else "phoenix: API error: " ++ Message e.

(** [errors.Is(err, target)] for a sentinel target: the chain of [Unwrap]
    is followed, depth first through a joined error; [*APIError] has no
    [Unwrap] and no [Is] method, so the walk stops there. *)
Fixpoint errors_Is (err : error) (target : sentinel) : bool :=
  match err with
  | ESentinel s => sentinel_eqb s target
  | EAPI _ => false
  | EWrap _ inner => errors_Is inner target
  | EJoin errs => existsb (fun e => errors_Is e target) errs
  | EOther _ => false
  end.

Definition IsNotFound (err : option error) : bool :=
  match err with
  | None => false
  | Some (EAPI apiErr) => (StatusCode apiErr =? 404)%Z
  | Some e =>
      errors_Is e ErrProjectNotFound ||
      errors_Is e ErrTraceNotFound ||
      errors_Is e ErrSpanNotFound ||
      errors_Is e ErrDatasetNotFound ||
      errors_Is e ErrExperimentNotFound ||
      errors_Is e ErrPromptNotFound
  end.

(** *** config.go *)

Definition DefaultURL : string := "http://localhost:6006".
Definition DefaultProjectName : string := "default".

Definition EnvURL : string := "PHOENIX_URL".
Definition EnvAPIKey : string := "PHOENIX_API_KEY".
Definition EnvProjectName : string := "PHOENIX_PROJECT_NAME".
Definition EnvSpaceID : string := "PHOENIX_SPACE_ID".

Record Config := mkConfig {
  URL : string;
  SpaceID : string;
  APIKey : string;
  ProjectName : string;
}.

Definition set_URL (v : string) (c : Config) : Config :=
  mkConfig v (SpaceID c) (APIKey c) (ProjectName c).
Definition set_SpaceID (v : string) (c : Config) : Config :=
  mkConfig (URL c) v (APIKey c) (ProjectName c).
Definition set_APIKey (v : string) (c : Config) : Config :=
  mkConfig (URL c) (SpaceID c) v (ProjectName c).
Definition set_ProjectName (v : string) (c : Config) : Config :=
  mkConfig (URL c) (SpaceID c) (APIKey c) v.

Definition NewConfig : Config :=
  {| URL := DefaultURL; SpaceID := ""; APIKey := "";
     ProjectName := DefaultProjectName |}.

(** The four [if v := os.Getenv(...); v != ""] blocks, in order. *)
Definition loadFromEnv (env : Os.Environ) (c : Config) : Config :=
  let c :=
    let url := Os.Getenv env EnvURL in
    if negb (String.eqb url "") then set_URL url c else c in
  let c :=
    let spaceID := Os.Getenv env EnvSpaceID in
    if negb (String.eqb spaceID "") then
      let c := set_SpaceID spaceID c in
      if String.eqb (URL c) DefaultURL
      then set_URL "https://app.phoenix.arize.com" c
      else c
    else c in
  let c :=
    let apiKey := Os.Getenv env EnvAPIKey in
    if negb (String.eqb apiKey "") then set_APIKey apiKey c else c in
  let c :=
    let projectName := Os.Getenv env EnvProjectName in
    if negb (String.eqb projectName "") then set_ProjectName projectName c
    else c in
  c.

Definition LoadConfig (env : Os.Environ) : Config :=
  loadFromEnv env NewConfig.

(** [Validate] mutates its receiver: the configuration after the call is
    returned with the error ([None] is the nil error). *)
Definition Validate (c : Config) : Config * option error :=
  if String.eqb (URL c) "" then (c, Some (ESentinel ErrMissingURL))
  else
    let c := set_URL (TrimSuffix (URL c) "/") c in
    let c :=
      if negb (String.eqb (SpaceID c) "")
      then set_URL (URL c ++ "/s/" ++ SpaceID c) c
      else c in
    (c, None).

Definition BaseURL (c : Config) : string := URL c.

(** *** Client options *)

(** [clientOptions]; [config] is a pointer in the source, so the options
    below update the configuration it points to. *)
Record clientOptions := mkClientOptions {
  config : Config;
  httpClient : option Http.Client;
  timeout : Z;
}.

Definition second : Z := 1000000000.

Definition defaultClientOptions (env : Os.Environ) : clientOptions :=
  {| config := LoadConfig env; httpClient := None; timeout := 60 * second |}.

(** The functional options, as data; [apply_option] is the closure each
    constructor returns.  [WithConfig] carries the configuration its
    (non-nil) pointer argument refers to. *)
Inductive Option :=
  | WithURL (url : string)
  | WithAPIKey (apiKey : string)
  | WithProjectName (projectName : string)
  | WithSpaceID (spaceID : string)
  | WithConfig (cfg : Config)
  | WithHTTPClient (client : Http.Client)
  | WithTimeout (d : Z).

Definition map_config (f : Config -> Config) (o : clientOptions)
  : clientOptions :=
  mkClientOptions (f (config o)) (httpClient o) (timeout o).

Definition apply_option (opt : Option) (o : clientOptions) : clientOptions :=
  match opt with
  | WithURL url => map_config (set_URL url) o
  | WithAPIKey apiKey => map_config (set_APIKey apiKey) o
  | WithProjectName projectName => map_config (set_ProjectName projectName) o
  | WithSpaceID spaceID => map_config (set_SpaceID spaceID) o
  | WithConfig cfg => mkClientOptions cfg (httpClient o) (timeout o)
  | WithHTTPClient client =>
      mkClientOptions (config o) (Some client) (timeout o)
  | WithTimeout d => mkClientOptions (config o) (httpClient o) d
  end.

(** [for _, opt := range opts { opt(options) }] *)
Definition apply_options (opts : list Option) (o : clientOptions)
  : clientOptions :=
  fold_left (fun o opt => apply_option opt o) opts o.

(** *** client.go *)

Definition Version : string := "0.1.0".

Record authHTTPClient := mkAuthHTTPClient {
  client : Http.Client;
  apiKey : string;
}.

(** The headers [Do] writes into the request before delegating. *)
Definition authHTTPClient_decorate (c : authHTTPClient) (req : Http.Request)
  : Http.Request :=
  let h := Http.req_Header req in
  let h :=
    if negb (String.eqb (apiKey c) "")
    then Http.Header_Set h "Authorization" ("Bearer " ++ apiKey c)
    else h in
  let h := Http.Header_Set h "X-Phoenix-SDK-Version" Version in
  let h := Http.Header_Set h "X-Phoenix-SDK-Lang" "go" in
  Http.mkRequest (Http.req_Method req) (Http.req_URL req) h (Http.req_Body req).

(** [Do]: the request is updated in place (it is a pointer), so the
    request as it is after the call is returned with the answer of the
    wrapped client. *)
Definition authHTTPClient_Do (c : authHTTPClient) (req : Http.Request)
  : Http.Request * (Http.Response + string) :=
  let req := authHTTPClient_decorate c req in
  (req, Http.Client_Do (client c) req).

(** The client; the generated REST client [api.Client] is outside the
    repository's hand-written code and is represented by the base URL and
    the transport it was built with. *)
Record Client := mkClientT {
  client_config : Config;
  client_baseURL : string;
  client_transport : authHTTPClient;
}.

(** [NewClient]; [api_NewClient] is the generated constructor, which
    answers an error for a base URL it cannot parse, and [net] is what the
    standard transport of a fresh [http.Client] answers. *)
Definition NewClient (api_NewClient : string -> option error)
    (net : Http.Request -> Http.Response + string)
    (env : Os.Environ) (opts : list Option) : Client + error :=
  let options := apply_options opts (defaultClientOptions env) in
  match Validate (config options) with
  | (_, Some err) => inr err
  | (cfg, None) =>
      let httpClient :=
        match httpClient options with
        | Some c => c
        | None => Http.mkClient (timeout options) net
        end in
      let authClient := mkAuthHTTPClient httpClient (APIKey cfg) in
      match api_NewClient (URL cfg) with
      | Some err => inr err
      | None => inl (mkClientT cfg (URL cfg) authClient)
      end
  end.

(** *** The generated wire types (package internal/api)

    The generated package is not part of the hand-written sources; the
    fields below are the ones the conversions read. *)

Module Api.

(** [OptString]: a value and whether it was present. *)
Record OptString := mkOptString {
  os_Value : string;
  os_Set : bool;
}.

(** [OptNilString]: a value, whether it was present, and whether it was
    the JSON null. *)
Record OptNilString := mkOptNilString {
  ons_Value : string;
  ons_Set : bool;
  ons_Null : bool;
}.

Record Project := mkProject {
  Project_ID : string;
  Project_Name : string;
  Project_Description : OptNilString;
}.

Record SpanContext := mkSpanContext {
  Context_TraceID : string;
  Context_SpanID : string;
}.

Record Span := mkSpan {
  Span_ID : OptString;
  Span_Name : string;
  Span_Context : SpanContext;
  Span_SpanKind : string;
  Span_ParentID : OptNilString;
  Span_StartTime : Z;
  Span_EndTime : Z;
  Span_StatusCode : string;
  Span_StatusMessage : OptString;
}.

End Api.

(** [time.Time] is only copied by the conversions: an instant is the
    number of nanoseconds since the zero time, which is [0]. *)
Definition GoTime := Z.
Definition zero_Time : GoTime := 0%Z.

(** *** Projects *)

Record Project := mkProject {
  Project_ID : string;
  Project_Name : string;
  Project_Description : string;
  Project_CreatedAt : GoTime;
  Project_UpdatedAt : GoTime;
}.

(** The zero value [&Project{}] with [ID] and [Name] set, then the
    description when it is present and not null. *)
Definition convertProject (p : option Api.Project) : option Project :=
  match p with
  | None => None
  | Some p =>
      let project :=
        {| Project_ID := Api.Project_ID p;
           Project_Name := Api.Project_Name p;
           Project_Description := "";
           Project_CreatedAt := zero_Time;
           Project_UpdatedAt := zero_Time |} in
      let project :=
        if Api.ons_Set (Api.Project_Description p) &&
           negb (Api.ons_Null (Api.Project_Description p))
        then mkProject (Project_ID project) (Project_Name project)
               (Api.ons_Value (Api.Project_Description p))
               (Project_CreatedAt project) (Project_UpdatedAt project)
        else project in
      Some project
  end.

(** *** Spans *)

Record Span := mkSpan {
  Span_ID : string;
  Span_Name : string;
  Span_SpanKind : string;
  Span_StatusCode : string;
  Span_StatusMessage : string;
  Span_ParentID : string;
  Span_TraceID : string;
  Span_SpanID : string;
  Span_StartTime : GoTime;
  Span_EndTime : GoTime;
}.

Definition span_set_ID (v : string) (s : Span) : Span :=
  mkSpan v (Span_Name s) (Span_SpanKind s) (Span_StatusCode s)
    (Span_StatusMessage s) (Span_ParentID s) (Span_TraceID s) (Span_SpanID s)
    (Span_StartTime s) (Span_EndTime s).
Definition span_set_StatusMessage (v : string) (s : Span) : Span :=
  mkSpan (Span_ID s) (Span_Name s) (Span_SpanKind s) (Span_StatusCode s)
    v (Span_ParentID s) (Span_TraceID s) (Span_SpanID s)
    (Span_StartTime s) (Span_EndTime s).
Definition span_set_ParentID (v : string) (s : Span) : Span :=
  mkSpan (Span_ID s) (Span_Name s) (Span_SpanKind s) (Span_StatusCode s)
    (Span_StatusMessage s) v (Span_TraceID s) (Span_SpanID s)
    (Span_StartTime s) (Span_EndTime s).

Definition convertSpan (s : option Api.Span) : option Span :=
  match s with
  | None => None
  | Some s =>
      let span :=
        {| Span_ID := "";
           Span_Name := Api.Span_Name s;
           Span_SpanKind := Api.Span_SpanKind s;
           Span_StatusCode := Api.Span_StatusCode s;
           Span_StatusMessage := "";
           Span_ParentID := "";
           Span_TraceID := Api.Context_TraceID (Api.Span_Context s);
           Span_SpanID := Api.Context_SpanID (Api.Span_Context s);
           Span_StartTime := Api.Span_StartTime s;
           Span_EndTime := Api.Span_EndTime s |} in
      let span :=
        if Api.os_Set (Api.Span_ID s)
        then span_set_ID (Api.os_Value (Api.Span_ID s)) span else span in
      let span :=
        if Api.os_Set (Api.Span_StatusMessage s)
        then span_set_StatusMessage
               (Api.os_Value (Api.Span_StatusMessage s)) span
        else span in
      let span :=
        if Api.ons_Set (Api.Span_ParentID s) &&
           negb (Api.ons_Null (Api.Span_ParentID s))
        then span_set_ParentID (Api.ons_Value (Api.Span_ParentID s)) span
        else span in
      Some span
  end.

End Phoenix.

(* ===================================================================== *)
(** ** Package otel *)
(* ===================================================================== *)

Module Otel.

Import GoStrings.

(** *** config.go *)

Definition EnvCollectorEndpoint : string := "PHOENIX_COLLECTOR_ENDPOINT".
Definition EnvProjectName : string := "PHOENIX_PROJECT_NAME".
Definition EnvAPIKey : string := "PHOENIX_API_KEY".
Definition EnvSpaceID : string := "PHOENIX_SPACE_ID".
Definition EnvClientHeaders : string := "PHOENIX_CLIENT_HEADERS".
Definition EnvOTELEndpoint : string := "OTEL_EXPORTER_OTLP_ENDPOINT".

Definition DefaultEndpoint : string := "http://localhost:6006".
Definition DefaultProjectName : string := "default".
Definition DefaultHTTPPath : string := "/v1/traces".

Definition ProtocolHTTP : string := "http/protobuf".
Definition ProtocolGRPC : string := "grpc".
Definition ProtocolInfer : string := "infer".

Definition second : Z := 1000000000.

(** [Headers] is a map that may be nil; [BatchTimeout] is a
    [time.Duration], in nanoseconds. *)
Record Config := mkConfig {
  Endpoint : string;
  SpaceID : string;
  ProjectName : string;
  APIKey : string;
  Headers : option (gmap string string);
  Protocol : string;
  Batch : bool;
  BatchTimeout : Z;
  BatchSize : Z;
  SetGlobalProvider : bool;
  ServiceName : string;
  ServiceVersion : string;
  Insecure : bool;
}.

Definition set_Endpoint (v : string) (c : Config) : Config :=
  mkConfig v (SpaceID c) (ProjectName c) (APIKey c) (Headers c) (Protocol c)
    (Batch c) (BatchTimeout c) (BatchSize c) (SetGlobalProvider c)
    (ServiceName c) (ServiceVersion c) (Insecure c) .
Definition set_SpaceID (v : string) (c : Config) : Config :=
  mkConfig (Endpoint c) v (ProjectName c) (APIKey c) (Headers c) (Protocol c)
    (Batch c) (BatchTimeout c) (BatchSize c) (SetGlobalProvider c)
    (ServiceName c) (ServiceVersion c) (Insecure c) .
Definition set_ProjectName (v : string) (c : Config) : Config :=
  mkConfig (Endpoint c) (SpaceID c) v (APIKey c) (Headers c) (Protocol c)
    (Batch c) (BatchTimeout c) (BatchSize c) (SetGlobalProvider c)
    (ServiceName c) (ServiceVersion c) (Insecure c) .
Definition set_APIKey (v : string) (c : Config) : Config :=
  mkConfig (Endpoint c) (SpaceID c) (ProjectName c) v (Headers c) (Protocol c)
    (Batch c) (BatchTimeout c) (BatchSize c) (SetGlobalProvider c)
    (ServiceName c) (ServiceVersion c) (Insecure c) .
Definition set_Headers (v : option (gmap string string)) (c : Config)
  : Config :=
  mkConfig (Endpoint c) (SpaceID c) (ProjectName c) (APIKey c) v (Protocol c)
    (Batch c) (BatchTimeout c) (BatchSize c) (SetGlobalProvider c)
    (ServiceName c) (ServiceVersion c) (Insecure c) .
Definition set_Protocol (v : string) (c : Config) : Config :=
  mkConfig (Endpoint c) (SpaceID c) (ProjectName c) (APIKey c) (Headers c) v
    (Batch c) (BatchTimeout c) (BatchSize c) (SetGlobalProvider c)
    (ServiceName c) (ServiceVersion c) (Insecure c) .
Definition set_Batch (v : bool) (c : Config) : Config :=
  mkConfig (Endpoint c) (SpaceID c) (ProjectName c) (APIKey c) (Headers c)
    (Protocol c) v (BatchTimeout c) (BatchSize c) (SetGlobalProvider c)
    (ServiceName c) (ServiceVersion c) (Insecure c) .
Definition set_BatchTimeout (v : Z) (c : Config) : Config :=
  mkConfig (Endpoint c) (SpaceID c) (ProjectName c) (APIKey c) (Headers c)
    (Protocol c) (Batch c) v (BatchSize c) (SetGlobalProvider c)
    (ServiceName c) (ServiceVersion c) (Insecure c) .
Definition set_BatchSize (v : Z) (c : Config) : Config :=
  mkConfig (Endpoint c) (SpaceID c) (ProjectName c) (APIKey c) (Headers c)
    (Protocol c) (Batch c) (BatchTimeout c) v (SetGlobalProvider c)
    (ServiceName c) (ServiceVersion c) (Insecure c) .
Definition set_SetGlobalProvider (v : bool) (c : Config) : Config :=
  mkConfig (Endpoint c) (SpaceID c) (ProjectName c) (APIKey c) (Headers c)
    (Protocol c) (Batch c) (BatchTimeout c) (BatchSize c) v (ServiceName c)
    (ServiceVersion c) (Insecure c) .
Definition set_ServiceName (v : string) (c : Config) : Config :=
  mkConfig (Endpoint c) (SpaceID c) (ProjectName c) (APIKey c) (Headers c)
    (Protocol c) (Batch c) (BatchTimeout c) (BatchSize c)
    (SetGlobalProvider c) v (ServiceVersion c) (Insecure c) .
Definition set_ServiceVersion (v : string) (c : Config) : Config :=
  mkConfig (Endpoint c) (SpaceID c) (ProjectName c) (APIKey c) (Headers c)
    (Protocol c) (Batch c) (BatchTimeout c) (BatchSize c)
    (SetGlobalProvider c) (ServiceName c) v (Insecure c) .
Definition set_Insecure (v : bool) (c : Config) : Config :=
  mkConfig (Endpoint c) (SpaceID c) (ProjectName c) (APIKey c) (Headers c)
    (Protocol c) (Batch c) (BatchTimeout c) (BatchSize c)
    (SetGlobalProvider c) (ServiceName c) (ServiceVersion c) v.

Definition is_blank (c : ascii) : bool :=
  Ascii.eqb c " " || Ascii.eqb c "009".

(** [for start < end && blank(s[start]) { start++ }] *)
Fixpoint trim_start (s : string) (start end_ : nat) (fuel : nat) : nat :=
  match fuel with
  | O => start
  | S fuel =>
      if (start <? end_)%nat &&
         match String.get start s with Some c => is_blank c | None => false end
      then trim_start s (S start) end_ fuel
      else start
  end.

(** [for end > start && blank(s[end-1]) { end-- }] *)
Fixpoint trim_end (s : string) (start end_ : nat) (fuel : nat) : nat :=
  match fuel with
  | O => end_
  | S fuel =>
      if (start <? end_)%nat &&
         match String.get (end_ - 1) s with
         | Some c => is_blank c | None => false end
      then trim_end s start (end_ - 1) fuel
      else end_
  end.

(** [trim]: leading and trailing spaces and tabs are removed. *)
Definition trim (s : string) : string :=
  let n := String.length s in
  let start := trim_start s 0 n n in
  let end_ := trim_end s start n n in
  substring start (end_ - start) s.

(** The loop of [splitTrim] over the index [i]; it is called with the
    one-byte separators [","] and ["="], for which [start <= i] holds at
    every slice [s[start:i]]. *)
Fixpoint splitTrim_loop (s sep : string) (fuel i start : nat)
    (result : list string) : list string * nat :=
  match fuel with
  | O => (result, start)
  | S fuel =>
      if (i + String.length sep <=? String.length s)%nat &&
         String.eqb (substring i (String.length sep) s) sep
      then
        let part := trim (substring start (i - start) s) in
        let result :=
          if negb (String.eqb part "") then (result ++ [part])%list
          else result in
        splitTrim_loop s sep fuel (S i) (i + String.length sep) result
      else splitTrim_loop s sep fuel (S i) start result
  end.

Definition splitTrim (s sep : string) : list string :=
  let '(result, start) := splitTrim_loop s sep (String.length s) 0 0 [] in
  let part := trim (substring start (String.length s - start) s) in
  if negb (String.eqb part "") then (result ++ [part])%list else result.

(** [parseHeaders]: [key=value,key2=value2]; later keys overwrite. *)
Definition parseHeaders (s : string) : gmap string string :=
  fold_left
    (fun headers part =>
       match splitTrim part "=" with
       | [k; v] => <[k := v]> headers
       | _ => headers
       end)
    (splitTrim s ",") ∅.

Definition getEnvCollectorEndpoint (env : Os.Environ) : string :=
  let endpoint := Os.Getenv env EnvCollectorEndpoint in
  if negb (String.eqb endpoint "") then endpoint
  else Os.Getenv env EnvOTELEndpoint.

Definition DefaultConfig (env : Os.Environ) : Config :=
  let cfg :=
    {| Endpoint := DefaultEndpoint; SpaceID := "";
       ProjectName := DefaultProjectName; APIKey := ""; Headers := None;
       Protocol := ProtocolInfer; Batch := false;
       BatchTimeout := 5 * second; BatchSize := 512;
       SetGlobalProvider := true; ServiceName := ""; ServiceVersion := "";
       Insecure := false |} in
  let cfg :=
    let endpoint := getEnvCollectorEndpoint env in
    if negb (String.eqb endpoint "") then set_Endpoint endpoint cfg else cfg in
  let cfg :=
    let spaceID := Os.Getenv env EnvSpaceID in
    if negb (String.eqb spaceID "") then
      let cfg := set_SpaceID spaceID cfg in
      if String.eqb (Endpoint cfg) DefaultEndpoint
      then set_Endpoint "https://app.phoenix.arize.com" cfg
      else cfg
    else cfg in
  let cfg :=
    let projectName := Os.Getenv env EnvProjectName in
    if negb (String.eqb projectName "") then set_ProjectName projectName cfg
    else cfg in
  let cfg :=
    let apiKey := Os.Getenv env EnvAPIKey in
    if negb (String.eqb apiKey "") then set_APIKey apiKey cfg else cfg in
  let cfg :=
    let headers := Os.Getenv env EnvClientHeaders in
    if negb (String.eqb headers "")
    then set_Headers (Some (parseHeaders headers)) cfg else cfg in
  cfg.

(** [for len(endpoint) > 0 && endpoint[len(endpoint)-1] == '/'] *)
Fixpoint strip_slashes (endpoint : string) (fuel : nat) : string :=
  match fuel with
  | O => endpoint
  | S fuel =>
      if HasSuffix endpoint "/" && (0 <? String.length endpoint)%nat
      then strip_slashes
             (substring 0 (String.length endpoint - 1) endpoint) fuel
      else endpoint
  end.

Definition EffectiveEndpoint (c : Config) : string :=
  let endpoint := Endpoint c in
  if negb (String.eqb (SpaceID c) "")
  then strip_slashes endpoint (String.length endpoint) ++ "/s/" ++ SpaceID c
  else endpoint.

(** *** Options *)

Inductive Option :=
  | WithEndpoint (endpoint : string)
  | WithSpaceID (spaceID : string)
  | WithProjectName (name : string)
  | WithAPIKey (key : string)
  | WithHeaders (headers : option (gmap string string))
  | WithProtocol (protocol : string)
  | WithBatch (batch : bool)
  | WithBatchTimeout (d : Z)
  | WithBatchSize (size : Z)
  | WithGlobalProvider (global : bool)
  | WithServiceName (name : string)
  | WithServiceVersion (version : string)
  | WithInsecure (insecure : bool).

Definition apply_option (opt : Option) (c : Config) : Config :=
  match opt with
  | WithEndpoint v => set_Endpoint v c
  | WithSpaceID v => set_SpaceID v c
  | WithProjectName v => set_ProjectName v c
  | WithAPIKey v => set_APIKey v c
  | WithHeaders v => set_Headers v c
  | WithProtocol v => set_Protocol v c
  | WithBatch v => set_Batch v c
  | WithBatchTimeout v => set_BatchTimeout v c
  | WithBatchSize v => set_BatchSize v c
  | WithGlobalProvider v => set_SetGlobalProvider v c
  | WithServiceName v => set_ServiceName v c
  | WithServiceVersion v => set_ServiceVersion v c
  | WithInsecure v => set_Insecure v c
  end.

Definition apply_options (opts : list Option) (c : Config) : Config :=
  fold_left (fun c opt => apply_option opt c) opts c.

(** *** register.go *)

(** What [url.Parse] gives for an endpoint: the parts [createExporter]
    reads. *)
Record URL := mkURL {
  Scheme : string;
  Hostname : string;
  Port : string;
  Path : string;
}.

(** The options handed to the OTLP/HTTP exporter. *)
Inductive ExporterOption :=
  | OtlpWithEndpoint (hostport : string)
  | OtlpWithURLPath (path : string)
  | OtlpWithInsecure
  | OtlpWithHeaders (headers : gmap string string).

(** An exporter of the tracing SDK, known by the options it was built
    with. *)
Record SpanExporter := mkSpanExporter {
  exporter_options : list ExporterOption;
}.

(** [attribute.KeyValue], for the value types the code builds. *)
Inductive KeyValue :=
  | AttrString (key value : string)
  | AttrInt (key : string) (value : Z)
  | AttrFloat64 (key : string) (value : float).

(** *** The OpenInference conventions *)

Definition SpanKindLLM : string := "LLM".
Definition SpanKindChain : string := "CHAIN".
Definition SpanKindTool : string := "TOOL".
Definition SpanKindAgent : string := "AGENT".
Definition SpanKindRetriever : string := "RETRIEVER".
Definition SpanKindGuardrail : string := "GUARDRAIL".

Definition OpenInferenceSpanKind : string := "openinference.span.kind".
Definition InputValue : string := "input.value".
Definition OutputValue : string := "output.value".
Definition LLMModelName : string := "llm.model_name".
Definition LLMProvider : string := "llm.provider".
Definition LLMTokenCountPrompt : string := "llm.token_count.prompt".
Definition LLMTokenCountCompletion : string := "llm.token_count.completion".
Definition LLMTokenCountTotal : string := "llm.token_count.total".
Definition MetadataKey : string := "metadata".
Definition TagsKey : string := "tag.tags".
Definition SessionID : string := "session.id".

Definition WithSpanKind (kind : string) :=
  AttrString OpenInferenceSpanKind kind.
Definition WithInput (input : string) := AttrString InputValue input.
Definition WithOutput (output : string) := AttrString OutputValue output.
Definition WithModelName (model : string) := AttrString LLMModelName model.
Definition WithLLMProvider (provider : string) :=
  AttrString LLMProvider provider.
Definition WithSessionID (id : string) := AttrString SessionID id.
Definition WithMetadata (metadata : string) := AttrString MetadataKey metadata.
Definition WithTokenCounts (prompt completion total : Z) : list KeyValue :=
  [AttrInt LLMTokenCountPrompt prompt;
   AttrInt LLMTokenCountCompletion completion;
   AttrInt LLMTokenCountTotal total].

Record Resource := mkResource {
  resource_attrs : list KeyValue;
}.

(** The two span processors of the tracing SDK; batching, its timeout and
    its batch size are the SDK's, the code only passes the parameters. *)
Inductive SpanProcessor :=
  | BatchSpanProcessor (exporter : SpanExporter)
      (batchTimeout : Z) (maxExportBatchSize : Z)
  | SimpleSpanProcessor (exporter : SpanExporter).

(** [sdktrace.TracerProvider], by what it was built with. *)
Record SdkTracerProvider := mkSdkTracerProvider {
  spanProcessors : list SpanProcessor;
  resource : Resource;
}.

Record TracerProvider := mkTracerProvider {
  TracerProvider_sdk : SdkTracerProvider;
  TracerProvider_config : Config;
}.

(** The process-wide tracer provider [otel.SetTracerProvider] assigns;
    [None] is the default one the API package starts with. *)
Definition GlobalProvider := option SdkTracerProvider.

Section Register.

(** The library calls whose answers the code only passes on: [url.Parse],
    [otlptracehttp.New] and [resource.Merge(resource.Default(), ...)], each
    giving the message of its error when it fails. *)
Variable url_Parse : string -> URL + string.
Variable otlptracehttp_New : list ExporterOption -> option string.
Variable resource_Merge : list KeyValue -> option string.

Definition createExporter (cfg : Config) : SpanExporter + Phoenix.error :=
  let endpoint := EffectiveEndpoint cfg in
  let endpoint :=
    if negb (HasPrefix endpoint "http://") &&
       negb (HasPrefix endpoint "https://")
    then "http://" ++ endpoint else endpoint in
  match url_Parse endpoint with
  | inr err => inr (Phoenix.EWrap "invalid endpoint URL: " (Phoenix.EOther err))
  | inl parsedURL =>
      let host := Hostname parsedURL in
      let port := Port parsedURL in
      let port :=
        if String.eqb port "" then
          if String.eqb (Scheme parsedURL) "https" then "443" else "6006"
        else port in
      let exporterOpts := [OtlpWithEndpoint (host ++ ":" ++ port)] in
      let basePath := Path parsedURL in
      let basePath :=
        if String.eqb basePath "" || String.eqb basePath "/" then ""
        else basePath in
      let path := basePath ++ DefaultHTTPPath in
      let exporterOpts := (exporterOpts ++ [OtlpWithURLPath path])%list in
      let exporterOpts :=
        if String.eqb (Scheme parsedURL) "http"
        then (exporterOpts ++ [OtlpWithInsecure])%list else exporterOpts in
      let headers : gmap string string := default ∅ (Headers cfg) in
      let headers :=
        if negb (String.eqb (APIKey cfg) "")
        then <["Authorization" := "Bearer " ++ APIKey cfg]> headers
        else headers in
      let headers :=
        if negb (String.eqb (ProjectName cfg) "")
        then <["x-phoenix-project-name" := ProjectName cfg]> headers
        else headers in
      let exporterOpts :=
        if (0 <? size headers)%nat
        then (exporterOpts ++ [OtlpWithHeaders headers])%list
        else exporterOpts in
      match otlptracehttp_New exporterOpts with
      | Some err => inr (Phoenix.EOther err)
      | None => inl (mkSpanExporter exporterOpts)
      end
  end.

Definition createResource (cfg : Config) : Resource + Phoenix.error :=
  let attrs := [AttrString "openinference.project.name" (ProjectName cfg)] in
  let attrs :=
    if negb (String.eqb (ServiceName cfg) "")
    then (attrs ++ [AttrString "service.name" (ServiceName cfg)])%list
    else attrs in
  let attrs :=
    if negb (String.eqb (ServiceVersion cfg) "")
    then (attrs ++ [AttrString "service.version" (ServiceVersion cfg)])%list
    else attrs in
  match resource_Merge attrs with
  | Some err => inr (Phoenix.EOther err)
  | None => inl (mkResource attrs)
  end.

(** The effective configuration: the defaults and the environment, then
    the options in order. *)
Definition Register_config (env : Os.Environ) (opts : list Option) : Config :=
  apply_options opts (DefaultConfig env).

(** [Register]: the result, and the process-wide provider after the
    call. *)
Definition Register (env : Os.Environ) (opts : list Option)
    (global : GlobalProvider)
  : (TracerProvider + Phoenix.error) * GlobalProvider :=
  let cfg := Register_config env opts in
  match createExporter cfg with
  | inr err => (inr (Phoenix.EWrap "failed to create exporter: " err), global)
  | inl exporter =>
      match createResource cfg with
      | inr err =>
          (inr (Phoenix.EWrap "failed to create resource: " err), global)
      | inl res =>
          let spanProcessor :=
            if Batch cfg
            then BatchSpanProcessor exporter (BatchTimeout cfg) (BatchSize cfg)
            else SimpleSpanProcessor exporter in
          let tp := mkSdkTracerProvider [spanProcessor] res in
          let global := if SetGlobalProvider cfg then Some tp else global in
          (inl (mkTracerProvider tp cfg), global)
      end
  end.

End Register.

End Otel.

(* ===================================================================== *)
(** ** Package llmops of omniobserve: the interface types the code uses *)
(* ===================================================================== *)

Module LlmopsAPI.

(** A Go [any], by its dynamic type: the nil interface, a string, a byte
    slice, a number, a boolean, or a [map[string]any] whose values are
    strings, numbers or booleans. *)
Inductive elem :=
  | EString (s : string)
  | ENumber (z : Z)
  | EBool (b : bool).

Inductive any :=
  | AnyNil
  | AnyString (s : string)
  | AnyBytes (s : string)
  | AnyNumber (z : Z)
  | AnyBool (b : bool)
  | AnyMap (m : gmap string elem).

Record EvalInput := mkEvalInput {
  Input : string;
  Output : string;
  Expected : string;
  EvalInput_SpanID : string;
}.

Record MetricScore := mkMetricScore {
  MetricScore_Name : string;
  MetricScore_Score : float;
  MetricScore_Reason : string;
  MetricScore_Metadata : any;
  MetricScore_Error : string;
}.

(** The interface [Metric]: [Name()] and [Evaluate(input)], whose error is
    given by its message ([None] is the nil error). *)
Record Metric := mkMetric {
  Metric_Name : string;
  Metric_Evaluate : EvalInput -> MetricScore * option string;
}.

(** [EvalResult]; [Metadata] is a map that may be nil.  The field
    [Duration] is a reading of the wall clock and is left out. *)
Record EvalResult := mkEvalResult {
  Scores : list MetricScore;
  EvalResult_Metadata : option (gmap string elem);
}.

Record FeedbackScoreOpts := mkFeedbackScoreOpts {
  FeedbackScoreOpts_TraceID : string;
  FeedbackScoreOpts_SpanID : string;
  FeedbackScoreOpts_Name : string;
  FeedbackScoreOpts_Score : float;
  FeedbackScoreOpts_Reason : string;
  FeedbackScoreOpts_Source : string;
}.

(** [FeedbackOptions], what the options of a wrapper's [AddFeedbackScore]
    fill in. *)
Record FeedbackOptions := mkFeedbackOptions {
  FeedbackOptions_Reason : string;
  FeedbackOptions_Category : string;
  FeedbackOptions_Source : string;
}.

(** A run either returns or stops in a run-time panic. *)
Inductive outcome (A : Type) :=
  | Returned (a : A)
  | Panicked (msg : string).

Arguments Returned {A} a.
Arguments Panicked {A} msg.

End LlmopsAPI.

(* ===================================================================== *)
(** ** Package evals *)
(* ===================================================================== *)

Module Evals.

Import LlmopsAPI.

(** *** The generated wire types of annotations (package internal/api) *)

Record OptNilFloat64 := mkOptNilFloat64 {
  onf_Value : float;
  onf_Set : bool;
  onf_Null : bool;
}.

Definition unset_float : OptNilFloat64 := mkOptNilFloat64 0%float false false.
Definition unset_string : Phoenix.Api.OptNilString :=
  Phoenix.Api.mkOptNilString "" false false.

Record AnnotationResult := mkAnnotationResult {
  Result_Score : OptNilFloat64;
  Result_Explanation : Phoenix.Api.OptNilString;
  Result_Label : Phoenix.Api.OptNilString;
}.

Definition SetScore (v : OptNilFloat64) (r : AnnotationResult) :=
  mkAnnotationResult v (Result_Explanation r) (Result_Label r).
Definition SetExplanation (v : Phoenix.Api.OptNilString)
    (r : AnnotationResult) :=
  mkAnnotationResult (Result_Score r) v (Result_Label r).
Definition SetLabel (v : Phoenix.Api.OptNilString) (r : AnnotationResult) :=
  mkAnnotationResult (Result_Score r) (Result_Explanation r) v.

Inductive AnnotatorKind := KindLLM | KindCODE | KindHUMAN.

Record OptAnnotationResult := mkOptAnnotationResult {
  oar_Value : AnnotationResult;
  oar_Set : bool;
}.

Record SpanAnnotationData := mkSpanAnnotationData {
  Annotation_SpanID : string;
  Annotation_Name : string;
  Annotation_AnnotatorKind : AnnotatorKind;
  Annotation_Result : OptAnnotationResult;
}.

(** *** evaluator.go *)

(** [client] is a pointer that may be nil. *)
Record Evaluator := mkEvaluator {
  client : option Phoenix.Client;
  recordResults : bool;
}.

Definition NewEvaluator (client : option Phoenix.Client) : Evaluator :=
  {| client := client; recordResults := true |}.

Inductive EvaluatorOption :=
  | WithRecordResults (record : bool).

Definition apply_option (opt : EvaluatorOption) (e : Evaluator) : Evaluator :=
  match opt with
  | WithRecordResults record => mkEvaluator (client e) record
  end.

Definition NewEvaluatorWithOptions (client : option Phoenix.Client)
    (opts : list EvaluatorOption) : Evaluator :=
  fold_left (fun e opt => apply_option opt e) opts (NewEvaluator client).

Definition buildAnnotationResult (score : float) (reason : string)
  : AnnotationResult :=
  let result := mkAnnotationResult unset_float unset_string unset_string in
  let result := SetScore (mkOptNilFloat64 score true false) result in
  if negb (String.eqb reason "")
  then SetExplanation (Phoenix.Api.mkOptNilString reason true false) result
  else result.

Definition parseSpanAnnotatorKind (source : string) : AnnotatorKind :=
  if String.eqb source "llm" || String.eqb source "LLM" then KindLLM
  else if String.eqb source "code" || String.eqb source "CODE" then KindCODE
  else KindHUMAN.

(** The checked assertion [m, ok := score.Metadata.(map[string]any)]: a
    metadata of another type gives the default. *)
Definition inferAnnotatorKind (score : MetricScore) : AnnotatorKind :=
  match MetricScore_Metadata score with
  | AnyMap m =>
      match m !! "kind" with
      | Some (EString kind) =>
          if String.eqb kind "llm" || String.eqb kind "LLM" then KindLLM
          else if String.eqb kind "code" || String.eqb kind "CODE" then KindCODE
          else if String.eqb kind "human" || String.eqb kind "HUMAN"
          then KindHUMAN
          else KindCODE
      | _ => KindCODE
      end
  | _ => KindCODE
  end.

(** The label of a score.  [score.Metadata.(map[string]any)] is the
    unchecked form of the assertion: on a metadata that is not nil and not
    a [map[string]any] it panics; the outer [.(string)] is checked. *)
Definition score_label (score : MetricScore) (result : AnnotationResult)
  : outcome AnnotationResult :=
  match MetricScore_Metadata score with
  | AnyNil => Returned result
  | AnyMap m =>
      match m !! "label" with
      | Some (EString label) =>
          Returned
            (SetLabel (Phoenix.Api.mkOptNilString label true false) result)
      | _ => Returned result
      end
  | _ =>
      Panicked
        "interface conversion: interface {} is not map[string]interface {}"
  end.

(** The loop of [recordScoresToPhoenix] building the annotations. *)
Fixpoint build_annotations (spanID : string) (scores : list MetricScore)
    (annotations : list SpanAnnotationData)
  : outcome (list SpanAnnotationData) :=
  match scores with
  | [] => Returned annotations
  | score :: rest =>
      if negb (String.eqb (MetricScore_Error score) "")
      then build_annotations spanID rest annotations
      else
        let kind := inferAnnotatorKind score in
        let result :=
          mkAnnotationResult unset_float unset_string unset_string in
        let result :=
          SetScore (mkOptNilFloat64 (MetricScore_Score score) true false)
            result in
        let result :=
          if negb (String.eqb (MetricScore_Reason score) "")
          then SetExplanation
                 (Phoenix.Api.mkOptNilString (MetricScore_Reason score)
                    true false)
                 result
          else result in
        match score_label score result with
        | Panicked msg => Panicked msg
        | Returned result =>
            let annotation :=
              {| Annotation_SpanID := spanID;
                 Annotation_Name := MetricScore_Name score;
                 Annotation_AnnotatorKind := kind;
                 Annotation_Result := mkOptAnnotationResult result true |} in
            build_annotations spanID rest (annotations ++ [annotation])%list
        end
  end.

(** The loop of [Evaluate] over the metrics. *)
Fixpoint run_metrics (input : EvalInput) (metrics : list Metric)
    (scores : list MetricScore) : list MetricScore :=
  match metrics with
  | [] => scores
  | metric :: rest =>
      let '(score, err) := Metric_Evaluate metric input in
      let score :=
        match err with
        | Some msg =>
            {| MetricScore_Name := Metric_Name metric;
               MetricScore_Score := 0%float;
               MetricScore_Reason := "";
               MetricScore_Metadata := AnyNil;
               MetricScore_Error := msg |}
        | None => score
        end in
      run_metrics input rest (scores ++ [score])%list
  end.

Section Evaluate.

(** The REST call [AnnotateSpans] of the generated client: the message of
    the error it returns for a request body, [None] when it succeeds. *)
Variable api_AnnotateSpans :
  Phoenix.Client -> list SpanAnnotationData -> option string.

(** What a run did: the request bodies sent, in order, and its outcome. *)
Definition recordScoresToPhoenix (e : Evaluator) (spanID : string)
    (scores : list MetricScore)
  : list (list SpanAnnotationData) * outcome (option string) :=
  match build_annotations spanID scores [] with
  | Panicked msg => ([], Panicked msg)
  | Returned annotations =>
      if (List.length annotations =? 0)%nat then ([], Returned None)
      else
        match client e with
        | None =>
            ([], Panicked "invalid memory address or nil pointer dereference")
        | Some c => ([annotations], Returned (api_AnnotateSpans c annotations))
        end
  end.

(** [Evaluate]: the request bodies sent, and the returned pair of the
    result (a pointer, [None] when nil) and the error. *)
Definition Evaluate (e : Evaluator) (input : EvalInput) (metrics : list Metric)
  : list (list SpanAnnotationData) *
    outcome (option EvalResult * option Phoenix.error) :=
  let scores := run_metrics input metrics [] in
  let result := {| Scores := scores; EvalResult_Metadata := None |} in
  if recordResults e && negb (String.eqb (EvalInput_SpanID input) "") then
    match recordScoresToPhoenix e (EvalInput_SpanID input) scores with
    | (sent, Panicked msg) => (sent, Panicked msg)
    | (sent, Returned (Some err)) =>
        let result :=
          mkEvalResult (Scores result)
            (Some {["record_error" := EString err]}) in
        (sent, Returned (Some result, None))
    | (sent, Returned None) => (sent, Returned (Some result, None))
    end
  else ([], Returned (Some result, None)).

End Evaluate.

End Evals.

(* ===================================================================== *)
(** ** Package llmops of the repository: the tracing adapter *)
(* ===================================================================== *)

Module Adapter.

Import LlmopsAPI.

(** *** The tracing API (go.opentelemetry.io/otel/trace) *)

(** A [TraceID] is 16 bytes and a [SpanID] 8 bytes, read as big-endian
    numbers; [String()] writes them as 32 and 16 lower-case hexadecimal
    digits. *)
Record SpanContext := mkSpanContext {
  sc_TraceID : Z;
  sc_SpanID : Z;
}.

Definition hex_digit (n : Z) : ascii :=
  match String.get (Z.to_nat n) "0123456789abcdef" with
  | Some c => c
  | None => "0"%char
  end.

Fixpoint hex_fixed (width : nat) (z : Z) : string :=
  match width with
  | O => ""
  | S w => hex_fixed w (z / 16) ++ String (hex_digit (z mod 16)) ""
  end.

Definition TraceID_String (tid : Z) : string := hex_fixed 32 tid.
Definition SpanID_String (sid : Z) : string := hex_fixed 16 sid.

(** [TraceID.IsValid]: not all bytes are zero. *)
Definition TraceID_IsValid (tid : Z) : bool := negb (tid =? 0)%Z.

(** A [trace.Span] value: the span object of the SDK it refers to (its
    handle) and that span's immutable span context. *)
Record OtelSpan := mkOtelSpan {
  otel_handle : nat;
  otel_SpanContext : SpanContext;
}.

(** The calls the adapter makes on spans of the SDK, which records them. *)
Inductive OtelCall :=
  | SetAttributes (span : nat) (attrs : list Otel.KeyValue)
  | AddEvent (span : nat) (name : string) (attrs : list Otel.KeyValue).

(** *** The span and trace wrappers

    The fields [provider] (there is one provider), [startTime], [endTime]
    and [mu] are left out: no identifier depends on them. *)

Inductive SpanType :=
  | SpanTypeUnset
  | SpanTypeLLM | SpanTypeTool | SpanTypeAgent | SpanTypeChain
  | SpanTypeRetrieval | SpanTypeGuardrail
  | SpanTypeOther (s : string).

Record spanWrapper := mkSpanWrapper {
  span_otelSpan : OtelSpan;
  span_traceID : string;
  span_parentSpanID : string;
  span_name : string;
  span_spanType : SpanType;
}.

Record traceWrapper := mkTraceWrapper {
  trace_otelSpan : OtelSpan;
  trace_name : string;
}.

Record TokenUsage := mkTokenUsage {
  PromptTokens : Z;
  CompletionTokens : Z;
  TotalTokens : Z;
}.

(** [llmops.SpanOptions] and [llmops.TraceOptions], as
    [ApplySpanOptions] and [ApplyTraceOptions] return them. *)
Record SpanOptions := mkSpanOptions {
  so_Type : SpanType;
  so_Input : any;
  so_Metadata : option (gmap string elem);
  so_Tags : list string;
  so_Model : string;
  so_Provider : string;
  so_Usage : option TokenUsage;
}.

Record TraceOptions := mkTraceOptions {
  to_Input : any;
  to_Metadata : option (gmap string elem);
  to_Tags : list string;
  to_ThreadID : string;
}.

(** *** Request-scoped contexts ([context.Context])

    A context is the chain of [context.WithValue] calls that built it;
    [Value] answers with the innermost binding of the key. *)
Inductive ctxKey :=
  | currentSpanKey
  | traceContextKey
  | spanContextKey
  | userKey (k : string).

Definition ctxKey_eqb (a b : ctxKey) : bool :=
  match a, b with
  | currentSpanKey, currentSpanKey => true
  | traceContextKey, traceContextKey => true
  | spanContextKey, spanContextKey => true
  | userKey k, userKey k' => String.eqb k k'
  | _, _ => false
  end.

Inductive ctxValue :=
  | VOtelSpan (s : OtelSpan)
  | VTrace (t : traceWrapper)
  | VSpan (s : spanWrapper)
  | VUser (v : any).

Inductive Context :=
  | Background
  | WithValue (parent : Context) (key : ctxKey) (val : ctxValue).

Fixpoint Value (ctx : Context) (key : ctxKey) : option ctxValue :=
  match ctx with
  | Background => None
  | WithValue parent k v =>
      if ctxKey_eqb k key then Some v else Value parent key
  end.

(** [trace.ContextWithSpan] and [trace.SpanFromContext] of the tracing
    API ([None]: the context carries no span). *)
Definition ContextWithSpan (ctx : Context) (s : OtelSpan) : Context :=
  WithValue ctx currentSpanKey (VOtelSpan s).

Definition otel_SpanFromContext (ctx : Context) : option OtelSpan :=
  match Value ctx currentSpanKey with
  | Some (VOtelSpan s) => Some s
  | _ => None
  end.

Definition contextWithTrace (ctx : Context) (t : traceWrapper) : Context :=
  WithValue ctx traceContextKey (VTrace t).

Definition traceFromContext (ctx : Context) : option traceWrapper :=
  match Value ctx traceContextKey with
  | Some (VTrace t) => Some t
  | _ => None
  end.

Definition contextWithSpan (ctx : Context) (s : spanWrapper) : Context :=
  WithValue ctx spanContextKey (VSpan s).

Definition spanFromContext (ctx : Context) : option spanWrapper :=
  match Value ctx spanContextKey with
  | Some (VSpan s) => Some s
  | _ => None
  end.

(** *** Identifiers of the wrappers *)

Definition span_ID (s : spanWrapper) : string :=
  SpanID_String (sc_SpanID (otel_SpanContext (span_otelSpan s))).

Definition span_TraceID (s : spanWrapper) : string :=
  if String.eqb (span_traceID s) ""
  then TraceID_String (sc_TraceID (otel_SpanContext (span_otelSpan s)))
  else span_traceID s.

Definition span_ParentSpanID (s : spanWrapper) : string := span_parentSpanID s.

Definition trace_ID (t : traceWrapper) : string :=
  TraceID_String (sc_TraceID (otel_SpanContext (trace_otelSpan t))).

Definition mapSpanTypeToOpenInference (spanType : SpanType) : string :=
  match spanType with
  | SpanTypeLLM => Otel.SpanKindLLM
  | SpanTypeTool => Otel.SpanKindTool
  | SpanTypeAgent => Otel.SpanKindAgent
  | SpanTypeChain => Otel.SpanKindChain
  | SpanTypeRetrieval => Otel.SpanKindRetriever
  | SpanTypeGuardrail => Otel.SpanKindGuardrail
  | _ => Otel.SpanKindChain
  end.

Definition SpanType_is_empty (t : SpanType) : bool :=
  match t with SpanTypeUnset => true | _ => false end.

(** [buildFeedbackAttrs] *)
Definition buildFeedbackAttrs (name : string) (score : float)
    (cfg : FeedbackOptions) : list Otel.KeyValue :=
  let attrs :=
    [Otel.AttrString "feedback.name" name;
     Otel.AttrFloat64 "feedback.score" score] in
  let attrs :=
    if negb (String.eqb (FeedbackOptions_Reason cfg) "")
    then (attrs ++
          [Otel.AttrString "feedback.reason" (FeedbackOptions_Reason cfg)])%list
    else attrs in
  let attrs :=
    if negb (String.eqb (FeedbackOptions_Category cfg) "")
    then (attrs ++
          [Otel.AttrString "feedback.category"
             (FeedbackOptions_Category cfg)])%list
    else attrs in
  let attrs :=
    if negb (String.eqb (FeedbackOptions_Source cfg) "")
    then (attrs ++
          [Otel.AttrString "feedback.source" (FeedbackOptions_Source cfg)])%list
    else attrs in
  attrs.

(** A feedback option is the function it applies to the options. *)
Definition FeedbackOption := FeedbackOptions -> FeedbackOptions.

Definition apply_feedback_options (opts : list FeedbackOption)
  : FeedbackOptions :=
  fold_left (fun cfg opt => opt cfg) opts (mkFeedbackOptions "" "" "").

(** [AddFeedbackScore] of a span wrapper and of a trace wrapper: one
    ["feedback"] event on the wrapped span; the error is always nil. *)
Definition span_AddFeedbackScore (s : spanWrapper) (name : string)
    (score : float) (opts : list FeedbackOption) : list OtelCall :=
  [AddEvent (otel_handle (span_otelSpan s)) "feedback"
     (buildFeedbackAttrs name score (apply_feedback_options opts))].

Definition trace_AddFeedbackScore (t : traceWrapper) (name : string)
    (score : float) (opts : list FeedbackOption) : list OtelCall :=
  [AddEvent (otel_handle (trace_otelSpan t)) "feedback"
     (buildFeedbackAttrs name score (apply_feedback_options opts))].

(** [llmops.ErrNoActiveTrace], the one error the adapter returns here. *)
Inductive adapter_error := ErrNoActiveTrace.

(** [Provider.AddFeedbackScore]: the calls made on spans of the SDK and
    the returned error. *)
Definition Provider_AddFeedbackScore (ctx : Context) (opts : FeedbackScoreOpts)
  : list OtelCall * option adapter_error :=
  match spanFromContext ctx with
  | Some s =>
      (span_AddFeedbackScore s (FeedbackScoreOpts_Name opts)
         (FeedbackScoreOpts_Score opts) [], None)
  | None =>
      match traceFromContext ctx with
      | Some t =>
          (trace_AddFeedbackScore t (FeedbackScoreOpts_Name opts)
             (FeedbackScoreOpts_Score opts) [], None)
      | None => ([], Some ErrNoActiveTrace)
      end
  end.


Definition Provider_SpanFromContext (ctx : Context)
  : option spanWrapper * bool :=
  match spanFromContext ctx with
  | None => (None, false)
  | Some s => (Some s, true)
  end.

Section Tracer.

(** The tracer of the SDK, obtained from the registered provider: its
    state, and the span it makes for a context and a name.  [json_Marshal]
    is [encoding/json]'s, [None] when it fails. *)
Variable Tracer : Type.
Variable tracer_newSpan : Tracer -> Context -> string -> Tracer * OtelSpan.
Variable json_Marshal : any -> option string.

(** [tracer.Start]: the new span, and the context carrying it. *)
Definition tracer_Start (tr : Tracer) (ctx : Context) (name : string)
  : Tracer * Context * OtelSpan :=
  let '(tr, s) := tracer_newSpan tr ctx name in
  (tr, ContextWithSpan ctx s, s).

Definition toString (v : any) : string :=
  match v with
  | AnyNil => ""
  | AnyString val => val
  | AnyBytes val => val
  | _ => match json_Marshal v with Some data => data | None => "" end
  end.

Definition is_nil (v : any) : bool :=
  match v with AnyNil => true | _ => false end.

(** The attributes [SetInput], [SetMetadata] and [AddTag] write. *)
Definition SetInput_calls (h : nat) (input : any) : list OtelCall :=
  [SetAttributes h [Otel.WithInput (toString input)]].

Definition SetMetadata_calls (h : nat) (metadata : gmap string elem)
  : list OtelCall :=
  match json_Marshal (AnyMap metadata) with
  | Some data => [SetAttributes h [Otel.WithMetadata data]]
  | None => []
  end.

Definition AddTag_calls (h : nat) (tag : string) : list OtelCall :=
  [SetAttributes h [Otel.AttrString Otel.TagsKey tag]].

(** [newSpan]: the wrapper, and the attributes written from the options. *)
Definition newSpan (name : string) (otelSpan : OtelSpan)
    (traceID parentSpanID : string) (cfg : SpanOptions)
  : spanWrapper * list OtelCall :=
  let s :=
    {| span_otelSpan := otelSpan; span_traceID := traceID;
       span_parentSpanID := parentSpanID; span_name := name;
       span_spanType := so_Type cfg |} in
  let h := otel_handle otelSpan in
  let calls :=
    ((if negb (SpanType_is_empty (so_Type cfg))
      then [SetAttributes h
              [Otel.WithSpanKind (mapSpanTypeToOpenInference (so_Type cfg))]]
      else []) ++
     (if negb (is_nil (so_Input cfg)) then SetInput_calls h (so_Input cfg)
      else []) ++
     (match so_Metadata cfg with
      | Some m => SetMetadata_calls h m
      | None => []
      end) ++
     concat (map (AddTag_calls h) (so_Tags cfg)) ++
     (if negb (String.eqb (so_Model cfg) "")
      then [SetAttributes h [Otel.WithModelName (so_Model cfg)]] else []) ++
     (if negb (String.eqb (so_Provider cfg) "")
      then [SetAttributes h [Otel.WithLLMProvider (so_Provider cfg)]]
      else []) ++
     (match so_Usage cfg with
      | Some usage =>
          [SetAttributes h
             (Otel.WithTokenCounts (PromptTokens usage)
                (CompletionTokens usage) (TotalTokens usage))]
      | None => []
      end))%list in
  (s, calls).

Definition newTrace (name : string) (otelSpan : OtelSpan) (cfg : TraceOptions)
  : traceWrapper * list OtelCall :=
  let t := {| trace_otelSpan := otelSpan; trace_name := name |} in
  let h := otel_handle otelSpan in
  let calls :=
    ((if negb (is_nil (to_Input cfg)) then SetInput_calls h (to_Input cfg)
      else []) ++
     (match to_Metadata cfg with
      | Some m => SetMetadata_calls h m
      | None => []
      end) ++
     concat (map (AddTag_calls h) (to_Tags cfg)) ++
     (if negb (String.eqb (to_ThreadID cfg) "")
      then [SetAttributes h [Otel.WithSessionID (to_ThreadID cfg)]]
      else []))%list in
  (t, calls).

(** What starting a trace or a span gives: the tracer afterwards, the
    calls made on the new span, the returned context and the wrapper. *)
Record started (A : Type) := mkStarted {
  st_tracer : Tracer;
  st_calls : list OtelCall;
  st_ctx : Context;
  st_value : A;
}.

Arguments mkStarted {A}.
Arguments st_tracer {A}.
Arguments st_calls {A}.
Arguments st_ctx {A}.
Arguments st_value {A}.

(** *** The provider *)

Definition Provider_StartTrace (tr : Tracer) (ctx : Context) (name : string)
    (cfg : TraceOptions) : started traceWrapper :=
  let '(tr, ctx, otelSpan) := tracer_Start tr ctx name in
  let '(t, calls) := newTrace name otelSpan cfg in
  let ctx := contextWithTrace ctx t in
  mkStarted tr calls ctx t.

Definition Provider_StartSpan (tr : Tracer) (ctx : Context) (name : string)
    (cfg : SpanOptions) : started spanWrapper :=
  let parentTraceID :=
    match traceFromContext ctx with
    | Some t => trace_ID t
    | None => ""
    end in
  let '(parentTraceID, parentSpanID) :=
    match spanFromContext ctx with
    | Some s =>
        (if String.eqb parentTraceID "" then span_TraceID s else parentTraceID,
         span_ID s)
    | None => (parentTraceID, "")
    end in
  let '(tr, ctx, otelSpan) := tracer_Start tr ctx name in
  let '(s, calls) := newSpan name otelSpan parentTraceID parentSpanID cfg in
  let ctx := contextWithSpan ctx s in
  mkStarted tr calls ctx s.

(** [traceWrapper.StartSpan] *)
Definition trace_StartSpan (t : traceWrapper) (tr : Tracer) (ctx : Context)
    (name : string) (cfg : SpanOptions) : started spanWrapper :=
  let '(tr, ctx, otelSpan) := tracer_Start tr ctx name in
  let '(s, calls) := newSpan name otelSpan (trace_ID t) "" cfg in
  let ctx := contextWithSpan ctx s in
  mkStarted tr calls ctx s.

(** [spanWrapper.StartSpan] *)
Definition span_StartSpan (s : spanWrapper) (tr : Tracer) (ctx : Context)
    (name : string) (cfg : SpanOptions) : started spanWrapper :=
  let '(tr, ctx, otelSpan) := tracer_Start tr ctx name in
  let '(child, calls) :=
    newSpan name otelSpan (span_TraceID s) (span_ID s) cfg in
  let ctx := contextWithSpan ctx child in
  mkStarted tr calls ctx child.

End Tracer.


Arguments mkStarted {Tracer A}.
Arguments st_tracer {Tracer A}.
Arguments st_calls {Tracer A}.
Arguments st_ctx {Tracer A}.
Arguments st_value {Tracer A}.
Arguments tracer_Start {Tracer}.
Arguments Provider_StartTrace {Tracer}.
Arguments Provider_StartSpan {Tracer}.
Arguments trace_StartSpan {Tracer}.
Arguments span_StartSpan {Tracer}.




End Adapter.

(* ===================================================================== *)
(** ** Specification-level definitions and concrete inputs *)
(* ===================================================================== *)

Module Spec.

Import Phoenix.

(** "err wraps the sentinel": the sentinel itself, an error wrapping one
    that wraps it, or a join with a member that wraps it. *)
Inductive wraps : error -> sentinel -> Prop :=
  | wraps_self (s : sentinel) : wraps (ESentinel s) s
  | wraps_wrap (msg : string) (e : error) (s : sentinel) :
      wraps e s -> wraps (EWrap msg e) s
  | wraps_join (errs : list error) (e : error) (s : sentinel) :
      In e errs -> wraps e s -> wraps (EJoin errs) s.

(** The six sentinels [IsNotFound] looks for. *)
Definition not_found_sentinels : list sentinel :=
  [ErrProjectNotFound; ErrTraceNotFound; ErrSpanNotFound; ErrDatasetNotFound;
   ErrExperimentNotFound; ErrPromptNotFound].

(** The value an optional wire field stands for: the value when present
    (and, for a nullable field, not null), the zero value otherwise. *)
Definition opt_value (o : Api.OptString) : string :=
  if Api.os_Set o then Api.os_Value o else "".

Definition optnil_value (o : Api.OptNilString) : string :=
  if Api.ons_Set o && negb (Api.ons_Null o) then Api.ons_Value o else "".

(** The score [Evaluate] keeps for a metric: the metric's own, or its name
    with the message of its error. *)
Definition metric_score (input : LlmopsAPI.EvalInput)
    (metric : LlmopsAPI.Metric) : LlmopsAPI.MetricScore :=
  match snd (LlmopsAPI.Metric_Evaluate metric input) with
  | Some msg =>
      LlmopsAPI.mkMetricScore (LlmopsAPI.Metric_Name metric) 0%float ""
        LlmopsAPI.AnyNil msg
  | None => fst (LlmopsAPI.Metric_Evaluate metric input)
  end.

(** *** The configuration resolver, as the specification words it

    Per field: an explicitly given value wins over the environment, and the
    environment over the default. *)

(** A variable counts as set when its value is not empty. *)
Definition env_value (env : Os.Environ) (key : string) : option string :=
  let v := Os.Getenv env key in
  if String.eqb v "" then None else Some v.

Definition priority (explicit env : option string) (dflt : string) : string :=
  match explicit with
  | Some v => v
  | None => match env with Some v => v | None => dflt end
  end.

(** The value the last option that sets the field gives it. *)
Fixpoint last_explicit (field : Option -> option string) (opts : list Option)
  : option string :=
  match opts with
  | [] => None
  | opt :: rest =>
      match last_explicit field rest with
      | Some v => Some v
      | None => field opt
      end
  end.

Definition explicit_URL (opt : Option) : option string :=
  match opt with
  | WithURL url => Some url
  | WithConfig cfg => Some (URL cfg)
  | _ => None
  end.

Definition explicit_SpaceID (opt : Option) : option string :=
  match opt with
  | WithSpaceID spaceID => Some spaceID
  | WithConfig cfg => Some (SpaceID cfg)
  | _ => None
  end.

Definition explicit_APIKey (opt : Option) : option string :=
  match opt with
  | WithAPIKey apiKey => Some apiKey
  | WithConfig cfg => Some (APIKey cfg)
  | _ => None
  end.

Definition explicit_ProjectName (opt : Option) : option string :=
  match opt with
  | WithProjectName projectName => Some projectName
  | WithConfig cfg => Some (ProjectName cfg)
  | _ => None
  end.

(** The URL the environment gives: [PHOENIX_URL] over the default, and
    Phoenix Cloud in place of a still-default URL when [PHOENIX_SPACE_ID]
    is set. *)
Definition env_URL (env : Os.Environ) : string :=
  let url := priority None (env_value env EnvURL) DefaultURL in
  match env_value env EnvSpaceID with
  | Some _ =>
      if String.eqb url DefaultURL then "https://app.phoenix.arize.com"
      else url
  | None => url
  end.

Definition resolve (env : Os.Environ) (opts : list Option) : Config :=
  {| URL := match last_explicit explicit_URL opts with
            | Some v => v
            | None => env_URL env
            end;
     SpaceID := priority (last_explicit explicit_SpaceID opts)
                  (env_value env EnvSpaceID) "";
     APIKey := priority (last_explicit explicit_APIKey opts)
                 (env_value env EnvAPIKey) "";
     ProjectName := priority (last_explicit explicit_ProjectName opts)
                      (env_value env EnvProjectName) DefaultProjectName |}.

(** An error wrapped by [fmt.Errorf] once per message, outermost first. *)
Fixpoint wrap_all (msgs : list string) (e : error) : error :=
  match msgs with
  | [] => e
  | msg :: rest => EWrap msg (wrap_all rest e)
  end.

(** The event a feedback score is recorded as on the span with handle
    [h]: its name and its value, nothing else. *)
Definition feedback_event (h : nat) (name : string) (score : float)
  : Adapter.OtelCall :=
  Adapter.AddEvent h "feedback"
    [Otel.AttrString "feedback.name" name;
     Otel.AttrFloat64 "feedback.score" score].

End Spec.

(** Concrete inputs used by the examples below. *)
Module Fixtures.

Definition no_network (_ : Http.Request) : Http.Response + string :=
  inr "connection refused".

Definition plain_client : Http.Client := Http.mkClient 0 no_network.

(** A transport wrapper with no API key configured. *)
Definition keyless : Phoenix.authHTTPClient :=
  Phoenix.mkAuthHTTPClient plain_client "".

Definition get_projects : Http.Request :=
  Http.mkRequest "GET" "http://localhost:6006/v1/projects" ∅ "".

Definition cloud_env : Os.Environ :=
  {[ "PHOENIX_SPACE_ID" := "team-a"; "PHOENIX_API_KEY" := "env-key" ]}.

(** A tracer that numbers its spans: the trace identifier of a valid
    parent in the context is continued, and a fresh one is the number of
    the span. *)
Definition counter_newSpan (n : nat) (ctx : Adapter.Context) (name : string)
  : nat * Adapter.OtelSpan :=
  let fresh := Z.of_nat (S n) in
  let tid :=
    match Adapter.otel_SpanFromContext ctx with
    | Some p =>
        let ptid := Adapter.sc_TraceID (Adapter.otel_SpanContext p) in
        if Adapter.TraceID_IsValid ptid then ptid else fresh
    | None => fresh
    end in
  (S n, Adapter.mkOtelSpan n (Adapter.mkSpanContext tid fresh)).

Definition no_json (_ : LlmopsAPI.any) : option string := None.

Definition plain_span : Adapter.SpanOptions :=
  Adapter.mkSpanOptions Adapter.SpanTypeUnset LlmopsAPI.AnyNil None [] "" ""
    None.

Definition llm_span : Adapter.SpanOptions :=
  Adapter.mkSpanOptions Adapter.SpanTypeLLM (LlmopsAPI.AnyString "hi") None
    ["demo"] "gpt" "" None.

Definition plain_trace : Adapter.TraceOptions :=
  Adapter.mkTraceOptions LlmopsAPI.AnyNil None [] "".

(** A trace started on the empty context, a span started under it, and a
    second trace started inside that span. *)
Definition root_trace : Adapter.started nat Adapter.traceWrapper :=
  Adapter.Provider_StartTrace counter_newSpan no_json 0 Adapter.Background
    "root" plain_trace.

Definition first_span : Adapter.started nat Adapter.spanWrapper :=
  Adapter.Provider_StartSpan counter_newSpan no_json
    (Adapter.st_tracer root_trace) (Adapter.st_ctx root_trace) "step" llm_span.





(** A metric whose score carries a metadata that is not a map, as in the
    repository's test "wrong metadata type". *)
Definition wrong_metadata_score : LlmopsAPI.MetricScore :=
  {| LlmopsAPI.MetricScore_Name := "test";
     LlmopsAPI.MetricScore_Score := 1%float;
     LlmopsAPI.MetricScore_Reason := "";
     LlmopsAPI.MetricScore_Metadata := LlmopsAPI.AnyString "not a map";
     LlmopsAPI.MetricScore_Error := "" |}.

Definition wrong_metadata_metric : LlmopsAPI.Metric :=
  LlmopsAPI.mkMetric "test" (fun _ => (wrong_metadata_score, None)).

Definition failing_metric : LlmopsAPI.Metric :=
  LlmopsAPI.mkMetric "error_metric"
    (fun _ => (LlmopsAPI.mkMetricScore "" 0%float "" LlmopsAPI.AnyNil "",
               Some "test metric error")).

Definition exact_match : LlmopsAPI.Metric :=
  LlmopsAPI.mkMetric "exact_match"
    (fun input =>
       (LlmopsAPI.mkMetricScore "exact_match"
          (if String.eqb (LlmopsAPI.Output input) (LlmopsAPI.Expected input)
           then 1%float else 0%float)
          "" LlmopsAPI.AnyNil "", None)).

Definition span_input : LlmopsAPI.EvalInput :=
  LlmopsAPI.mkEvalInput "What is the capital of France?"
    "The capital of France is Paris." "" "span-123".

Definition local_client : Phoenix.Client :=
  Phoenix.mkClientT Phoenix.NewConfig Phoenix.DefaultURL keyless.

(** The evaluator [NewEvaluator(client)] gives: results are recorded. *)
Definition recording_evaluator : Evals.Evaluator :=
  Evals.NewEvaluator (Some local_client).

Definition server_accepts (_ : Phoenix.Client)
    (_ : list Evals.SpanAnnotationData) : option string := None.

Definition server_refuses (_ : Phoenix.Client)
    (_ : list Evals.SpanAnnotationData) : option string :=
  Some "unexpected status code: 500".

End Fixtures.

(* ===================================================================== *)
(** ** Package phoenix, continued: the REST resource wrappers *)
(* ===================================================================== *)

Module PhoenixRest.

Import Phoenix.

(** *** errors.go: the other classifiers *)

Definition IsUnauthorized (err : option error) : bool :=
  match err with
  | Some (EAPI apiErr) => (StatusCode apiErr =? 401)%Z
  | _ => false
  end.

Definition IsForbidden (err : option error) : bool :=
  match err with
  | Some (EAPI apiErr) => (StatusCode apiErr =? 403)%Z
  | _ => false
  end.

Definition IsRateLimited (err : option error) : bool :=
  match err with
  | Some (EAPI apiErr) => (StatusCode apiErr =? 429)%Z
  | _ => false
  end.

(** [&APIError{Message: "unexpected response type"}] *)
Definition unexpected_response : error :=
  EAPI (mkAPIError 0 "unexpected response type" "").

(** *** List options *)

Record listOptions := mkListOptions {
  lo_cursor : string;
  lo_limit : Z;
}.

Definition defaultListOptions : listOptions := mkListOptions "" 100.

Inductive ListOption :=
  | WithCursor (cursor : string)
  | WithLimit (limit : Z).

Definition apply_list_option (opt : ListOption) (o : listOptions)
  : listOptions :=
  match opt with
  | WithCursor cursor => mkListOptions cursor (lo_limit o)
  | WithLimit limit => mkListOptions (lo_cursor o) limit
  end.

Definition apply_list_options (opts : list ListOption) (o : listOptions)
  : listOptions :=
  fold_left (fun o opt => apply_list_option opt o) opts o.

(** The generated [OptInt], and a nullable string that is always present
    ([NilString]). *)
Record OptInt := mkOptInt {
  oi_Value : Z;
  oi_Set : bool;
}.

Record NilString := mkNilString {
  ns_Value : string;
  ns_Null : bool;
}.

(** The paging part of the generated parameter structs. *)
Record PageParams := mkPageParams {
  Params_Cursor : Api.OptString;
  Params_Limit : OptInt;
}.

(** [if options.cursor != "" { params.Cursor.SetTo(options.cursor) }]
    [if options.limit > 0 { params.Limit.SetTo(options.limit) }] *)
Definition page_params (options : listOptions) : PageParams :=
  let params := mkPageParams (Api.mkOptString "" false) (mkOptInt 0 false) in
  let params :=
    if negb (String.eqb (lo_cursor options) "")
    then mkPageParams (Api.mkOptString (lo_cursor options) true)
           (Params_Limit params)
    else params in
  let params :=
    if (0 <? lo_limit options)%Z
    then mkPageParams (Params_Cursor params) (mkOptInt (lo_limit options) true)
    else params in
  params.

(** [if !resp.NextCursor.Null { nextCursor = resp.NextCursor.Value }] *)
Definition next_cursor (c : NilString) : string :=
  if negb (ns_Null c) then ns_Value c else "".

(** *** Projects *)

(** What the generated call answers: the expected response body, or a
    response of another type. *)
Inductive GetProjectsRes :=
  | GetProjectsResponseBody (Data : list Api.Project) (NextCursor : NilString)
  | GetProjectsResOther.

Inductive GetProjectRes :=
  | GetProjectResponseBody (Data : Api.Project)
  | GetProjectResOther.

Record CreateProjectRequestBody := mkCreateProjectRequestBody {
  cpr_Name : string;
  cpr_Description : Api.OptString;
}.

Record projectOptions := mkProjectOptions {
  po_name : string;
  po_description : string;
}.

Inductive ProjectOption :=
  | WithName (name : string)
  | WithDescription (desc : string).

Definition apply_project_option (opt : ProjectOption) (o : projectOptions)
  : projectOptions :=
  match opt with
  | WithName name => mkProjectOptions name (po_description o)
  | WithDescription desc => mkProjectOptions (po_name o) desc
  end.

Section Projects.

(** The generated client's calls: the response, or the error. *)
Variable api_GetProjects : PageParams -> GetProjectsRes + error.
Variable api_GetProject : string -> GetProjectRes + error.
Variable api_CreateProject : CreateProjectRequestBody -> GetProjectRes + error.
Variable api_DeleteProject : string -> option error.

(** [ListProjects]: the projects (pointers) and the next cursor, or the
    error. *)
Definition ListProjects (opts : list ListOption)
  : (list (option Project) * string) + error :=
  let options := apply_list_options opts defaultListOptions in
  let params := page_params options in
  match api_GetProjects params with
  | inr err => inr err
  | inl GetProjectsResOther => inr unexpected_response
  | inl (GetProjectsResponseBody data nextCursor) =>
      let projects := map (fun p => convertProject (Some p)) data in
      inl (projects, next_cursor nextCursor)
  end.

Definition GetProject (identifier : string) : Project + error :=
  match api_GetProject identifier with
  | inr err => inr err
  | inl GetProjectResOther => inr unexpected_response
  | inl (GetProjectResponseBody data) =>
      inl (mkProject (Api.Project_ID data) (Api.Project_Name data) ""
             zero_Time zero_Time)
  end.

Definition CreateProject (name : string) (opts : list ProjectOption)
  : Project + error :=
  let options :=
    fold_left (fun o opt => apply_project_option opt o) opts
      (mkProjectOptions "" "") in
  let req := mkCreateProjectRequestBody name (Api.mkOptString "" false) in
  let req :=
    if negb (String.eqb (po_description options) "")
    then mkCreateProjectRequestBody name
           (Api.mkOptString (po_description options) true)
    else req in
  match api_CreateProject req with
  | inr err => inr err
  | inl GetProjectResOther => inr unexpected_response
  | inl (GetProjectResponseBody data) =>
      inl (mkProject (Api.Project_ID data) (Api.Project_Name data) ""
             zero_Time zero_Time)
  end.

Definition DeleteProject (identifier : string) : option error :=
  api_DeleteProject identifier.

End Projects.

(** *** Spans *)

Inductive GetSpansRes :=
  | SpansResponseBody (Data : list Api.Span) (NextCursor : NilString)
  | GetSpansResOther.

Inductive SpanOption :=
  | WithSpanCursor (cursor : string)
  | WithSpanLimit (limit : Z).

Definition apply_span_option (opt : SpanOption) (o : listOptions)
  : listOptions :=
  match opt with
  | WithSpanCursor cursor => mkListOptions cursor (lo_limit o)
  | WithSpanLimit limit => mkListOptions (lo_cursor o) limit
  end.

Section Spans.

Variable api_GetSpans : string -> PageParams -> GetSpansRes + error.

Definition GetSpans (projectIdentifier : string) (opts : list SpanOption)
  : (list (option Span) * string) + error :=
  let options :=
    fold_left (fun o opt => apply_span_option opt o) opts
      (mkListOptions "" 100) in
  let params := page_params options in
  match api_GetSpans projectIdentifier params with
  | inr err => inr err
  | inl GetSpansResOther => inr unexpected_response
  | inl (SpansResponseBody data nextCursor) =>
      let spans := map (fun s => convertSpan (Some s)) data in
      inl (spans, next_cursor nextCursor)
  end.

End Spans.

(** *** Datasets *)

Record Dataset := mkDataset {
  Dataset_ID : string;
  Dataset_Name : string;
  Dataset_Description : string;
  Dataset_ExampleCount : Z;
  Dataset_CreatedAt : GoTime;
  Dataset_UpdatedAt : GoTime;
}.

Record DatasetExample := mkDatasetExample {
  Example_Input : LlmopsAPI.any;
  Example_Output : LlmopsAPI.any;
  Example_Metadata : option (gmap string LlmopsAPI.elem);
}.

(** The generated item types of an upload are empty structs. *)
Inductive InputsItem := EmptyInputsItem.
Inductive OutputsItem := EmptyOutputsItem.
Inductive MetadataItem := EmptyMetadataItem.
Inductive SplitsItem := ZeroSplitsItem.

Inductive UploadAction := ActionCreate | ActionAppend.

Record UploadDatasetReq := mkUploadDatasetReq {
  Upload_Name : string;
  Upload_Inputs : list InputsItem;
  Upload_Outputs : list OutputsItem;
  Upload_Metadata : list MetadataItem;
  Upload_Splits : list SplitsItem;
  Upload_Action : UploadAction;
  Upload_Description : Api.OptString;
}.

Inductive UploadDatasetRes :=
  | UploadDatasetResponseBody (DatasetID : string)
  | UploadDatasetResOther.

Record ApiDataset := mkApiDataset {
  ApiDataset_ID : string;
  ApiDataset_Name : string;
  ApiDataset_Description : NilString;
  ApiDataset_ExampleCount : Z;
  ApiDataset_CreatedAt : GoTime;
  ApiDataset_UpdatedAt : GoTime;
}.

Inductive ListDatasetsRes :=
  | ListDatasetsResponseBody (Data : list ApiDataset) (NextCursor : NilString)
  | ListDatasetsResOther.

Inductive GetDatasetRes :=
  | GetDatasetResponseBody (Data : ApiDataset)
  | GetDatasetResOther.

(** [make([]T, len(examples))] three times; the loop over the examples
    does nothing. *)
Definition convertExamplesToAPIFormat (examples : list DatasetExample)
  : list InputsItem * list OutputsItem * list MetadataItem :=
  (repeat EmptyInputsItem (List.length examples),
   repeat EmptyOutputsItem (List.length examples),
   repeat EmptyMetadataItem (List.length examples)).

Definition convertDataset (d : option ApiDataset) : option Dataset :=
  match d with
  | None => None
  | Some d =>
      Some (mkDataset (ApiDataset_ID d) (ApiDataset_Name d)
              (if negb (ns_Null (ApiDataset_Description d))
               then ns_Value (ApiDataset_Description d) else "")
              (ApiDataset_ExampleCount d) (ApiDataset_CreatedAt d)
              (ApiDataset_UpdatedAt d))
  end.

Inductive DatasetOption :=
  | WithDatasetDescription (desc : string).

Section Datasets.

Variable api_ListDatasets : PageParams -> ListDatasetsRes + error.
Variable api_UploadDataset : UploadDatasetReq -> UploadDatasetRes + error.
Variable api_GetDataset : string -> GetDatasetRes + error.
Variable api_DeleteDatasetById : string -> option error.

Definition ListDatasets (opts : list ListOption)
  : (list (option Dataset) * string) + error :=
  let options := apply_list_options opts defaultListOptions in
  let params := page_params options in
  match api_ListDatasets params with
  | inr err => inr err
  | inl ListDatasetsResOther => inr unexpected_response
  | inl (ListDatasetsResponseBody data nextCursor) =>
      let datasets := map (fun d => convertDataset (Some d)) data in
      inl (datasets, next_cursor nextCursor)
  end.

(** The request [CreateDataset] sends. *)
Definition CreateDataset_request (name : string)
    (examples : list DatasetExample) (opts : list DatasetOption)
  : UploadDatasetReq :=
  let description :=
    fold_left (fun _ opt => match opt with WithDatasetDescription d => d end)
      opts "" in
  let '(inputs, outputs, metadata) := convertExamplesToAPIFormat examples in
  mkUploadDatasetReq name inputs outputs metadata
    (repeat ZeroSplitsItem (List.length examples)) ActionCreate
    (if negb (String.eqb description "") then Api.mkOptString description true
     else Api.mkOptString "" false).

Definition CreateDataset (name : string) (examples : list DatasetExample)
    (opts : list DatasetOption) : Dataset + error :=
  match api_UploadDataset (CreateDataset_request name examples opts) with
  | inr err => inr err
  | inl UploadDatasetResOther => inr unexpected_response
  | inl (UploadDatasetResponseBody datasetID) =>
      inl (mkDataset datasetID name "" 0 zero_Time zero_Time)
  end.

(** The request [AddDatasetExamples] sends. *)
Definition AddDatasetExamples_request (datasetName : string)
    (examples : list DatasetExample) : UploadDatasetReq :=
  let '(inputs, outputs, metadata) := convertExamplesToAPIFormat examples in
  mkUploadDatasetReq datasetName inputs outputs metadata
    (repeat ZeroSplitsItem (List.length examples)) ActionAppend
    (Api.mkOptString "" false).

Definition AddDatasetExamples (datasetName : string)
    (examples : list DatasetExample) : option error :=
  match api_UploadDataset (AddDatasetExamples_request datasetName examples) with
  | inr err => Some err
  | inl _ => None
  end.

Definition GetDataset (id : string) : Dataset + error :=
  match api_GetDataset id with
  | inr err => inr err
  | inl GetDatasetResOther => inr unexpected_response
  | inl (GetDatasetResponseBody data) =>
      inl (mkDataset (ApiDataset_ID data) (ApiDataset_Name data) "" 0
             zero_Time zero_Time)
  end.

Definition DeleteDataset (id : string) : option error :=
  api_DeleteDatasetById id.

End Datasets.

End PhoenixRest.

(* ===================================================================== *)
(** ** Package phoenix, continued: annotations and prompts *)
(* ===================================================================== *)

Module PhoenixAnnotations.

Import Phoenix PhoenixRest.

(** [AnnotatorKind] is a string type with three named values. *)
Definition AnnotatorKindHuman : string := "HUMAN".
Definition AnnotatorKindLLM : string := "LLM".
Definition AnnotatorKindCode : string := "CODE".

Record Annotation := mkAnnotation {
  Annotation_ID : string;
  Annotation_SpanID : string;
  Annotation_TraceID : string;
  Annotation_Name : string;
  Annotation_Score : float;
  Annotation_Label : string;
  Annotation_Explanation : string;
  Annotation_Source : string;
  Annotation_CreatedAt : GoTime;
  Annotation_UpdatedAt : GoTime;
}.

Record annotationOptions := mkAnnotationOptions {
  ao_explanation : string;
  ao_label : string;
  ao_source : string;
}.

Inductive AnnotationOption :=
  | WithAnnotationExplanation (explanation : string)
  | WithAnnotationLabel (label : string)
  | WithAnnotationSource (source : string).

Definition apply_annotation_option (opt : AnnotationOption)
    (o : annotationOptions) : annotationOptions :=
  match opt with
  | WithAnnotationExplanation v =>
      mkAnnotationOptions v (ao_label o) (ao_source o)
  | WithAnnotationLabel v =>
      mkAnnotationOptions (ao_explanation o) v (ao_source o)
  | WithAnnotationSource v =>
      mkAnnotationOptions (ao_explanation o) (ao_label o) v
  end.

Definition apply_annotation_options (opts : list AnnotationOption)
  : annotationOptions :=
  fold_left (fun o opt => apply_annotation_option opt o) opts
    (mkAnnotationOptions "" "" "").

(** The three-valued annotator kinds of the generated package other than
    [Evals.AnnotatorKind] (the kind of a trace annotation to send, and
    the kinds of the span and trace annotations received). *)
Inductive ApiKind := ApiKindLLM | ApiKindCODE | ApiKindHUMAN.

Record TraceAnnotationData := mkTraceAnnotationData {
  TraceData_TraceID : string;
  TraceData_Name : string;
  TraceData_AnnotatorKind : ApiKind;
  TraceData_Result : Evals.OptAnnotationResult;
}.

(** The result both [Create...Annotation] build. *)
Definition annotation_result (score : float) (options : annotationOptions)
  : Evals.AnnotationResult :=
  let result :=
    Evals.mkAnnotationResult Evals.unset_float Evals.unset_string
      Evals.unset_string in
  let result :=
    Evals.SetScore (Evals.mkOptNilFloat64 score true false) result in
  let result :=
    if negb (String.eqb (ao_explanation options) "")
    then Evals.SetExplanation
           (Api.mkOptNilString (ao_explanation options) true false) result
    else result in
  let result :=
    if negb (String.eqb (ao_label options) "")
    then Evals.SetLabel (Api.mkOptNilString (ao_label options) true false)
           result
    else result in
  result.

(** The request body of [CreateSpanAnnotation]. *)
Definition CreateSpanAnnotation_request (spanID name : string) (score : float)
    (opts : list AnnotationOption) : list Evals.SpanAnnotationData :=
  let options := apply_annotation_options opts in
  let result := annotation_result score options in
  let annotatorKind :=
    if String.eqb (ao_source options) AnnotatorKindLLM then Evals.KindLLM
    else if String.eqb (ao_source options) AnnotatorKindCode
    then Evals.KindCODE
    else Evals.KindHUMAN in
  [Evals.mkSpanAnnotationData spanID name annotatorKind
     (Evals.mkOptAnnotationResult result true)].

(** The request body of [CreateTraceAnnotation]. *)
Definition CreateTraceAnnotation_request (traceID name : string)
    (score : float) (opts : list AnnotationOption)
  : list TraceAnnotationData :=
  let options := apply_annotation_options opts in
  let result := annotation_result score options in
  let annotatorKind :=
    if String.eqb (ao_source options) AnnotatorKindLLM then ApiKindLLM
    else if String.eqb (ao_source options) AnnotatorKindCode then ApiKindCODE
    else ApiKindHUMAN in
  [mkTraceAnnotationData traceID name annotatorKind
     (Evals.mkOptAnnotationResult result true)].

(** The annotations received. *)
Record SpanAnnotation := mkSpanAnnotation {
  SA_ID : string;
  SA_SpanID : string;
  SA_Name : string;
  SA_AnnotatorKind : ApiKind;
  SA_Result : Evals.OptAnnotationResult;
  SA_CreatedAt : GoTime;
  SA_UpdatedAt : GoTime;
}.

Record TraceAnnotation := mkTraceAnnotation {
  TA_ID : string;
  TA_TraceID : string;
  TA_Name : string;
  TA_AnnotatorKind : ApiKind;
  TA_Result : Evals.OptAnnotationResult;
  TA_CreatedAt : GoTime;
  TA_UpdatedAt : GoTime;
}.

Definition kind_source (k : ApiKind) : string :=
  match k with
  | ApiKindLLM => AnnotatorKindLLM
  | ApiKindCODE => AnnotatorKindCode
  | ApiKindHUMAN => AnnotatorKindHuman
  end.

(** The three [if result.X.Set && !result.X.Null] of both conversions. *)
Definition result_score (r : Evals.OptAnnotationResult) : float :=
  if Evals.oar_Set r &&
     (Evals.onf_Set (Evals.Result_Score (Evals.oar_Value r)) &&
      negb (Evals.onf_Null (Evals.Result_Score (Evals.oar_Value r))))
  then Evals.onf_Value (Evals.Result_Score (Evals.oar_Value r))
  else 0%float.

Definition result_label (r : Evals.OptAnnotationResult) : string :=
  if Evals.oar_Set r &&
     (Api.ons_Set (Evals.Result_Label (Evals.oar_Value r)) &&
      negb (Api.ons_Null (Evals.Result_Label (Evals.oar_Value r))))
  then Api.ons_Value (Evals.Result_Label (Evals.oar_Value r))
  else "".

Definition result_explanation (r : Evals.OptAnnotationResult) : string :=
  if Evals.oar_Set r &&
     (Api.ons_Set (Evals.Result_Explanation (Evals.oar_Value r)) &&
      negb (Api.ons_Null (Evals.Result_Explanation (Evals.oar_Value r))))
  then Api.ons_Value (Evals.Result_Explanation (Evals.oar_Value r))
  else "".

Definition convertSpanAnnotation (a : option SpanAnnotation)
  : option Annotation :=
  match a with
  | None => None
  | Some a =>
      Some (mkAnnotation (SA_ID a) (SA_SpanID a) "" (SA_Name a)
              (result_score (SA_Result a)) (result_label (SA_Result a))
              (result_explanation (SA_Result a))
              (kind_source (SA_AnnotatorKind a))
              (SA_CreatedAt a) (SA_UpdatedAt a))
  end.

Definition convertTraceAnnotation (a : option TraceAnnotation)
  : option Annotation :=
  match a with
  | None => None
  | Some a =>
      Some (mkAnnotation (TA_ID a) "" (TA_TraceID a) (TA_Name a)
              (result_score (TA_Result a)) (result_label (TA_Result a))
              (result_explanation (TA_Result a))
              (kind_source (TA_AnnotatorKind a))
              (TA_CreatedAt a) (TA_UpdatedAt a))
  end.

Inductive SpanAnnotationsRes :=
  | SpanAnnotationsResponseBody (Data : list SpanAnnotation)
  | SpanAnnotationsResOther.

Inductive TraceAnnotationsRes :=
  | TraceAnnotationsResponseBody (Data : list TraceAnnotation)
  | TraceAnnotationsResOther.

Section Annotations.

Variable api_AnnotateSpans : list Evals.SpanAnnotationData -> option error.
Variable api_AnnotateTraces : list TraceAnnotationData -> option error.
Variable api_ListSpanAnnotations : list string -> SpanAnnotationsRes + error.
Variable api_ListTraceAnnotations : list string -> TraceAnnotationsRes + error.

Definition CreateSpanAnnotation (spanID name : string) (score : float)
    (opts : list AnnotationOption) : option error :=
  api_AnnotateSpans (CreateSpanAnnotation_request spanID name score opts).

Definition CreateTraceAnnotation (traceID name : string) (score : float)
    (opts : list AnnotationOption) : option error :=
  api_AnnotateTraces (CreateTraceAnnotation_request traceID name score opts).

Definition ListSpanAnnotations (spanIDs : list string)
  : list (option Annotation) + error :=
  match api_ListSpanAnnotations spanIDs with
  | inr err => inr err
  | inl SpanAnnotationsResOther => inr unexpected_response
  | inl (SpanAnnotationsResponseBody data) =>
      inl (map (fun a => convertSpanAnnotation (Some a)) data)
  end.

Definition ListTraceAnnotations (traceIDs : list string)
  : list (option Annotation) + error :=
  match api_ListTraceAnnotations traceIDs with
  | inr err => inr err
  | inl TraceAnnotationsResOther => inr unexpected_response
  | inl (TraceAnnotationsResponseBody data) =>
      inl (map (fun a => convertTraceAnnotation (Some a)) data)
  end.

End Annotations.

(** *** Prompts *)

Record PromptVersion := mkPromptVersion {
  PV_ID : string;
  PV_Description : string;
  PV_Template : string;
  PV_TemplateType : string;
  PV_ModelName : string;
  PV_ModelProvider : string;
}.

(** The template of a received prompt version: a string template or a
    chat template (roles and contents). *)
Inductive PromptTemplate :=
  | PromptStringTemplate (template : string)
  | PromptChatTemplate (messages : list (string * string)).

Record ApiPromptVersion := mkApiPromptVersion {
  APV_ID : string;
  APV_Description : NilString;
  APV_ModelName : string;
  APV_ModelProvider : string;
  APV_TemplateType : string;
  APV_Template : PromptTemplate;
}.

Definition convertPromptVersion (v : option ApiPromptVersion)
  : option PromptVersion :=
  match v with
  | None => None
  | Some v =>
      Some (mkPromptVersion (APV_ID v)
              (if negb (ns_Null (APV_Description v))
               then ns_Value (APV_Description v) else "")
              (match APV_Template v with
               | PromptStringTemplate t => t
               | PromptChatTemplate _ => ""
               end)
              (APV_TemplateType v) (APV_ModelName v) (APV_ModelProvider v))
  end.

Inductive GetPromptRes :=
  | GetPromptResponseBody (Data : ApiPromptVersion)
  | GetPromptResOther.

(** The shared tail of the three lookups of one prompt version. *)
Definition prompt_version_result (r : GetPromptRes + error)
  : option PromptVersion + error :=
  match r with
  | inr err => inr err
  | inl GetPromptResOther => inr unexpected_response
  | inl (GetPromptResponseBody data) => inl (convertPromptVersion (Some data))
  end.

Section Prompts.

Variable api_GetPromptVersionLatest : string -> GetPromptRes + error.
Variable api_GetPromptVersionByPromptVersionId : string -> GetPromptRes + error.
Variable api_GetPromptVersionByTagName :
  string -> string -> GetPromptRes + error.

Definition GetPromptLatest (name : string) : option PromptVersion + error :=
  prompt_version_result (api_GetPromptVersionLatest name).

Definition GetPromptVersion (versionID : string)
  : option PromptVersion + error :=
  prompt_version_result (api_GetPromptVersionByPromptVersionId versionID).

Definition GetPromptVersionByTag (promptName tagName : string)
  : option PromptVersion + error :=
  prompt_version_result (api_GetPromptVersionByTagName promptName tagName).

End Prompts.

End PhoenixAnnotations.

(* ===================================================================== *)
(** ** Package evals, continued: feedback scores *)
(* ===================================================================== *)

Module EvalsFeedback.

Import LlmopsAPI Evals PhoenixAnnotations.

Definition parseTraceAnnotatorKind (source : string) : ApiKind :=
  if String.eqb source "llm" || String.eqb source "LLM" then ApiKindLLM
  else if String.eqb source "code" || String.eqb source "CODE"
  then ApiKindCODE
  else ApiKindHUMAN.

(** The request bodies of [addSpanAnnotation] and [addTraceAnnotation]. *)
Definition addSpanAnnotation_request (spanID name : string) (score : float)
    (reason source : string) : list SpanAnnotationData :=
  let result := buildAnnotationResult score reason in
  let annotatorKind := parseSpanAnnotatorKind source in
  [mkSpanAnnotationData spanID name annotatorKind
     (mkOptAnnotationResult result true)].

Definition addTraceAnnotation_request (traceID name : string) (score : float)
    (reason source : string) : list TraceAnnotationData :=
  let result := buildAnnotationResult score reason in
  let annotatorKind := parseTraceAnnotatorKind source in
  [mkTraceAnnotationData traceID name annotatorKind
     (mkOptAnnotationResult result true)].

(** A request the evaluator sent. *)
Inductive Sent :=
  | SentSpans (body : list SpanAnnotationData)
  | SentTraces (body : list TraceAnnotationData).

Section AddFeedbackScore.

Variable api_AnnotateSpans :
  Phoenix.Client -> list SpanAnnotationData -> option string.
Variable api_AnnotateTraces :
  Phoenix.Client -> list TraceAnnotationData -> option string.

(** [Evaluator.AddFeedbackScore]: the requests sent and the outcome (the
    message of the returned error, [None] for nil). *)
Definition AddFeedbackScore (e : Evaluator) (opts : FeedbackScoreOpts)
  : list Sent * outcome (option string) :=
  if negb (String.eqb (FeedbackScoreOpts_SpanID opts) "") then
    let body :=
      addSpanAnnotation_request (FeedbackScoreOpts_SpanID opts)
        (FeedbackScoreOpts_Name opts) (FeedbackScoreOpts_Score opts)
        (FeedbackScoreOpts_Reason opts) (FeedbackScoreOpts_Source opts) in
    match client e with
    | None => ([], Panicked "invalid memory address or nil pointer dereference")
    | Some c => ([SentSpans body], Returned (api_AnnotateSpans c body))
    end
  else if negb (String.eqb (FeedbackScoreOpts_TraceID opts) "") then
    let body :=
      addTraceAnnotation_request (FeedbackScoreOpts_TraceID opts)
        (FeedbackScoreOpts_Name opts) (FeedbackScoreOpts_Score opts)
        (FeedbackScoreOpts_Reason opts) (FeedbackScoreOpts_Source opts) in
    match client e with
    | None => ([], Panicked "invalid memory address or nil pointer dereference")
    | Some c => ([SentTraces body], Returned (api_AnnotateTraces c body))
    end
  else ([], Returned None).

End AddFeedbackScore.

End EvalsFeedback.

(* ===================================================================== *)
(** ** Package llmops of the repository, continued: the provider *)
(* ===================================================================== *)

Module AdapterProvider.

Import LlmopsAPI PhoenixRest PhoenixAnnotations.

(** *** Types of omniobserve's [llmops] the provider fills in *)

(** [llmops.ClientOptions], as [ApplyClientOptions] returns it. *)
Record ClientOptions := mkClientOptions {
  co_Endpoint : string;
  co_Workspace : string;
  co_APIKey : string;
  co_HTTPClient : option Http.Client;
  co_Timeout : Z;
  co_ProjectName : string;
}.

(** [llmops.AnnotatorKind]: its three named values, or another one. *)
Inductive LAnnotatorKind :=
  | LKindLLM | LKindCode | LKindHuman
  | LKindOther (s : string).

Record LAnnotation := mkLAnnotation {
  LA_ID : string;
  LA_SpanID : string;
  LA_TraceID : string;
  LA_Name : string;
  LA_Score : float;
  LA_Label : string;
  LA_Explanation : string;
  LA_Source : LAnnotatorKind;
  LA_CreatedAt : Phoenix.GoTime;
  LA_UpdatedAt : Phoenix.GoTime;
}.

Record ListAnnotationsOptions := mkListAnnotationsOptions {
  lao_SpanIDs : list string;
  lao_TraceIDs : list string;
}.

Record LDataset := mkLDataset {
  LD_ID : string;
  LD_Name : string;
  LD_Description : string;
  LD_ItemCount : Z;
  LD_CreatedAt : Phoenix.GoTime;
  LD_UpdatedAt : Phoenix.GoTime;
}.

Record LProject := mkLProject {
  LP_ID : string;
  LP_Name : string;
  LP_Description : string;
  LP_CreatedAt : Phoenix.GoTime;
  LP_UpdatedAt : Phoenix.GoTime;
}.

Record LPrompt := mkLPrompt {
  LPr_ID : string;
  LPr_Name : string;
  LPr_Version : string;
  LPr_Template : string;
  LPr_Description : string;
  LPr_ModelName : string;
  LPr_ModelProvider : string;
}.

Record DatasetItem := mkDatasetItem {
  Item_Input : any;
  Item_Expected : any;
  Item_Metadata : option (gmap string elem);
}.

(** The errors the provider returns: one of package [phoenix], or
    [llmops.ErrDatasetNotFound]. *)
Inductive provider_error :=
  | PhoenixError (e : Phoenix.error)
  | ErrDatasetNotFound.

Definition of_phoenix {A : Type} (r : A + Phoenix.error) : A + provider_error :=
  match r with
  | inl a => inl a
  | inr e => inr (PhoenixError e)
  end.

Definition nil_dereference : string :=
  "invalid memory address or nil pointer dereference".

(** *** [New] *)

Record Provider := mkProvider {
  p_client : Phoenix.Client;
  p_tp : Otel.TracerProvider;
  p_projectName : string;
  p_serviceName : string;
  p_batchEnabled : bool;
}.

(** The options [New] hands to [phoenix.NewClient]. *)
Definition New_phoenixOpts (cfg : ClientOptions) : list Phoenix.Option :=
  ((if negb (String.eqb (co_Endpoint cfg) "")
    then [Phoenix.WithURL (co_Endpoint cfg)] else []) ++
   (if negb (String.eqb (co_Workspace cfg) "")
    then [Phoenix.WithSpaceID (co_Workspace cfg)] else []) ++
   (if negb (String.eqb (co_APIKey cfg) "")
    then [Phoenix.WithAPIKey (co_APIKey cfg)] else []) ++
   (match co_HTTPClient cfg with
    | Some c => [Phoenix.WithHTTPClient c]
    | None => []
    end) ++
   (if (0 <? co_Timeout cfg)%Z then [Phoenix.WithTimeout (co_Timeout cfg)]
    else []))%list.

Definition New_serviceName (cfg : ClientOptions) : string :=
  if String.eqb (co_ProjectName cfg) "" then "phoenix-llmops"
  else co_ProjectName cfg.

(** The options [New] hands to [Register]. *)
Definition New_otelOpts (cfg : ClientOptions) : list Otel.Option :=
  ([Otel.WithBatch true; Otel.WithGlobalProvider false] ++
   (if negb (String.eqb (co_Endpoint cfg) "")
    then [Otel.WithEndpoint (co_Endpoint cfg)] else []) ++
   (if negb (String.eqb (co_Workspace cfg) "")
    then [Otel.WithSpaceID (co_Workspace cfg)] else []) ++
   (if negb (String.eqb (co_APIKey cfg) "")
    then [Otel.WithAPIKey (co_APIKey cfg)] else []) ++
   (if negb (String.eqb (co_ProjectName cfg) "")
    then [Otel.WithProjectName (co_ProjectName cfg)] else []) ++
   [Otel.WithServiceName (New_serviceName cfg)])%list.

Section New.

Variable api_NewClient : string -> option Phoenix.error.
Variable net : Http.Request -> Http.Response + string.
Variable url_Parse : string -> Otel.URL + string.
Variable otlptracehttp_New : list Otel.ExporterOption -> option string.
Variable resource_Merge : list Otel.KeyValue -> option string.

(** [New]: the provider or the error, and the process-wide tracer
    provider afterwards. *)
Definition New (env : Os.Environ) (cfg : ClientOptions)
    (global : Otel.GlobalProvider)
  : (Provider + Phoenix.error) * Otel.GlobalProvider :=
  match Phoenix.NewClient api_NewClient net env (New_phoenixOpts cfg) with
  | inr err => (inr err, global)
  | inl client =>
      match Otel.Register url_Parse otlptracehttp_New resource_Merge env
              (New_otelOpts cfg) global with
      | (inr err, global) => (inr err, global)
      | (inl tp, global) =>
          (inl (mkProvider client tp (co_ProjectName cfg)
                  (New_serviceName cfg) true), global)
      end
  end.

End New.

(** *** [Evaluate] *)

(** The loop of [Provider.Evaluate]. *)
Fixpoint Provider_run_metrics (input : EvalInput) (metrics : list Metric)
    (scores : list MetricScore) : list MetricScore :=
  match metrics with
  | [] => scores
  | metric :: rest =>
      let '(score, err) := Metric_Evaluate metric input in
      match err with
      | Some msg =>
          Provider_run_metrics input rest
            (scores ++
             [{| MetricScore_Name := Metric_Name metric;
                 MetricScore_Score := 0%float;
                 MetricScore_Reason := "";
                 MetricScore_Metadata := AnyNil;
                 MetricScore_Error := msg |}])%list
      | None => Provider_run_metrics input rest (scores ++ [score])%list
      end
  end.

Definition Provider_Evaluate (input : EvalInput) (metrics : list Metric)
  : option EvalResult * option Phoenix.error :=
  (Some (mkEvalResult (Provider_run_metrics input metrics []) None), None).

(** *** Annotations *)

Definition annotation_source (k : LAnnotatorKind) : string :=
  match k with
  | LKindLLM => AnnotatorKindLLM
  | LKindCode => AnnotatorKindCode
  | _ => AnnotatorKindHuman
  end.

(** The options [CreateAnnotation] hands to the client. *)
Definition CreateAnnotation_opts (annotation : LAnnotation)
  : list AnnotationOption :=
  ([WithAnnotationSource (annotation_source (LA_Source annotation))] ++
   (if negb (String.eqb (LA_Explanation annotation) "")
    then [WithAnnotationExplanation (LA_Explanation annotation)] else []) ++
   (if negb (String.eqb (LA_Label annotation) "")
    then [WithAnnotationLabel (LA_Label annotation)] else []))%list.

Definition convertAnnotation (ann : option Annotation) : option LAnnotation :=
  match ann with
  | None => None
  | Some ann =>
      let source :=
        if String.eqb (Annotation_Source ann) AnnotatorKindLLM then LKindLLM
        else if String.eqb (Annotation_Source ann) AnnotatorKindCode
        then LKindCode
        else LKindHuman in
      Some (mkLAnnotation (Annotation_ID ann) (Annotation_SpanID ann)
              (Annotation_TraceID ann) (Annotation_Name ann)
              (Annotation_Score ann) (Annotation_Label ann)
              (Annotation_Explanation ann) source
              (Annotation_CreatedAt ann) (Annotation_UpdatedAt ann))
  end.

Section ProviderAnnotations.

Variable api_AnnotateSpans :
  list Evals.SpanAnnotationData -> option Phoenix.error.
Variable api_AnnotateTraces : list TraceAnnotationData -> option Phoenix.error.
Variable api_ListSpanAnnotations :
  list string -> SpanAnnotationsRes + Phoenix.error.
Variable api_ListTraceAnnotations :
  list string -> TraceAnnotationsRes + Phoenix.error.

Definition CreateAnnotation (annotation : LAnnotation) : option Phoenix.error :=
  let opts := CreateAnnotation_opts annotation in
  if negb (String.eqb (LA_SpanID annotation) "") then
    CreateSpanAnnotation api_AnnotateSpans (LA_SpanID annotation)
      (LA_Name annotation) (LA_Score annotation) opts
  else if negb (String.eqb (LA_TraceID annotation) "") then
    CreateTraceAnnotation api_AnnotateTraces (LA_TraceID annotation)
      (LA_Name annotation) (LA_Score annotation) opts
  else
    Some (Phoenix.EAPI
            (Phoenix.mkAPIError 0 "either SpanID or TraceID must be set" "")).

(** [ListAnnotations]: the annotations (pointers), or the error. *)
Definition ListAnnotations (opts : ListAnnotationsOptions)
  : list (option LAnnotation) + Phoenix.error :=
  let result : list (option LAnnotation) := [] in
  let after_spans :=
    if (0 <? List.length (lao_SpanIDs opts))%nat then
      match ListSpanAnnotations api_ListSpanAnnotations (lao_SpanIDs opts) with
      | inr err => inr err
      | inl annotations =>
          inl (result ++ map convertAnnotation annotations)%list
      end
    else inl result in
  match after_spans with
  | inr err => inr err
  | inl result =>
      if (0 <? List.length (lao_TraceIDs opts))%nat then
        match ListTraceAnnotations api_ListTraceAnnotations
                (lao_TraceIDs opts) with
        | inr err => inr err
        | inl annotations =>
            inl (result ++ map convertAnnotation annotations)%list
        end
      else inl result
  end.

End ProviderAnnotations.

(** *** Datasets, projects and prompts *)

Definition to_LDataset (ds : Dataset) : LDataset :=
  mkLDataset (Dataset_ID ds) (Dataset_Name ds) (Dataset_Description ds)
    (Dataset_ExampleCount ds) (Dataset_CreatedAt ds) (Dataset_UpdatedAt ds).

(** [for _, ds := range datasets { if ds.Name == name { return ... } }]:
    reading the name of a nil dataset would panic. *)
Fixpoint find_dataset (name : string) (datasets : list (option Dataset))
  : outcome (option LDataset) :=
  match datasets with
  | [] => Returned None
  | None :: _ => Panicked nil_dereference
  | Some ds :: rest =>
      if String.eqb (Dataset_Name ds) name then Returned (Some (to_LDataset ds))
      else find_dataset name rest
  end.

(** [examples[i] = DatasetExample{item.Input, item.Expected, item.Metadata}] *)
Definition items_examples (items : list DatasetItem) : list DatasetExample :=
  map (fun item =>
         mkDatasetExample (Item_Input item) (Item_Expected item)
           (Item_Metadata item)) items.

Section ProviderResources.

Variable api_ListDatasets : PageParams -> ListDatasetsRes + Phoenix.error.
Variable api_UploadDataset :
  UploadDatasetReq -> UploadDatasetRes + Phoenix.error.
Variable api_GetDataset : string -> GetDatasetRes + Phoenix.error.
Variable api_GetProject : string -> GetProjectRes + Phoenix.error.
Variable api_CreateProject :
  CreateProjectRequestBody -> GetProjectRes + Phoenix.error.
Variable api_GetPromptVersionLatest : string -> GetPromptRes + Phoenix.error.
Variable api_GetPromptVersionByPromptVersionId :
  string -> GetPromptRes + Phoenix.error.
Variable api_GetPromptVersionByTagName :
  string -> string -> GetPromptRes + Phoenix.error.

(** [Provider.GetDataset], by name, over the first page of the list. *)
Definition Provider_GetDataset (name : string)
  : outcome (LDataset + provider_error) :=
  match ListDatasets api_ListDatasets [] with
  | inr err => Returned (inr (PhoenixError err))
  | inl (datasets, _) =>
      match find_dataset name datasets with
      | Panicked msg => Panicked msg
      | Returned (Some ds) => Returned (inl ds)
      | Returned None => Returned (inr ErrDatasetNotFound)
      end
  end.

Definition Provider_GetDatasetByID (id : string) : LDataset + Phoenix.error :=
  match GetDataset api_GetDataset id with
  | inr err => inr err
  | inl ds => inl (to_LDataset ds)
  end.

Definition Provider_AddDatasetItems (datasetName : string)
    (items : list DatasetItem) : option Phoenix.error :=
  AddDatasetExamples api_UploadDataset datasetName (items_examples items).

Definition to_LProject (project : Phoenix.Project) : LProject :=
  mkLProject (Phoenix.Project_ID project) (Phoenix.Project_Name project)
    (Phoenix.Project_Description project) (Phoenix.Project_CreatedAt project)
    (Phoenix.Project_UpdatedAt project).

(** [Provider.CreateProject], with the description of the project
    options ([""] when none is given). *)
Definition Provider_CreateProject (name description : string)
  : LProject + Phoenix.error :=
  let phoenixOpts :=
    if negb (String.eqb description "") then [WithDescription description]
    else [] in
  match CreateProject api_CreateProject name phoenixOpts with
  | inr err => inr err
  | inl project => inl (to_LProject project)
  end.

Definition Provider_GetProject (name : string) : LProject + Phoenix.error :=
  match GetProject api_GetProject name with
  | inr err => inr err
  | inl project => inl (to_LProject project)
  end.

(** [Provider.GetPrompt]; [version] is the variadic argument. *)
Definition Provider_GetPrompt (name : string) (version : list string)
  : outcome (LPrompt + Phoenix.error) :=
  let use_version :=
    match version with
    | v :: _ => negb (String.eqb v "")
    | [] => false
    end in
  let found :=
    if use_version then
      let v := hd "" version in
      match GetPromptVersionByTag api_GetPromptVersionByTagName name v with
      | inl pv => inl pv
      | inr _ => GetPromptVersion api_GetPromptVersionByPromptVersionId v
      end
    else GetPromptLatest api_GetPromptVersionLatest name in
  match found with
  | inr err => Returned (inr err)
  | inl None => Panicked nil_dereference
  | inl (Some pv) =>
      Returned
        (inl (mkLPrompt (PV_ID pv) name (PV_ID pv) (PV_Template pv)
                (PV_Description pv) (PV_ModelName pv) (PV_ModelProvider pv)))
  end.

End ProviderResources.

End AdapterProvider.

(* ===================================================================== *)
(** ** Vocabulary of the further properties *)
(* ===================================================================== *)

Module EvalsSpec.

Import LlmopsAPI Evals PhoenixAnnotations.

(** A score takes part in a request when it carries no error. *)
Definition recorded (s : MetricScore) : bool :=
  String.eqb (MetricScore_Error s) "".

(** The metadata on which the assertion of the label succeeds. *)
Definition map_or_nil (s : MetricScore) : bool :=
  match MetricScore_Metadata s with
  | AnyNil | AnyMap _ => true
  | _ => false
  end.

(** A score that is recorded and whose metadata is neither nil nor a map. *)
Definition unchecked (s : MetricScore) : bool :=
  recorded s && negb (map_or_nil s).

Definition label_of (s : MetricScore) : Phoenix.Api.OptNilString :=
  match MetricScore_Metadata s with
  | AnyMap m =>
      match m !! "label" with
      | Some (EString label) => Phoenix.Api.mkOptNilString label true false
      | _ => unset_string
      end
  | _ => unset_string
  end.

(** The annotation of one score, in closed form. *)
Definition annotation_of (spanID : string) (s : MetricScore)
  : SpanAnnotationData :=
  mkSpanAnnotationData spanID (MetricScore_Name s) (inferAnnotatorKind s)
    (mkOptAnnotationResult
       (mkAnnotationResult
          (mkOptNilFloat64 (MetricScore_Score s) true false)
          (if String.eqb (MetricScore_Reason s) "" then unset_string
           else Phoenix.Api.mkOptNilString (MetricScore_Reason s) true false)
          (label_of s))
       true).

(** The metadata of a result whose recording failed with [msg]. *)
Definition record_error (msg : option string) : option (gmap string elem) :=
  match msg with
  | Some err => Some {["record_error" := EString err]}
  | None => None
  end.

(** The annotator kind on the wire is one string for the kinds sent and
    the kinds received. *)
Definition received_kind (k : AnnotatorKind) : ApiKind :=
  match k with
  | KindLLM => ApiKindLLM
  | KindCODE => ApiKindCODE
  | KindHUMAN => ApiKindHUMAN
  end.

(** A span annotation as the server returns it once it has stored the
    annotation data [d] under [id]. *)
Definition stored (id : string) (created updated : Phoenix.GoTime)
    (d : SpanAnnotationData) : SpanAnnotation :=
  mkSpanAnnotation id (Evals.Annotation_SpanID d) (Evals.Annotation_Name d)
    (received_kind (Annotation_AnnotatorKind d)) (Annotation_Result d)
    created updated.

End EvalsSpec.

Module MoreFixtures.

Import LlmopsAPI PhoenixAnnotations AdapterProvider.

(** An annotation on a span by a rater whose kind is none of the three
    named ones. *)
Definition rated : LAnnotation :=
  mkLAnnotation "" "span-123" "trace-9" "quality" 0.5%float "good" ""
    (LKindOther "rater") 0%Z 0%Z.

Definition spans_accepted (_ : list Evals.SpanAnnotationData)
  : option Phoenix.error := None.

Definition traces_accepted (_ : list TraceAnnotationData)
  : option Phoenix.error := None.

End MoreFixtures.

Module OtelSpec.

Import Otel.

(** [k] slashes. *)
Fixpoint slashes (k : nat) : string :=
  match k with
  | O => ""
  | S k => String "/" (slashes k)
  end.

(** The options that reach the exporter, the resource or the processor:
    all but [WithProtocol] and [WithInsecure]. *)
Definition reaches_transport (opt : Otel.Option) : bool :=
  match opt with
  | WithProtocol _ | WithInsecure _ => false
  | _ => true
  end.

(** A configuration with its protocol and its insecure flag blanked. *)
Definition blanked (c : Otel.Config) : Otel.Config :=
  set_Protocol "" (set_Insecure false c).

(** The headers an exporter was built with: those of its headers option,
    none without one. *)
Definition exporter_headers (e : SpanExporter) : gmap string string :=
  fold_left
    (fun acc o => match o with OtlpWithHeaders h => h | _ => acc end)
    (exporter_options e) ∅.

(** The configured headers; a nil map has none. *)
Definition configured_headers (c : Otel.Config) : gmap string string :=
  default ∅ (Headers c).

End OtelSpec.

Module AdapterSpec.

Import Adapter.

(** A call that sets attributes on the span [h] and nothing else. *)
Definition sets_attributes_on (h : nat) (call : OtelCall) : bool :=
  match call with
  | SetAttributes h' _ => Nat.eqb h' h
  | AddEvent _ _ _ => false
  end.

End AdapterSpec.

Module ParseSpec.

Import Otel.

(** Every character is a space or a tab. *)
Fixpoint all_blank (s : string) : bool :=
  match s with
  | "" => true
  | String c r => is_blank c && all_blank r
  end.

(** The first character is a space or a tab. *)
Definition starts_blank (s : string) : bool :=
  match s with
  | String c _ => is_blank c
  | "" => false
  end.

Fixpoint last_char (s : string) : option ascii :=
  match s with
  | "" => None
  | String c "" => Some c
  | String _ r => last_char r
  end.

(** The last character is a space or a tab. *)
Definition ends_blank (s : string) : bool :=
  match last_char s with
  | Some c => is_blank c
  | None => false
  end.

(** The fields of [s] between the occurrences of the character [c], the
    first one continuing [cur]. *)
Fixpoint fields_from (c : ascii) (cur s : string) : list string :=
  match s with
  | "" => [cur]
  | String x r =>
      if Ascii.eqb x c then cur :: fields_from c "" r
      else fields_from c (cur ++ String x "") r
  end.

Definition fields (c : ascii) (s : string) : list string := fields_from c "" s.

(** The fields, trimmed, without the empty ones. *)
Definition trimmed_fields (c : ascii) (s : string) : list string :=
  List.filter (fun part => negb (String.eqb part "")) (map trim (fields c s)).

(** The number of leading spaces and tabs. *)
Fixpoint leading (s : string) : nat :=
  match s with
  | String c r => if is_blank c then S (leading r) else 0
  | "" => 0
  end.

(** The statements of [splitTrim] after its loop. *)
Definition finish (s : string) (st : list string * nat) : list string :=
  let '(result, start) := st in
  let part := trim (substring start (String.length s - start) s) in
  if negb (String.eqb part "") then (result ++ [part])%list else result.

Definition keep (parts : list string) : list string :=
  List.filter (fun part => negb (String.eqb part "")) (map trim parts).

(** The character [d] occurs in [s]. *)
Fixpoint has_char (d : ascii) (s : string) : bool :=
  match s with
  | "" => false
  | String x r => Ascii.eqb x d || has_char d r
  end.

(** A key or a value as it is meant to be written: not empty, no space or
    tab at either end, neither a comma nor an equals sign. *)
Definition clean (s : string) : bool :=
  negb (String.eqb s "") && negb (starts_blank s) && negb (ends_blank s) &&
  negb (has_char "," s) && negb (has_char "=" s).

(** What holds of every key and value [parseHeaders] returns. *)
Definition well_formed (e : string) : Prop :=
  e <> "" /\ trim e = e /\ has_char "," e = false /\ has_char "=" e = false.

End ParseSpec.

(* ===================================================================== *)
(** * Properties *)
(* ===================================================================== *)

(** ** Go's string functions *)

Section GoStringsFacts.

Import GoStrings.

Lemma append_nil (b : string) : "" ++ b = b.
Proof. reflexivity. Qed.

Lemma append_cons (c : ascii) (a b : string) :
  String c a ++ b = String c (a ++ b).
Proof. reflexivity. Qed.

Lemma length_append (a b : string) :
  String.length (a ++ b) = (String.length a + String.length b)%nat.
Proof.
  induction a as [|c a IH]; [reflexivity|].
  rewrite append_cons. simpl. now rewrite IH.
Qed.

Lemma substring_all (s : string) : substring 0 (String.length s) s = s.
Proof. induction s as [|c s IH]; simpl; [reflexivity | now rewrite IH]. Qed.

Lemma substring_append_l (a b : string) :
  substring 0 (String.length a) (a ++ b) = a.
Proof.
  induction a as [|c a IH].
  - rewrite append_nil. now destruct b.
  - rewrite append_cons. simpl. now rewrite IH.
Qed.

Lemma substring_append_r (a b : string) :
  substring (String.length a) (String.length b) (a ++ b) = b.
Proof.
  induction a as [|c a IH].
  - rewrite append_nil. apply substring_all.
  - rewrite append_cons. simpl. exact IH.
Qed.

Lemma substring_split (n : nat) (s : string) :
  (n <= String.length s)%nat ->
  s = substring 0 n s ++ substring n (String.length s - n) s.
Proof.
  revert n. induction s as [|c s IH]; intros [|n] Hn; simpl in *.
  - reflexivity.
  - lia.
  - rewrite append_nil. now rewrite substring_all.
  - rewrite append_cons. f_equal. apply IH. lia.
Qed.

Lemma length_substring (n m : nat) (s : string) :
  (n + m <= String.length s)%nat -> String.length (substring n m s) = m.
Proof.
  revert n m. induction s as [|c s IH]; intros [|n] [|m] H; simpl in *;
    try reflexivity; try lia.
  - f_equal. apply (IH 0%nat m). lia.
  - apply (IH n 0%nat). lia.
  - apply (IH n (S m)). lia.
Qed.

(** [HasSuffix] decides "[s] ends with [suffix]". *)
Lemma HasSuffix_true (s suffix : string) :
  HasSuffix s suffix = true <-> exists p, s = p ++ suffix.
Proof.
  unfold HasSuffix. rewrite andb_true_iff, Nat.leb_le, String.eqb_eq. split.
  - intros [Hle Heq].
    set (n := (String.length s - String.length suffix)%nat) in *.
    exists (substring 0 n s).
    pose proof (substring_split n s ltac:(lia)) as Hs.
    replace (String.length s - n)%nat with (String.length suffix) in Hs by lia.
    now rewrite Heq in Hs.
  - intros [p ->]. rewrite length_append. split; [lia|].
    replace (String.length p + String.length suffix - String.length suffix)%nat
      with (String.length p) by lia.
    apply substring_append_r.
Qed.

Lemma TrimSuffix_append (p suffix : string) :
  TrimSuffix (p ++ suffix) suffix = p.
Proof.
  unfold TrimSuffix.
  assert (H : HasSuffix (p ++ suffix) suffix = true)
    by (apply HasSuffix_true; eauto).
  rewrite H, length_append.
  replace (String.length p + String.length suffix - String.length suffix)%nat
    with (String.length p) by lia.
  apply substring_append_l.
Qed.

Lemma TrimSuffix_none (s suffix : string) :
  HasSuffix s suffix = false -> TrimSuffix s suffix = s.
Proof. unfold TrimSuffix. now intros ->. Qed.

(** At most one occurrence of the suffix is removed, and nothing else. *)
Lemma TrimSuffix_cases (s suffix : string) :
  (HasSuffix s suffix = true /\ s = TrimSuffix s suffix ++ suffix) \/
  (HasSuffix s suffix = false /\ TrimSuffix s suffix = s).
Proof.
  destruct (HasSuffix s suffix) eqn:E.
  - left. split; [reflexivity|].
    apply HasSuffix_true in E as [p ->]. now rewrite TrimSuffix_append.
  - right. split; [reflexivity | now apply TrimSuffix_none].
Qed.

Lemma append_empty_r (a : string) : a ++ "" = a.
Proof.
  induction a as [|c a IH]; [reflexivity | now rewrite append_cons, IH].
Qed.

Lemma append_assoc (a b c : string) : (a ++ b) ++ c = a ++ (b ++ c).
Proof.
  induction a as [|x a IH]; [reflexivity | now rewrite !append_cons, IH].
Qed.

Lemma append_nonempty_r (a b : string) : b <> "" -> a ++ b <> "".
Proof. destruct a; [auto | rewrite append_cons; discriminate]. Qed.

End GoStringsFacts.

(** ** config.go: [Validate] *)

Section ValidateFacts.

Import GoStrings Phoenix.

Lemma eqb_empty_false (s : string) : s <> "" -> String.eqb s "" = false.
Proof. intros H. now apply String.eqb_neq. Qed.

Lemma Validate_empty (c : Config) :
  URL c = "" -> Validate c = (c, Some (ESentinel ErrMissingURL)).
Proof. intros H. unfold Validate. now rewrite H. Qed.

Lemma Validate_nonempty (c : Config) :
  URL c <> "" ->
  Validate c =
    ({| URL := TrimSuffix (URL c) "/" ++
               (if String.eqb (SpaceID c) "" then "" else "/s/" ++ SpaceID c);
        SpaceID := SpaceID c; APIKey := APIKey c;
        ProjectName := ProjectName c |}, None).
Proof.
  intros H. unfold Validate. rewrite (eqb_empty_false _ H).
  cbn [set_URL URL SpaceID APIKey ProjectName].
  destruct (String.eqb (SpaceID c) "") eqn:E; cbn [negb set_URL URL SpaceID
    APIKey ProjectName]; [|reflexivity].
  now rewrite append_empty_r.
Qed.

(** C8. [Validate] returns [ErrMissingURL] exactly when [URL] is empty and
    then leaves the configuration as it was; otherwise it succeeds, removes
    at most one trailing slash from [URL] and, when [SpaceID] is not empty,
    appends ["/s/" ++ SpaceID]; nothing else changes.  A second call on a
    configuration with a non-empty [SpaceID] succeeds as well and appends
    the same suffix once more. *)
Theorem Validate_spec (c : Phoenix.Config) :
  (snd (Phoenix.Validate c) = Some (ESentinel ErrMissingURL) <-> URL c = "") /\
  (snd (Phoenix.Validate c) = None <-> URL c <> "") /\
  (if String.eqb (URL c) "" then fst (Phoenix.Validate c) = c
   else
     fst (Phoenix.Validate c) =
       {| URL := TrimSuffix (URL c) "/" ++
                 (if String.eqb (SpaceID c) "" then ""
                  else "/s/" ++ SpaceID c);
          SpaceID := SpaceID c; APIKey := APIKey c;
          ProjectName := ProjectName c |}) /\
  ((HasSuffix (URL c) "/" = true /\ URL c = TrimSuffix (URL c) "/" ++ "/") \/
   (HasSuffix (URL c) "/" = false /\ TrimSuffix (URL c) "/" = URL c)) /\
  (if String.eqb (URL c) "" || String.eqb (SpaceID c) "" then True
   else
     let c1 := fst (Phoenix.Validate c) in
     URL c1 = TrimSuffix (URL c) "/" ++ "/s/" ++ SpaceID c /\
     Phoenix.Validate c1 =
       ({| URL := TrimSuffix (URL c1) "/" ++ "/s/" ++ SpaceID c;
           SpaceID := SpaceID c; APIKey := APIKey c;
           ProjectName := ProjectName c |}, None)).
Proof.
  destruct (String.eqb (URL c) "") eqn:EU.
  - apply String.eqb_eq in EU. rewrite (Validate_empty c EU). cbn [fst snd].
    repeat split; try tauto; try discriminate.
    apply TrimSuffix_cases.
  - apply String.eqb_neq in EU. rewrite (Validate_nonempty c EU). cbn [fst snd].
    split; [split; [discriminate | tauto]|].
    split; [tauto|]. split; [reflexivity|].
    split; [apply TrimSuffix_cases|].
    destruct (String.eqb (SpaceID c) "") eqn:ES; cbn [orb]; [exact I|].
    cbn zeta. split; [reflexivity|].
    rewrite Validate_nonempty.
    + cbn [URL SpaceID APIKey ProjectName]. now rewrite ES.
    + cbn [URL]. apply append_nonempty_r. discriminate.
Qed.

(** When the space identifier does not itself end in a slash, the URL
    after two calls is the trimmed URL followed by the suffix twice. *)
Lemma Validate_twice_suffix (c : Config) :
  URL c <> "" -> SpaceID c <> "" -> HasSuffix (SpaceID c) "/" = false ->
  URL (fst (Validate (fst (Validate c)))) =
    (TrimSuffix (URL c) "/" ++ "/s/" ++ SpaceID c) ++ "/s/" ++ SpaceID c.
Proof.
  intros HU HS Hsl.
  rewrite (Validate_nonempty c HU). cbn [fst].
  rewrite (eqb_empty_false _ HS).
  rewrite Validate_nonempty
    by (cbn [URL]; apply append_nonempty_r; discriminate).
  cbn [fst URL SpaceID]. rewrite (eqb_empty_false _ HS). f_equal.
  apply TrimSuffix_none.
  destruct (HasSuffix (TrimSuffix (URL c) "/" ++ "/s/" ++ SpaceID c) "/") eqn:E;
    [|reflexivity].
  apply HasSuffix_true in E as [p Hp].
  assert (Hs : HasSuffix (SpaceID c) "/" = true); [|congruence].
  apply HasSuffix_true.
  destruct (SpaceID c) as [|a s] eqn:ES; [congruence|].
  assert (Hp' : (TrimSuffix (URL c) "/" ++ "/s/") ++ String a s = p ++ "/")
    by (rewrite <- Hp; apply append_assoc).
  clear - Hp'. revert p Hp'.
  generalize (TrimSuffix (URL c) "/" ++ "/s/"). intros pre.
  induction pre as [|b pre IH]; intros p Hp'.
  - rewrite append_nil in Hp'. eauto.
  - destruct p as [|b' p].
    + rewrite append_cons, append_nil in Hp'. inversion Hp'.
      destruct pre; discriminate.
    + rewrite !append_cons in Hp'. inversion Hp'. eauto.
Qed.

End ValidateFacts.

(** ** errors.go: [IsNotFound] *)

Section ErrorFacts.

Import Phoenix.

Lemma sentinel_eqb_eq (a b : sentinel) : sentinel_eqb a b = true <-> a = b.
Proof. destruct a, b; simpl; split; congruence. Qed.

(** Induction on errors, through the members of a join. *)
Lemma error_rect_join (P : error -> Prop)
    (Hs : forall s, P (ESentinel s))
    (Ha : forall a, P (EAPI a))
    (Hw : forall msg e, P e -> P (EWrap msg e))
    (Hj : forall errs, Forall P errs -> P (EJoin errs))
    (Ho : forall msg, P (EOther msg)) :
  forall e, P e.
Proof.
  fix IH 1. intros [s|a|msg e|errs|msg].
  - apply Hs.
  - apply Ha.
  - apply Hw, IH.
  - apply Hj. induction errs as [|x xs IHxs]; constructor;
      [apply IH | exact IHxs].
  - apply Ho.
Qed.

(** [errors.Is] on a sentinel target decides "wraps". *)
Lemma errors_Is_wraps (s : sentinel) (e : error) :
  errors_Is e s = true <-> Spec.wraps e s.
Proof.
  induction e as [s'|a|msg inner IH|errs IH|msg] using error_rect_join;
    cbn [errors_Is].
  - rewrite sentinel_eqb_eq. split.
    + intros ->. constructor.
    + now inversion 1.
  - split; [discriminate | inversion 1].
  - rewrite IH. split.
    + now constructor.
    + now inversion 1.
  - rewrite existsb_exists. split.
    + intros [x [Hin Hx]]. apply (Spec.wraps_join _ x); [assumption|].
      rewrite Forall_forall in IH. now apply IH; [apply list_elem_of_In|].
    + inversion 1 as [| |errs' e' s'' Hin Hw]; subst.
      exists e'. split; [assumption|].
      rewrite Forall_forall in IH. now apply IH; [apply list_elem_of_In|].
  - split; [discriminate | inversion 1].
Qed.

Lemma APIError_wraps_nothing (a : APIError) (s : sentinel) :
  ~ Spec.wraps (EAPI a) s.
Proof. inversion 1. Qed.

(** C9. [IsNotFound] is true exactly for a [*APIError] with status 404 and
    for an error that wraps one of the six not-found sentinels; it is false
    for the nil error, and for a [*APIError] it is the test of the status
    code alone. *)
Theorem IsNotFound_spec (err : option Phoenix.error) :
  (Phoenix.IsNotFound err = true <->
   (exists a, err = Some (EAPI a) /\ StatusCode a = 404%Z) \/
   (exists e s, err = Some e /\ In s Spec.not_found_sentinels /\
                Spec.wraps e s)) /\
  Phoenix.IsNotFound None = false /\
  (forall a, Phoenix.IsNotFound (Some (EAPI a)) = (StatusCode a =? 404)%Z).
Proof.
  split; [|split; reflexivity].
  assert (Hgen : forall e,
    (errors_Is e ErrProjectNotFound || errors_Is e ErrTraceNotFound ||
     errors_Is e ErrSpanNotFound || errors_Is e ErrDatasetNotFound ||
     errors_Is e ErrExperimentNotFound || errors_Is e ErrPromptNotFound) = true
    <-> exists s, In s Spec.not_found_sentinels /\ Spec.wraps e s).
  { intros e. rewrite !orb_true_iff, !errors_Is_wraps. split.
    - intros [[[[[H|H]|H]|H]|H]|H]; eexists; (split; [|exact H]);
        unfold Spec.not_found_sentinels; simpl; tauto.
    - intros [s [Hin Hw]]. unfold Spec.not_found_sentinels in Hin. simpl in Hin.
      destruct Hin as [<-|[<-|[<-|[<-|[<-|[<-|[]]]]]]]; tauto. }
  destruct err as [e|]; cbn [IsNotFound].
  - destruct e as [s'|a|msg inner|errs|msg];
      try (rewrite Hgen; split;
           [ intros [s [Hin Hw]]; right; eauto
           | intros [[a [Ha _]]|[e [s [He [Hin Hw]]]]];
             [discriminate | injection He as <-; eauto] ]).
    rewrite Z.eqb_eq. split.
    + intros H. left. eauto.
    + intros [[a' [Ha H]]|[e [s [He [_ Hw]]]]].
      * now injection Ha as <-.
      * injection He as <-. now apply APIError_wraps_nothing in Hw.
  - split; [discriminate|].
    intros [[a [Ha _]]|[e [s [He _]]]]; discriminate.
Qed.

End ErrorFacts.

(** ** The wire-to-domain conversions *)

Section ConvertFacts.

Import Phoenix.

(** C7. Both conversions return nil for nil.  For a project, [ID] and
    [Name] are copied, [Description] is the wire value exactly when it is
    set and not null, and the time stamps stay zero.  For a span, [Name],
    [SpanKind], [StatusCode], [StartTime], [EndTime], [TraceID] and
    [SpanID] are copied as they are, [ID] and [StatusMessage] when set, and
    [ParentID] when set and not null. *)
Theorem convert_spec :
  Phoenix.convertProject None = None /\
  Phoenix.convertSpan None = None /\
  (forall p : Api.Project,
     Phoenix.convertProject (Some p) =
       Some {| Project_ID := Api.Project_ID p;
               Project_Name := Api.Project_Name p;
               Project_Description :=
                 Spec.optnil_value (Api.Project_Description p);
               Project_CreatedAt := zero_Time;
               Project_UpdatedAt := zero_Time |}) /\
  (forall s : Api.Span,
     Phoenix.convertSpan (Some s) =
       Some {| Span_ID := Spec.opt_value (Api.Span_ID s);
               Span_Name := Api.Span_Name s;
               Span_SpanKind := Api.Span_SpanKind s;
               Span_StatusCode := Api.Span_StatusCode s;
               Span_StatusMessage := Spec.opt_value (Api.Span_StatusMessage s);
               Span_ParentID := Spec.optnil_value (Api.Span_ParentID s);
               Span_TraceID := Api.Context_TraceID (Api.Span_Context s);
               Span_SpanID := Api.Context_SpanID (Api.Span_Context s);
               Span_StartTime := Api.Span_StartTime s;
               Span_EndTime := Api.Span_EndTime s |}).
Proof.
  split; [reflexivity|]. split; [reflexivity|]. split.
  - intros p. unfold convertProject, Spec.optnil_value.
    now destruct (Api.ons_Set _ && negb (Api.ons_Null _)).
  - intros s. unfold convertSpan, Spec.opt_value, Spec.optnil_value.
    destruct (Api.os_Set (Api.Span_ID s)),
             (Api.os_Set (Api.Span_StatusMessage s)),
             (Api.ons_Set (Api.Span_ParentID s) &&
              negb (Api.ons_Null (Api.Span_ParentID s))); reflexivity.
Qed.

End ConvertFacts.

(** ** client.go: the authenticated transport *)

Section TransportFacts.

Import Phoenix.

Lemma canonical_Authorization :
  Http.CanonicalMIMEHeaderKey "Authorization" = "Authorization".
Proof. reflexivity. Qed.

Lemma canonical_SDK_Version :
  Http.CanonicalMIMEHeaderKey "X-Phoenix-SDK-Version" = "X-Phoenix-Sdk-Version".
Proof. reflexivity. Qed.

Lemma canonical_SDK_Lang :
  Http.CanonicalMIMEHeaderKey "X-Phoenix-SDK-Lang" = "X-Phoenix-Sdk-Lang".
Proof. reflexivity. Qed.

(** C3, as the code has it.  [Do] hands the decorated request to the
    wrapped client and returns its answer.  The two SDK headers are always
    set; [Authorization] is set to ["Bearer " ++ apiKey] when an API key is
    configured and is left as the request had it when the key is empty;
    the method, the URL, the body and every other header are unchanged. *)
Theorem authHTTPClient_Do_spec (c : Phoenix.authHTTPClient)
    (req : Http.Request) :
  let req' := fst (Phoenix.authHTTPClient_Do c req) in
  snd (Phoenix.authHTTPClient_Do c req) = Http.Client_Do (client c) req' /\
  Http.req_Method req' = Http.req_Method req /\
  Http.req_URL req' = Http.req_URL req /\
  Http.req_Body req' = Http.req_Body req /\
  Http.req_Header req' !! "X-Phoenix-Sdk-Version" = Some [Version] /\
  Http.req_Header req' !! "X-Phoenix-Sdk-Lang" = Some ["go"] /\
  Http.req_Header req' !! "Authorization" =
    (if String.eqb (apiKey c) "" then Http.req_Header req !! "Authorization"
     else Some ["Bearer " ++ apiKey c]) /\
  (forall k : string,
     k <> "Authorization" -> k <> "X-Phoenix-Sdk-Version" ->
     k <> "X-Phoenix-Sdk-Lang" ->
     Http.req_Header req' !! k = Http.req_Header req !! k).
Proof.
  cbn zeta. unfold authHTTPClient_Do, authHTTPClient_decorate, Http.Header_Set.
  cbn [fst snd Http.req_Method Http.req_URL Http.req_Body Http.req_Header].
  rewrite canonical_Authorization, canonical_SDK_Version, canonical_SDK_Lang.
  repeat split.
  - rewrite lookup_insert_ne by discriminate. apply lookup_insert_eq.
  - apply lookup_insert_eq.
  - rewrite !lookup_insert_ne by discriminate.
    destruct (String.eqb (apiKey c) ""); cbn [negb];
      [reflexivity | apply lookup_insert_eq].
  - intros k H1 H2 H3. rewrite !lookup_insert_ne by congruence.
    destruct (String.eqb (apiKey c) ""); cbn [negb];
      [reflexivity | now rewrite lookup_insert_ne by congruence].
Qed.

(** C3 as worded fails: with no API key configured, a request that has no
    [Authorization] header leaves [Do] without one, not with ["Bearer "]. *)
Lemma authHTTPClient_Do_no_key :
  Http.req_Header
    (fst (Phoenix.authHTTPClient_Do Fixtures.keyless Fixtures.get_projects))
    !! "Authorization"
  <> Some ["Bearer " ++ apiKey Fixtures.keyless].
Proof. vm_compute. discriminate. Qed.

End TransportFacts.

(** ** The configuration resolver *)

Section ResolverFacts.

Import Phoenix.

Lemma Config_eta (c : Config) :
  c = {| URL := URL c; SpaceID := SpaceID c; APIKey := APIKey c;
         ProjectName := ProjectName c |}.
Proof. now destruct c. Qed.

(** The options, in order, on any starting point: each field is the value
    of the last option that sets it, or the starting value. *)
Lemma apply_options_fields (opts : list Option) (o : clientOptions) :
  config (apply_options opts o) =
    {| URL := default (URL (config o))
                (Spec.last_explicit Spec.explicit_URL opts);
       SpaceID := default (SpaceID (config o))
                    (Spec.last_explicit Spec.explicit_SpaceID opts);
       APIKey := default (APIKey (config o))
                   (Spec.last_explicit Spec.explicit_APIKey opts);
       ProjectName := default (ProjectName (config o))
                        (Spec.last_explicit Spec.explicit_ProjectName opts) |}.
Proof.
  revert o. induction opts as [|opt rest IH]; intros o.
  - cbn. apply Config_eta.
  - change (apply_options (opt :: rest) o)
      with (apply_options rest (apply_option opt o)).
    rewrite IH. cbn [Spec.last_explicit].
    destruct (Spec.last_explicit Spec.explicit_URL rest),
             (Spec.last_explicit Spec.explicit_SpaceID rest),
             (Spec.last_explicit Spec.explicit_APIKey rest),
             (Spec.last_explicit Spec.explicit_ProjectName rest);
      destruct opt; reflexivity.
Qed.

(** The environment stage alone. *)
Lemma LoadConfig_resolve (env : Os.Environ) :
  LoadConfig env = Spec.resolve env [].
Proof.
  unfold LoadConfig, loadFromEnv, Spec.resolve, Spec.env_URL, Spec.env_value,
    Spec.priority, NewConfig.
  cbn [Spec.last_explicit].
  destruct (String.eqb (Os.Getenv env EnvURL) "") eqn:E1;
  destruct (String.eqb (Os.Getenv env EnvSpaceID) "") eqn:E2;
  destruct (String.eqb (Os.Getenv env EnvAPIKey) "") eqn:E3;
  destruct (String.eqb (Os.Getenv env EnvProjectName) "") eqn:E4;
  cbn [negb set_URL set_SpaceID set_APIKey set_ProjectName URL SpaceID APIKey
       ProjectName];
  try reflexivity;
  destruct (String.eqb (Os.Getenv env EnvURL) DefaultURL) eqn:E5;
  reflexivity.
Qed.

(** C4. The configuration [NewClient] validates is, field by field, the
    explicitly given value when an option sets the field, else the value
    of the environment variable when it is set to a non-empty string (for
    the URL: Phoenix Cloud in place of a still-default URL when the space
    identifier comes from the environment), else the default. *)
Theorem resolver_priority (env : Os.Environ) (opts : list Phoenix.Option) :
  config (Phoenix.apply_options opts (Phoenix.defaultClientOptions env)) =
    Spec.resolve env opts.
Proof.
  rewrite apply_options_fields. cbn [defaultClientOptions config].
  rewrite LoadConfig_resolve. unfold Spec.resolve, Spec.priority.
  cbn [Spec.last_explicit URL SpaceID APIKey ProjectName].
  destruct (Spec.last_explicit Spec.explicit_URL opts),
           (Spec.last_explicit Spec.explicit_SpaceID opts),
           (Spec.last_explicit Spec.explicit_APIKey opts),
           (Spec.last_explicit Spec.explicit_ProjectName opts); reflexivity.
Qed.

(** [NewClient] keeps the resolved configuration as [Validate] leaves it,
    and gives the transport the resolved API key. *)
Lemma NewClient_config (api_NewClient : string -> option error)
    (net : Http.Request -> Http.Response + string)
    (env : Os.Environ) (opts : list Option) (c : Client) :
  NewClient api_NewClient net env opts = inl c ->
  let resolved := config (apply_options opts (defaultClientOptions env)) in
  Validate resolved = (client_config c, None) /\
  client_baseURL c = URL (client_config c) /\
  apiKey (client_transport c) = APIKey resolved.
Proof.
  unfold NewClient. cbn zeta.
  destruct (Validate (config (apply_options opts (defaultClientOptions env))))
    as [cfg [err|]] eqn:HV; [discriminate|].
  destruct (api_NewClient (URL cfg)); [discriminate|].
  intros H. injection H as <-. cbn.
  repeat split.
  unfold Validate in HV.
  destruct (String.eqb (URL _) ""); [discriminate|].
  injection HV as <-.
  now destruct (negb (String.eqb (SpaceID _) "")).
Qed.

End ResolverFacts.

(** ** register.go: [Register] *)

Section RegisterFacts.

Import Otel.

Variable url_Parse : string -> URL + string.
Variable otlptracehttp_New : list ExporterOption -> option string.
Variable resource_Merge : list KeyValue -> option string.

(** Without options and without environment, spans are exported one by
    one and the provider is made the process-wide one. *)
Lemma DefaultConfig_processing (env : Os.Environ) :
  Batch (DefaultConfig env) = false /\
  BatchTimeout (DefaultConfig env) = (5 * second)%Z /\
  BatchSize (DefaultConfig env) = 512%Z /\
  SetGlobalProvider (DefaultConfig env) = true.
Proof.
  unfold DefaultConfig.
  destruct (String.eqb (getEnvCollectorEndpoint env) "");
  destruct (String.eqb (Os.Getenv env EnvSpaceID) "");
  destruct (String.eqb (Os.Getenv env EnvProjectName) "");
  destruct (String.eqb (Os.Getenv env EnvAPIKey) "");
  destruct (String.eqb (Os.Getenv env EnvClientHeaders) "");
  cbn - [Z.mul]; try (repeat split; reflexivity);
  match goal with
  | |- context [String.eqb ?a ?b] => destruct (String.eqb a b)
  end; repeat split; reflexivity.
Qed.

(** C6. [Register] builds nothing when the exporter or the resource cannot
    be created, and then leaves the process-wide provider alone.
    Otherwise the provider has exactly one span processor, over the
    exporter [createExporter] gave: the SDK's batch processor with the
    configured timeout and batch size when [Batch] is set, the SDK's simple
    processor when it is not; and the provider becomes the process-wide one
    exactly when [SetGlobalProvider] is set. *)
Theorem Register_spec (env : Os.Environ) (opts : list Otel.Option)
    (global : GlobalProvider) :
  let cfg := Otel.Register_config env opts in
  match Otel.Register url_Parse otlptracehttp_New resource_Merge env opts
          global with
  | (inr _, global') =>
      global' = global /\
      ((exists err, createExporter url_Parse otlptracehttp_New cfg = inr err) \/
       (exists err, createResource resource_Merge cfg = inr err))
  | (inl tp, global') =>
      exists exporter res,
        createExporter url_Parse otlptracehttp_New cfg = inl exporter /\
        createResource resource_Merge cfg = inl res /\
        TracerProvider_config tp = cfg /\
        resource (TracerProvider_sdk tp) = res /\
        spanProcessors (TracerProvider_sdk tp) =
          [if Batch cfg
           then BatchSpanProcessor exporter (BatchTimeout cfg) (BatchSize cfg)
           else SimpleSpanProcessor exporter] /\
        global' =
          (if SetGlobalProvider cfg then Some (TracerProvider_sdk tp)
           else global)
  end.
Proof.
  cbn zeta. unfold Register.
  destruct (createExporter url_Parse otlptracehttp_New
              (Register_config env opts)) as [exporter|err] eqn:HE.
  - destruct (createResource resource_Merge (Register_config env opts))
      as [res|err] eqn:HR.
    + exists exporter, res. cbn. repeat split; reflexivity.
    + split; [reflexivity | right; eauto].
  - split; [reflexivity | left; eauto].
Qed.

(** The last [WithBatch] and the last [WithGlobalProvider] decide. *)
Lemma Register_config_last_flag (env : Os.Environ) (opts : list Otel.Option)
    (b : bool) :
  Batch (Register_config env (opts ++ [WithBatch b])) = b /\
  SetGlobalProvider (Register_config env (opts ++ [WithGlobalProvider b])) = b.
Proof.
  unfold Register_config, apply_options. rewrite !fold_left_app.
  split; reflexivity.
Qed.

End RegisterFacts.

(** ** evaluator.go: [Evaluate] *)

Section EvaluateFacts.

Import LlmopsAPI Evals.

Variable api_AnnotateSpans :
  Phoenix.Client -> list SpanAnnotationData -> option string.

Lemma run_metrics_map (input : EvalInput) (metrics : list Metric)
    (scores : list MetricScore) :
  run_metrics input metrics scores =
    (scores ++ map (Spec.metric_score input) metrics)%list.
Proof.
  revert scores. induction metrics as [|m rest IH]; intros scores.
  - cbn. now rewrite app_nil_r.
  - cbn [run_metrics map].
    destruct (Metric_Evaluate m input) as [score [msg|]] eqn:E;
      rewrite IH, <- app_assoc; cbn [app]; unfold Spec.metric_score;
      rewrite E; reflexivity.
Qed.

(** One score per metric, in the order of the metrics; a failing metric
    gives its name and the message of its error. *)
Lemma Evaluate_scores (e : Evaluator) (input : EvalInput)
    (metrics : list Metric) (r : EvalResult) (err : option Phoenix.error) :
  snd (Evaluate api_AnnotateSpans e input metrics) = Returned (Some r, err) ->
  Scores r = map (Spec.metric_score input) metrics /\
  List.length (Scores r) = List.length metrics.
Proof.
  unfold Evaluate. rewrite run_metrics_map, app_nil_l.
  intros H.
  assert (Scores r = map (Spec.metric_score input) metrics).
  { destruct (recordResults e && negb (String.eqb (EvalInput_SpanID input) ""));
      [|now inversion H].
    destruct (recordScoresToPhoenix _ _ _ _) as [sent [[msg|]|msg]];
      cbn [snd] in H; now inversion H. }
  split; [assumption|]. rewrite H0. apply length_map.
Qed.

(** Whenever [Evaluate] returns, the result is not nil and the error is. *)
Lemma Evaluate_returns_result (e : Evaluator) (input : EvalInput)
    (metrics : list Metric) (r : option EvalResult)
    (err : option Phoenix.error) :
  snd (Evaluate api_AnnotateSpans e input metrics) = Returned (r, err) ->
  r <> None /\ err = None.
Proof.
  unfold Evaluate.
  destruct (recordResults e && negb (String.eqb (EvalInput_SpanID input) ""));
    [|inversion 1; split; congruence].
  destruct (recordScoresToPhoenix _ _ _ _) as [sent [[msg|]|msg]];
    cbn [snd]; inversion 1; split; congruence.
Qed.

(** Nothing is sent unless recording is on and the input names a span. *)
Lemma Evaluate_not_recording (e : Evaluator) (input : EvalInput)
    (metrics : list Metric) :
  recordResults e && negb (String.eqb (EvalInput_SpanID input) "") = false ->
  Evaluate api_AnnotateSpans e input metrics =
    ([], Returned
           (Some (mkEvalResult (map (Spec.metric_score input) metrics) None),
            None)).
Proof.
  intros H. unfold Evaluate. rewrite H, run_metrics_map. reflexivity.
Qed.

(** A score with an error message is never part of a request. *)
Lemma build_annotations_skips_errors (spanID : string)
    (scores : list MetricScore) (acc out : list SpanAnnotationData) :
  build_annotations spanID scores acc = Returned out ->
  List.length out =
    (List.length acc +
     List.length
       (List.filter (fun s => String.eqb (MetricScore_Error s) "") scores))%nat.
Proof.
  revert acc. induction scores as [|s rest IH]; intros acc;
    cbn [build_annotations List.filter].
  - inversion 1. cbn. lia.
  - destruct (String.eqb (MetricScore_Error s) "") eqn:E; cbn [negb].
    + destruct (score_label s _) as [res|msg]; [|discriminate].
      intros H. apply IH in H. rewrite H, length_app. cbn. lia.
    + intros H. now apply IH in H.
Qed.

(** A failure of the REST call is reported in the result's metadata. *)
Lemma Evaluate_record_error (e : Evaluator) (input : EvalInput)
    (metrics : list Metric) (sent : list (list SpanAnnotationData))
    (msg : string) :
  recordResults e && negb (String.eqb (EvalInput_SpanID input) "") = true ->
  recordScoresToPhoenix api_AnnotateSpans e (EvalInput_SpanID input)
    (map (Spec.metric_score input) metrics) = (sent, Returned (Some msg)) ->
  Evaluate api_AnnotateSpans e input metrics =
    (sent,
     Returned (Some (mkEvalResult (map (Spec.metric_score input) metrics)
                       (Some {["record_error" := EString msg]})), None)).
Proof.
  intros H1 H2. unfold Evaluate. rewrite H1, run_metrics_map, app_nil_l, H2.
  reflexivity.
Qed.

End EvaluateFacts.

(** C5, at the input where the code departs from it.  A metric whose score
    carries a metadata that is not a map (the repository's own test case
    for [inferAnnotatorKind]) makes [Evaluate] panic when results are
    recorded: nothing is returned, whatever the server would answer. *)
Theorem Evaluate_panics_on_wrong_metadata
    (api_AnnotateSpans :
       Phoenix.Client -> list Evals.SpanAnnotationData -> option string) :
  Evals.Evaluate api_AnnotateSpans Fixtures.recording_evaluator
    Fixtures.span_input [Fixtures.wrong_metadata_metric] =
  ([], LlmopsAPI.Panicked
         "interface conversion: interface {} is not map[string]interface {}") /\
  Evals.inferAnnotatorKind Fixtures.wrong_metadata_score = Evals.KindCODE.
Proof. split; reflexivity. Qed.

(** ** The tracing adapter: identity and linkage *)

Section AdapterFacts.

Import LlmopsAPI Adapter.

Variable Tracer : Type.
Variable tracer_newSpan : Tracer -> Context -> string -> Tracer * OtelSpan.
Variable json_Marshal : any -> option string.

Local Abbreviation StartTrace :=
  (Provider_StartTrace tracer_newSpan json_Marshal).
Local Abbreviation StartSpan :=
  (Provider_StartSpan tracer_newSpan json_Marshal).
Local Abbreviation TraceStartSpan :=
  (trace_StartSpan tracer_newSpan json_Marshal).
Local Abbreviation SpanStartSpan :=
  (span_StartSpan tracer_newSpan json_Marshal).

Lemma hex_fixed_length (w : nat) (z : Z) : String.length (hex_fixed w z) = w.
Proof.
  revert z. induction w as [|w IH]; intros z; cbn [hex_fixed]; [reflexivity|].
  rewrite length_append, IH. cbn. lia.
Qed.

(** The text of a trace identifier is never empty. *)
Lemma TraceID_String_nonempty (tid : Z) :
  String.eqb (TraceID_String tid) "" = false.
Proof.
  apply String.eqb_neq. intros H.
  pose proof (hex_fixed_length 32 tid) as L. unfold TraceID_String in H.
  rewrite H in L. discriminate L.
Qed.

Lemma trace_ID_nonempty (t : traceWrapper) : String.eqb (trace_ID t) "" = false.
Proof. apply TraceID_String_nonempty. Qed.

Lemma span_TraceID_nonempty (s : spanWrapper) :
  String.eqb (span_TraceID s) "" = false.
Proof.
  unfold span_TraceID. destruct (String.eqb (span_traceID s) "") eqn:E;
    [apply TraceID_String_nonempty | exact E].
Qed.

(** A span made with a non-empty stored trace identifier reports it. *)
Lemma span_TraceID_stored (o : OtelSpan) (tid pid name : string)
    (ty : SpanType) :
  String.eqb tid "" = false ->
  span_TraceID (mkSpanWrapper o tid pid name ty) = tid.
Proof. intros H. unfold span_TraceID. cbn. now rewrite H. Qed.

(** The pieces of the three [StartSpan] and of [StartTrace]. *)
Lemma StartSpan_unfold (tr : Tracer) (ctx : Context) (name : string)
    (cfg : SpanOptions) :
  let o := snd (tracer_newSpan tr ctx name) in
  let ptid :=
    match traceFromContext ctx, spanFromContext ctx with
    | Some t, _ => trace_ID t
    | None, Some p => span_TraceID p
    | None, None => ""
    end in
  let psid :=
    match spanFromContext ctx with Some p => span_ID p | None => "" end in
  let s := mkSpanWrapper o ptid psid name (so_Type cfg) in
  st_value (StartSpan tr ctx name cfg) = s /\
  st_ctx (StartSpan tr ctx name cfg) =
    contextWithSpan (ContextWithSpan ctx o) s.
Proof.
  cbn zeta. unfold Provider_StartSpan, tracer_Start, newSpan.
  destruct (tracer_newSpan tr ctx name) as [tr' o]. cbn [snd].
  destruct (traceFromContext ctx) as [t|], (spanFromContext ctx) as [p|];
    cbn [st_value st_ctx]; rewrite ?trace_ID_nonempty; cbn [String.eqb];
    split; reflexivity.
Qed.

Lemma TraceStartSpan_unfold (t : traceWrapper) (tr : Tracer) (ctx : Context)
    (name : string) (cfg : SpanOptions) :
  let o := snd (tracer_newSpan tr ctx name) in
  let s := mkSpanWrapper o (trace_ID t) "" name (so_Type cfg) in
  st_value (TraceStartSpan t tr ctx name cfg) = s /\
  st_ctx (TraceStartSpan t tr ctx name cfg) =
    contextWithSpan (ContextWithSpan ctx o) s.
Proof.
  cbn zeta. unfold trace_StartSpan, tracer_Start, newSpan.
  destruct (tracer_newSpan tr ctx name) as [tr' o]. split; reflexivity.
Qed.

Lemma SpanStartSpan_unfold (p : spanWrapper) (tr : Tracer) (ctx : Context)
    (name : string) (cfg : SpanOptions) :
  let o := snd (tracer_newSpan tr ctx name) in
  let s := mkSpanWrapper o (span_TraceID p) (span_ID p) name (so_Type cfg) in
  st_value (SpanStartSpan p tr ctx name cfg) = s /\
  st_ctx (SpanStartSpan p tr ctx name cfg) =
    contextWithSpan (ContextWithSpan ctx o) s.
Proof.
  cbn zeta. unfold span_StartSpan, tracer_Start, newSpan.
  destruct (tracer_newSpan tr ctx name) as [tr' o]. split; reflexivity.
Qed.


(** C1. For [StartSpan] on any context: the returned context holds
    exactly the new span; the new span's parent identifier is the [ID] of
    the span of the incoming context, and empty when there is none; its
    trace identifier is the [ID] of the trace of the incoming context when
    there is one, else the [TraceID] of the span of the incoming context,
    and with neither it is read from the span of the SDK it wraps. *)
Theorem StartSpan_linkage (tr : Tracer) (ctx : Context) (name : string)
    (cfg : SpanOptions) :
  let r :=
    Adapter.Provider_StartSpan tracer_newSpan json_Marshal tr ctx name cfg in
  let s := st_value r in
  spanFromContext (st_ctx r) = Some s /\
  Provider_SpanFromContext (st_ctx r) = (Some s, true) /\
  traceFromContext (st_ctx r) = traceFromContext ctx /\
  span_otelSpan s = snd (tracer_newSpan tr ctx name) /\
  otel_SpanFromContext (st_ctx r) = Some (span_otelSpan s) /\
  span_ParentSpanID s =
    match spanFromContext ctx with Some p => span_ID p | None => "" end /\
  span_TraceID s =
    match traceFromContext ctx, spanFromContext ctx with
    | Some t, _ => trace_ID t
    | None, Some p => span_TraceID p
    | None, None =>
        TraceID_String (sc_TraceID (otel_SpanContext (span_otelSpan s)))
    end.
Proof.
  cbn zeta. destruct (StartSpan_unfold tr ctx name cfg) as [-> ->].
  repeat split.
  destruct (traceFromContext ctx) as [t|], (spanFromContext ctx) as [p|].
  - apply span_TraceID_stored, trace_ID_nonempty.
  - apply span_TraceID_stored, trace_ID_nonempty.
  - apply span_TraceID_stored, span_TraceID_nonempty.
  - reflexivity.
Qed.

(** *** One trace identifier per trace *)

(** The tracer's side of the contract, as the tracing SDK documents it: a
    span started in a context that carries a span with a valid trace
    identifier continues that trace, and every span the tracer makes has a
    valid trace identifier. *)
Hypothesis tracer_continues :
  forall tr ctx name p,
    otel_SpanFromContext ctx = Some p ->
    TraceID_IsValid (sc_TraceID (otel_SpanContext p)) = true ->
    sc_TraceID (otel_SpanContext (snd (tracer_newSpan tr ctx name))) =
      sc_TraceID (otel_SpanContext p).

Hypothesis tracer_valid :
  forall tr ctx name,
    TraceID_IsValid
      (sc_TraceID (otel_SpanContext (snd (tracer_newSpan tr ctx name)))) = true.





End AdapterFacts.

(** ** The provider's [AddFeedbackScore] *)

Section FeedbackFacts.

Import LlmopsAPI Adapter.

(** C10. [AddFeedbackScore] records the score on the span of the context
    when there is one, else on the trace of the context, and returns
    [ErrNoActiveTrace], recording nothing, exactly when the context holds
    neither; what is recorded is made of the name and the score alone, so
    two calls whose options agree on these two do the same. *)
Theorem AddFeedbackScore_spec (ctx : Context) (opts : FeedbackScoreOpts) :
  Adapter.Provider_AddFeedbackScore ctx opts =
    match spanFromContext ctx, traceFromContext ctx with
    | Some s, _ =>
        ([Spec.feedback_event (otel_handle (span_otelSpan s))
            (FeedbackScoreOpts_Name opts) (FeedbackScoreOpts_Score opts)], None)
    | None, Some t =>
        ([Spec.feedback_event (otel_handle (trace_otelSpan t))
            (FeedbackScoreOpts_Name opts) (FeedbackScoreOpts_Score opts)], None)
    | None, None => ([], Some ErrNoActiveTrace)
    end /\
  (snd (Adapter.Provider_AddFeedbackScore ctx opts) = Some ErrNoActiveTrace <->
   spanFromContext ctx = None /\ traceFromContext ctx = None) /\
  (forall tid sid reason source,
     Adapter.Provider_AddFeedbackScore ctx
       (mkFeedbackScoreOpts tid sid (FeedbackScoreOpts_Name opts)
          (FeedbackScoreOpts_Score opts) reason source) =
     Adapter.Provider_AddFeedbackScore ctx opts).
Proof.
  unfold Provider_AddFeedbackScore.
  destruct (spanFromContext ctx) as [s|], (traceFromContext ctx) as [t|];
    cbn [snd]; (split; [reflexivity|]);
    (split; [split; [try discriminate; tauto | intros [? ?]; congruence]
            | reflexivity]).
Qed.

End FeedbackFacts.

(** ** The adapter on a concrete tracer, and the repository's examples *)

Section Examples.

Import LlmopsAPI Adapter Fixtures.





Example root_trace_ID :
  trace_ID (st_value root_trace) = "00000000000000000000000000000001".
Proof. reflexivity. Qed.

Example first_span_identifiers :
  span_ID (st_value first_span) = "0000000000000002" /\
  span_ParentSpanID (st_value first_span) = "" /\
  span_TraceID (st_value first_span) = "00000000000000000000000000000001" /\
  st_calls first_span =
    [SetAttributes 1 [Otel.AttrString "openinference.span.kind" "LLM"];
     SetAttributes 1 [Otel.AttrString "input.value" "hi"];
     SetAttributes 1 [Otel.AttrString "tag.tags" "demo"];
     SetAttributes 1 [Otel.AttrString "llm.model_name" "gpt"]].
Proof. repeat split; reflexivity. Qed.

(** TestNestedSpans: a child made by [parentSpan.StartSpan]. *)
Example nested_span_identifiers :
  let child :=
    st_value (span_StartSpan counter_newSpan no_json (st_value first_span)
                (st_tracer first_span) (st_ctx first_span) "child-span"
                plain_span) in
  span_ParentSpanID child = span_ID (st_value first_span) /\
  span_TraceID child = trace_ID (st_value root_trace).
Proof. split; reflexivity. Qed.

(** Without a trace and without a span in the context, the new span's
    trace identifier is the one the SDK gave its span. *)
Example orphan_span_TraceID :
  span_TraceID
    (st_value (Provider_StartSpan counter_newSpan no_json 6%nat Background
                 "orphan" plain_span))
  = "00000000000000000000000000000007".
Proof. reflexivity. Qed.

Example feedback_on_span :
  Provider_AddFeedbackScore (st_ctx first_span)
    (mkFeedbackScoreOpts "" "" "accuracy" 0.5%float "looks right" "human") =
  ([AddEvent 1 "feedback"
      [Otel.AttrString "feedback.name" "accuracy";
       Otel.AttrFloat64 "feedback.score" 0.5%float]], None).
Proof. reflexivity. Qed.

Example feedback_without_trace :
  Provider_AddFeedbackScore Background
    (mkFeedbackScoreOpts "" "" "accuracy" 0.5%float "" "") =
  ([], Some ErrNoActiveTrace).
Proof. reflexivity. Qed.

(** TestEvaluator_Evaluate_MetricError and _MultipleMetrics, with
    recording switched off and no client. *)
Example evaluate_metric_error :
  Evals.Evaluate server_accepts
    (Evals.NewEvaluatorWithOptions None [Evals.WithRecordResults false])
    span_input [failing_metric; exact_match] =
  ([], Returned
         (Some (mkEvalResult
                  [mkMetricScore "error_metric" 0%float "" AnyNil
                     "test metric error";
                   mkMetricScore "exact_match" 0%float "" AnyNil ""]
                  None), None)).
Proof. reflexivity. Qed.

(** Recording: the errored score is skipped, the other one is sent, and a
    refusal of the server ends up in the result's metadata. *)
Example evaluate_records :
  Evals.Evaluate server_refuses recording_evaluator span_input
    [failing_metric; exact_match] =
  ([[Evals.mkSpanAnnotationData "span-123" "exact_match" Evals.KindCODE
       (Evals.mkOptAnnotationResult
          (Evals.mkAnnotationResult (Evals.mkOptNilFloat64 0%float true false)
             Evals.unset_string Evals.unset_string) true)]],
   Returned
     (Some (mkEvalResult
              [mkMetricScore "error_metric" 0%float "" AnyNil
                 "test metric error";
               mkMetricScore "exact_match" 0%float "" AnyNil ""]
              (Some
                 {["record_error" := EString "unexpected status code: 500"]})),
      None)).
Proof. reflexivity. Qed.

Example validate_cloud :
  Phoenix.Validate
    (Phoenix.mkConfig "https://app.phoenix.arize.com/" "team-a" "" "default") =
  (Phoenix.mkConfig "https://app.phoenix.arize.com/s/team-a" "team-a" ""
     "default", None).
Proof. reflexivity. Qed.

Example validate_twice :
  Phoenix.URL
    (fst (Phoenix.Validate
            (fst (Phoenix.Validate
                    (Phoenix.mkConfig "http://h/" "a" "" "default"))))) =
  "http://h/s/a/s/a".
Proof. reflexivity. Qed.

Example resolve_cloud_env :
  Phoenix.config
    (Phoenix.apply_options [Phoenix.WithAPIKey "explicit-key"]
       (Phoenix.defaultClientOptions cloud_env)) =
  Phoenix.mkConfig "https://app.phoenix.arize.com" "team-a" "explicit-key"
    "default".
Proof. vm_compute. reflexivity. Qed.

Example parse_headers :
  Otel.parseHeaders " a = 1 , b=2,broken, c = 3 = 4 " =
  {[ "a" := "1"; "b" := "2" ]}.
Proof. vm_compute. reflexivity. Qed.

Example effective_endpoint :
  Otel.EffectiveEndpoint
    (Otel.set_SpaceID "team-a"
       (Otel.set_Endpoint "https://app.phoenix.arize.com//"
          (Otel.DefaultConfig ∅))) =
  "https://app.phoenix.arize.com/s/team-a".
Proof. vm_compute. reflexivity. Qed.

Example decorate_with_key :
  Http.Header_Get
    (Http.req_Header
       (fst (Phoenix.authHTTPClient_Do
               (Phoenix.mkAuthHTTPClient plain_client "secret") get_projects)))
    "authorization" = "Bearer secret".
Proof. vm_compute. reflexivity. Qed.

End Examples.

(* ===================================================================== *)
(** * Further properties of the code *)
(* ===================================================================== *)

(** ** Package phoenix: configuration, errors, transport *)

Section PhoenixMoreFacts.

Import Phoenix PhoenixRest.



(** X2. At most one of the four classifiers holds of an error. *)
Theorem classifiers_exclusive (err : option Phoenix.error) :
  (List.length
     (List.filter (fun b : bool => b)
        [Phoenix.IsNotFound err; PhoenixRest.IsUnauthorized err;
         PhoenixRest.IsForbidden err; PhoenixRest.IsRateLimited err]) <= 1)%nat.
Proof.
  destruct err as [[s|a|msg e|errs|msg]|];
    cbn [IsUnauthorized IsForbidden IsRateLimited];
    try (destruct (IsNotFound _); cbn; lia).
  cbn [IsNotFound].
  destruct (StatusCode a =? 404)%Z eqn:E1, (StatusCode a =? 401)%Z eqn:E2,
    (StatusCode a =? 403)%Z eqn:E3, (StatusCode a =? 429)%Z eqn:E4;
    cbn; try lia;
    repeat match goal with
           | H : (_ =? _)%Z = true |- _ => apply Z.eqb_eq in H
           end; lia.
Qed.

Lemma errors_Is_wrap_all (msgs : list string) (a : APIError) (s : sentinel) :
  errors_Is (Spec.wrap_all msgs (EAPI a)) s = false.
Proof. induction msgs as [|m rest IH]; [reflexivity | exact IH]. Qed.

(** X3. The classifiers look at the outermost error only: an [*APIError]
    wrapped by [fmt.Errorf], any number of times and whatever its status
    code, is classified by none of them; neither is the SDK's own
    "unexpected response type". *)
Theorem wrapped_APIError_unclassified (msg : string) (msgs : list string)
    (a : Phoenix.APIError) :
  let err := Some (EWrap msg (Spec.wrap_all msgs (EAPI a))) in
  Phoenix.IsNotFound err = false /\
  PhoenixRest.IsUnauthorized err = false /\
  PhoenixRest.IsForbidden err = false /\
  PhoenixRest.IsRateLimited err = false /\
  Phoenix.IsNotFound (Some unexpected_response) = false /\
  PhoenixRest.IsUnauthorized (Some unexpected_response) = false /\
  PhoenixRest.IsForbidden (Some unexpected_response) = false /\
  PhoenixRest.IsRateLimited (Some unexpected_response) = false.
Proof.
  cbn zeta. split; [|repeat split; reflexivity].
  cbn [IsNotFound errors_Is]. now rewrite !errors_Is_wrap_all.
Qed.

(** X4. Decorating a request twice (a request sent again through [Do]) gives
    the same request as decorating it once: the headers are replaced, never
    added a second time. *)
Theorem decorate_idempotent (c : Phoenix.authHTTPClient) (req : Http.Request) :
  Phoenix.authHTTPClient_decorate c (Phoenix.authHTTPClient_decorate c req) =
  Phoenix.authHTTPClient_decorate c req.
Proof.
  unfold authHTTPClient_decorate, Http.Header_Set.
  cbn [Http.req_Method Http.req_URL Http.req_Body Http.req_Header].
  rewrite canonical_Authorization, canonical_SDK_Version, canonical_SDK_Lang.
  f_equal.
  set (A := "Authorization"). set (V := "X-Phoenix-Sdk-Version").
  set (L := "X-Phoenix-Sdk-Lang").
  assert (HAV : A <> V) by discriminate.
  assert (HAL : A <> L) by discriminate.
  assert (HVL : V <> L) by discriminate.
  destruct (negb (String.eqb (apiKey c) "")).
  - apply map_eq. intros k.
    destruct (decide (k = L)) as [->|HkL];
      [now rewrite !lookup_insert_eq|].
    rewrite !(lookup_insert_ne _ L) by congruence.
    destruct (decide (k = V)) as [->|HkV];
      [now rewrite !lookup_insert_eq|].
    rewrite !(lookup_insert_ne _ V) by congruence.
    destruct (decide (k = A)) as [->|HkA];
      [now rewrite !lookup_insert_eq|].
    rewrite !(lookup_insert_ne _ A) by congruence.
    rewrite !(lookup_insert_ne _ L) by congruence.
    rewrite !(lookup_insert_ne _ V) by congruence.
    now rewrite !(lookup_insert_ne _ A) by congruence.
  - apply map_eq. intros k.
    destruct (decide (k = L)) as [->|HkL];
      [now rewrite !lookup_insert_eq|].
    rewrite !(lookup_insert_ne _ L) by congruence.
    destruct (decide (k = V)) as [->|HkV];
      [now rewrite !lookup_insert_eq|].
    rewrite !(lookup_insert_ne _ V) by congruence.
    rewrite !(lookup_insert_ne _ L) by congruence.
    now rewrite !(lookup_insert_ne _ V) by congruence.
Qed.

End PhoenixMoreFacts.

(** ** Package phoenix: the REST resource wrappers *)

Section RestFacts.

Import Phoenix PhoenixRest.

Lemma apply_list_options_app (opts : list ListOption) (opt : ListOption)
    (o : listOptions) :
  apply_list_options (opts ++ [opt]) o =
  apply_list_option opt (apply_list_options opts o).
Proof. unfold apply_list_options. now rewrite fold_left_app. Qed.

(** X5. The paging parameters of the list calls: without options a limit of
    100 and no cursor are sent; a last [WithLimit n] sends the limit [n]
    when it is positive and no limit at all otherwise; a last [WithCursor c]
    sends the cursor unless it is empty. *)
Theorem page_params_options (opts : list PhoenixRest.ListOption) :
  PhoenixRest.page_params (apply_list_options [] defaultListOptions) =
    mkPageParams (Api.mkOptString "" false) (mkOptInt 100 true) /\
  (forall n : Z,
     Params_Limit
       (PhoenixRest.page_params
          (apply_list_options (opts ++ [WithLimit n]) defaultListOptions)) =
     (if (0 <? n)%Z then mkOptInt n true else mkOptInt 0 false)) /\
  (forall c : string,
     Params_Cursor
       (PhoenixRest.page_params
          (apply_list_options (opts ++ [WithCursor c]) defaultListOptions)) =
     (if String.eqb c "" then Api.mkOptString "" false
      else Api.mkOptString c true)).
Proof.
  split; [reflexivity|]. split.
  - intros n. rewrite apply_list_options_app. unfold page_params.
    cbn [apply_list_option lo_limit lo_cursor].
    destruct (negb _), (0 <? n)%Z; reflexivity.
  - intros c. rewrite apply_list_options_app. unfold page_params.
    cbn [apply_list_option lo_limit lo_cursor].
    destruct (String.eqb c ""), (0 <? _)%Z; reflexivity.
Qed.

(** X6. The list wrappers keep the length and the order of what the server
    sent, never hold a nil element, report an empty cursor when the next
    cursor is null, pass an error of the call on, and answer a response
    of an unexpected type with an [APIError]. *)
Theorem list_wrappers_results
    (api_GetProjects : PageParams -> GetProjectsRes + error)
    (api_GetSpans : string -> PageParams -> GetSpansRes + error)
    (opts : list ListOption) (project : string) (sopts : list SpanOption) :
  match api_GetProjects
          (page_params (apply_list_options opts defaultListOptions))
  with
  | inr err => PhoenixRest.ListProjects api_GetProjects opts = inr err
  | inl GetProjectsResOther =>
      PhoenixRest.ListProjects api_GetProjects opts = inr unexpected_response
  | inl (GetProjectsResponseBody data next) =>
      exists projects,
        PhoenixRest.ListProjects api_GetProjects opts =
          inl (projects, if ns_Null next then "" else ns_Value next) /\
        List.length projects = List.length data /\
        Forall2 (fun p d => p = convertProject (Some d) /\ p <> None)
          projects data
  end /\
  match api_GetSpans project
          (page_params
             (fold_left (fun o opt => apply_span_option opt o) sopts
                (mkListOptions "" 100)))
  with
  | inr err => PhoenixRest.GetSpans api_GetSpans project sopts = inr err
  | inl GetSpansResOther =>
      PhoenixRest.GetSpans api_GetSpans project sopts = inr unexpected_response
  | inl (SpansResponseBody data next) =>
      exists spans,
        PhoenixRest.GetSpans api_GetSpans project sopts =
          inl (spans, if ns_Null next then "" else ns_Value next) /\
        List.length spans = List.length data /\
        Forall2 (fun p d => p = convertSpan (Some d) /\ p <> None) spans data
  end.
Proof.
  split.
  - unfold ListProjects.
    destruct (api_GetProjects _) as [[data next|]|err]; try reflexivity.
    eexists. split; [|split].
    + unfold next_cursor. now destruct (ns_Null next).
    + apply length_map.
    + induction data; constructor; auto.
  - unfold GetSpans.
    destruct (api_GetSpans _ _) as [[data next|]|err]; try reflexivity.
    eexists. split; [|split].
    + unfold next_cursor. now destruct (ns_Null next).
    + apply length_map.
    + induction data; constructor; auto.
Qed.

(** X7. [CreateDataset] and [AddDatasetExamples] send nothing of the examples
    but their number: the request is the one for as many empty examples,
    and its four item lists have the length of the examples. *)
Theorem dataset_requests_drop_examples (name : string)
    (examples : list DatasetExample) (opts : list DatasetOption) :
  let blank :=
    repeat (mkDatasetExample LlmopsAPI.AnyNil LlmopsAPI.AnyNil None)
      (List.length examples) in
  PhoenixRest.CreateDataset_request name examples opts =
    PhoenixRest.CreateDataset_request name blank opts /\
  PhoenixRest.AddDatasetExamples_request name examples =
    PhoenixRest.AddDatasetExamples_request name blank /\
  let req := PhoenixRest.CreateDataset_request name examples opts in
  List.length (Upload_Inputs req) = List.length examples /\
  List.length (Upload_Outputs req) = List.length examples /\
  List.length (Upload_Metadata req) = List.length examples /\
  List.length (Upload_Splits req) = List.length examples.
Proof.
  cbn zeta.
  unfold CreateDataset_request, AddDatasetExamples_request,
    convertExamplesToAPIFormat.
  rewrite !repeat_length. cbn.
  rewrite !repeat_length. repeat split; reflexivity.
Qed.

End RestFacts.

(** ** The provider: resources *)

Section ProviderResourceFacts.

Import LlmopsAPI Phoenix PhoenixRest PhoenixAnnotations AdapterProvider.

(** X8. The provider's [GetProject], [CreateProject] and [GetDatasetByID]
    return the identifier and the name only: description, counts and time
    stamps are zero whatever the server answered, also when
    [CreateProject] was given a description to send. *)
Theorem lookups_return_ID_and_name_only
    (api_GetProject : string -> GetProjectRes + error)
    (api_CreateProject : CreateProjectRequestBody -> GetProjectRes + error)
    (api_GetDataset : string -> GetDatasetRes + error)
    (name description : string) :
  (forall r, AdapterProvider.Provider_GetProject api_GetProject name = inl r ->
     exists data, api_GetProject name = inl (GetProjectResponseBody data) /\
       r = mkLProject (Api.Project_ID data) (Api.Project_Name data) ""
             zero_Time zero_Time) /\
  (forall r,
     AdapterProvider.Provider_CreateProject api_CreateProject name description
       = inl r ->
     exists data,
       api_CreateProject
         (mkCreateProjectRequestBody name
            (if String.eqb description "" then Api.mkOptString "" false
             else Api.mkOptString description true))
       = inl (GetProjectResponseBody data) /\
       r = mkLProject (Api.Project_ID data) (Api.Project_Name data) ""
             zero_Time zero_Time) /\
  (forall r,
     AdapterProvider.Provider_GetDatasetByID api_GetDataset name = inl r ->
     exists data, api_GetDataset name = inl (GetDatasetResponseBody data) /\
       r = mkLDataset (ApiDataset_ID data) (ApiDataset_Name data) "" 0
             zero_Time zero_Time).
Proof.
  split; [|split].
  - intros r. unfold Provider_GetProject, GetProject.
    destruct (api_GetProject name) as [[data|]|err]; try discriminate.
    intros H. injection H as <-. eauto.
  - intros r. unfold Provider_CreateProject, CreateProject.
    destruct (String.eqb description "") eqn:E;
      cbn [negb fold_left apply_project_option po_description];
      [change (String.eqb "" "") with true | rewrite E]; cbn [negb];
      (destruct (api_CreateProject _) as [[data|]|err]; try discriminate;
       intros H; injection H as <-; eauto).
  - intros r. unfold Provider_GetDatasetByID, GetDataset.
    destruct (api_GetDataset name) as [[data|]|err]; try discriminate.
    intros H. injection H as <-. eauto.
Qed.

Lemma find_dataset_map (name : string) (data : list ApiDataset) :
  find_dataset name (map (fun d => convertDataset (Some d)) data) =
  Returned
    (match List.find (fun d => String.eqb (ApiDataset_Name d) name) data with
     | Some d => option_map to_LDataset (convertDataset (Some d))
     | None => None
     end).
Proof.
  induction data as [|d rest IH]; [reflexivity|].
  cbn [map find_dataset convertDataset List.find Dataset_Name].
  destruct (String.eqb (ApiDataset_Name d) name); [reflexivity | exact IH].
Qed.

(** X9. [Provider.GetDataset] asks for one page (limit 100, no cursor) and
    never panics: it passes the error of the call on, returns the first
    dataset of that page with the requested name, with the listed
    description and counts, and [ErrDatasetNotFound] exactly when no
    dataset of the page has the name. *)
Theorem GetDataset_by_name
    (api_ListDatasets : PageParams -> ListDatasetsRes + error)
    (name : string) :
  match api_ListDatasets
          (mkPageParams (Api.mkOptString "" false) (mkOptInt 100 true)) with
  | inr err =>
      AdapterProvider.Provider_GetDataset api_ListDatasets name =
        Returned (inr (PhoenixError err))
  | inl ListDatasetsResOther =>
      AdapterProvider.Provider_GetDataset api_ListDatasets name =
        Returned (inr (PhoenixError unexpected_response))
  | inl (ListDatasetsResponseBody data _) =>
      match List.find (fun d => String.eqb (ApiDataset_Name d) name) data with
      | Some d =>
          AdapterProvider.Provider_GetDataset api_ListDatasets name =
            Returned
              (inl (mkLDataset (ApiDataset_ID d) name
                      (if ns_Null (ApiDataset_Description d) then ""
                       else ns_Value (ApiDataset_Description d))
                      (ApiDataset_ExampleCount d) (ApiDataset_CreatedAt d)
                      (ApiDataset_UpdatedAt d)))
      | None =>
          AdapterProvider.Provider_GetDataset api_ListDatasets name =
            Returned (inr ErrDatasetNotFound) /\
          Forall (fun d => ApiDataset_Name d <> name) data
      end
  end.
Proof.
  unfold Provider_GetDataset, ListDatasets.
  change (page_params (apply_list_options [] defaultListOptions))
    with (mkPageParams (Api.mkOptString "" false) (mkOptInt 100 true)).
  destruct (api_ListDatasets _) as [[data next|]|err]; try reflexivity.
  rewrite find_dataset_map.
  destruct (List.find _ data) as [d|] eqn:F.
  - apply List.find_some in F as [_ F]. apply String.eqb_eq in F.
    cbn. unfold to_LDataset. cbn. rewrite F.
    now destruct (ns_Null (ApiDataset_Description d)).
  - split; [reflexivity|]. apply Forall_forall. intros d Hd.
    apply list_elem_of_In in Hd.
    pose proof (List.find_none _ _ F d Hd) as Hn. cbn in Hn.
    now apply String.eqb_neq.
Qed.

(** X10. [Provider.GetPrompt] never panics, whatever versions it is given.
    Without a version, or with an empty first one, it is the latest
    version.  With any other first version, it is the version with that
    tag when the lookup by tag succeeds, and otherwise whatever the lookup
    by version identifier gives: the error of the lookup by tag is never
    returned.  The prompt carries the requested name, and its version is
    its identifier. *)
Theorem GetPrompt_lookup_order
    (latest byID : string -> GetPromptRes + error)
    (byTag : string -> string -> GetPromptRes + error)
    (name : string) (version : list string) :
  let prompt (r : GetPromptRes + error) : outcome (LPrompt + error) :=
    match r with
    | inr err => Returned (inr err)
    | inl GetPromptResOther => Returned (inr unexpected_response)
    | inl (GetPromptResponseBody d) =>
        Returned
          (inl (mkLPrompt (APV_ID d) name (APV_ID d)
                  (match APV_Template d with
                   | PromptStringTemplate t => t
                   | PromptChatTemplate _ => ""
                   end)
                  (if ns_Null (APV_Description d) then ""
                   else ns_Value (APV_Description d))
                  (APV_ModelName d) (APV_ModelProvider d)))
    end in
  AdapterProvider.Provider_GetPrompt latest byID byTag name version =
    match version with
    | [] => prompt (latest name)
    | v :: _ =>
        if String.eqb v "" then prompt (latest name)
        else
          match byTag name v with
          | inl (GetPromptResponseBody d) =>
              prompt (inl (GetPromptResponseBody d))
          | _ => prompt (byID v)
          end
    end /\
  exists r,
    AdapterProvider.Provider_GetPrompt latest byID byTag name version =
      Returned r.
Proof.
  cbn zeta.
  set (prompt := fun r : GetPromptRes + error =>
         match r with
         | inr err => Returned (inr err)
         | inl GetPromptResOther => Returned (inr unexpected_response)
         | inl (GetPromptResponseBody d) =>
             Returned
               (inl (mkLPrompt (APV_ID d) name (APV_ID d)
                       (match APV_Template d with
                        | PromptStringTemplate t => t
                        | PromptChatTemplate _ => ""
                        end)
                       (if ns_Null (APV_Description d) then ""
                        else ns_Value (APV_Description d))
                       (APV_ModelName d) (APV_ModelProvider d)))
         end : outcome (LPrompt + error)).
  assert (Hlatest :
            match GetPromptLatest latest name with
            | inr err => Returned (inr err)
            | inl None => Panicked nil_dereference
            | inl (Some pv) =>
                Returned
                  (inl (mkLPrompt (PV_ID pv) name (PV_ID pv) (PV_Template pv)
                          (PV_Description pv) (PV_ModelName pv)
                          (PV_ModelProvider pv)))
            end = prompt (latest name)).
  { unfold GetPromptLatest, prompt_version_result, prompt.
    destruct (latest name) as [[d|]|err]; try reflexivity.
    cbn. now destruct (ns_Null (APV_Description d)). }
  assert (Hreturns : forall r, exists x, prompt r = Returned x).
  { intros [[d|]|err]; eexists; reflexivity. }
  assert (Heq :
    Provider_GetPrompt latest byID byTag name version =
    match version with
    | [] => prompt (latest name)
    | v :: _ =>
        if String.eqb v "" then prompt (latest name)
        else
          match byTag name v with
          | inl (GetPromptResponseBody d) =>
              prompt (inl (GetPromptResponseBody d))
          | _ => prompt (byID v)
          end
    end).
  { unfold Provider_GetPrompt. destruct version as [|v more];
      [exact Hlatest|].
    cbn [hd]. destruct (String.eqb v "") eqn:E; cbn [negb];
      [exact Hlatest|].
    unfold GetPromptVersionByTag, GetPromptVersion, prompt_version_result,
      prompt.
    destruct (byTag name v) as [[d|]|err].
    - cbn. now destruct (ns_Null (APV_Description d)).
    - destruct (byID v) as [[d|]|err']; try reflexivity.
      cbn. now destruct (ns_Null (APV_Description d)).
    - destruct (byID v) as [[d|]|err']; try reflexivity.
      cbn. now destruct (ns_Null (APV_Description d)). }
  split; [exact Heq|]. rewrite Heq.
  destruct version as [|v more]; [apply Hreturns|].
  destruct (String.eqb v ""); [apply Hreturns|].
  destruct (byTag name v) as [[d|]|err]; apply Hreturns.
Qed.

End ProviderResourceFacts.

(** ** Package evals: recording and feedback *)

Section EvaluatorMoreFacts.

Import LlmopsAPI Evals PhoenixAnnotations EvalsFeedback EvalsSpec.

Variable api_AnnotateSpans :
  Phoenix.Client -> list SpanAnnotationData -> option string.
Variable api_AnnotateTraces :
  Phoenix.Client -> list TraceAnnotationData -> option string.

Lemma run_metrics_closed (input : EvalInput) (metrics : list Metric) :
  run_metrics input metrics [] = map (Spec.metric_score input) metrics.
Proof.
  assert (G : forall scores,
             run_metrics input metrics scores =
             (scores ++ map (Spec.metric_score input) metrics)%list).
  { induction metrics as [|m rest IH]; intros scores.
    - cbn. now rewrite app_nil_r.
    - cbn [run_metrics map].
      destruct (Metric_Evaluate m input) as [score [msg|]] eqn:E;
        rewrite IH, <- app_assoc; cbn [app]; unfold Spec.metric_score;
        rewrite E; reflexivity. }
  apply G.
Qed.

Lemma build_annotations_closed (spanID : string) (scores : list MetricScore)
    (acc : list SpanAnnotationData) :
  build_annotations spanID scores acc =
  if existsb unchecked scores
  then Panicked
         "interface conversion: interface {} is not map[string]interface {}"
  else Returned
         (acc ++ map (annotation_of spanID) (List.filter recorded scores))%list.
Proof.
  revert acc. induction scores as [|s rest IH]; intros acc.
  - cbn. now rewrite app_nil_r.
  - cbn [build_annotations existsb List.filter]. unfold unchecked at 1.
    change (String.eqb (MetricScore_Error s) "") with (recorded s).
    destruct (recorded s) eqn:E; cbn [negb andb orb]; [|apply IH].
    unfold map_or_nil, score_label.
    destruct (MetricScore_Metadata s) as [| | | | |m] eqn:M;
      cbn [negb orb]; try reflexivity.
    + rewrite IH. destruct (existsb unchecked rest); [reflexivity|].
      rewrite <- app_assoc. cbn [app map]. unfold annotation_of, label_of.
      rewrite M. now destruct (String.eqb (MetricScore_Reason s) "").
    + destruct (m !! "label") as [[l| |]|] eqn:L; rewrite IH;
        (destruct (existsb unchecked rest); [reflexivity|]);
        rewrite <- app_assoc; cbn [app map]; unfold annotation_of, label_of;
        rewrite M, L; now destruct (String.eqb (MetricScore_Reason s) "").
Qed.

Lemma Evaluate_closed (e : Evaluator) (input : EvalInput)
    (metrics : list Metric) :
  let scores := map (Spec.metric_score input) metrics in
  let annotations :=
    map (annotation_of (EvalInput_SpanID input)) (List.filter recorded scores)
  in
  Evaluate api_AnnotateSpans e input metrics =
  if recordResults e && negb (String.eqb (EvalInput_SpanID input) "") then
    if existsb unchecked scores
    then ([], Panicked
                "interface conversion: interface {} is not map[string]interface {}")
    else
      match annotations, client e with
      | [], _ => ([], Returned (Some (mkEvalResult scores None), None))
      | _ :: _, None =>
          ([], Panicked "invalid memory address or nil pointer dereference")
      | _ :: _, Some c =>
          ([annotations],
           Returned
             (Some (mkEvalResult scores
                      (record_error (api_AnnotateSpans c annotations))),
              None))
      end
  else ([], Returned (Some (mkEvalResult scores None), None)).
Proof.
  cbn zeta. unfold Evaluate, recordScoresToPhoenix.
  rewrite run_metrics_closed.
  destruct (recordResults e && _); [|reflexivity].
  rewrite build_annotations_closed, app_nil_l.
  destruct (existsb unchecked _); [reflexivity|].
  destruct (map (annotation_of _) _) as [|a l] eqn:A; [reflexivity|].
  cbn [List.length Nat.eqb].
  destruct (client e) as [c|]; [|reflexivity].
  now destruct (api_AnnotateSpans c (a :: l)).
Qed.

Lemma filter_recorded_nil (scores : list MetricScore) :
  List.filter recorded scores = [] <-> existsb recorded scores = false.
Proof.
  induction scores as [|s rest IH]; cbn; [tauto|].
  destruct (recorded s); cbn; [|exact IH]. split; discriminate.
Qed.

(** X11. [Evaluate] panics exactly when results are recorded, the input names
    a span, and either a score without error carries a metadata that is
    neither nil nor a map, or the evaluator has no client while some score
    carries no error.  In every other case it returns. *)
Theorem Evaluate_panics_iff (e : Evaluator) (input : EvalInput)
    (metrics : list Metric) :
  let scores := map (Spec.metric_score input) metrics in
  (exists msg,
     snd (Evals.Evaluate api_AnnotateSpans e input metrics) = Panicked msg) <->
  (recordResults e = true /\ EvalInput_SpanID input <> "" /\
   (existsb unchecked scores = true \/
    (client e = None /\ existsb recorded scores = true))).
Proof.
  cbn zeta. rewrite Evaluate_closed.
  destruct (recordResults e); cbn [andb].
  2:{ split; [intros [msg H]; discriminate | intros [H _]; discriminate]. }
  destruct (String.eqb (EvalInput_SpanID input) "") eqn:S; cbn [negb].
  { apply String.eqb_eq in S. split; [intros [msg H]; discriminate|].
    intros (_ & H & _). contradiction. }
  apply String.eqb_neq in S.
  destruct (existsb unchecked _) eqn:U.
  { split; [intros _; auto | intros _; eexists; reflexivity]. }
  destruct (map (annotation_of _) _) as [|a l] eqn:A.
  { apply map_eq_nil in A. apply filter_recorded_nil in A.
    split; [intros [msg H]; discriminate|].
    intros (_ & _ & [H | [_ H]]); congruence. }
  assert (R : existsb recorded (map (Spec.metric_score input) metrics) = true).
  { destruct (existsb recorded _) eqn:R; [reflexivity|].
    apply filter_recorded_nil in R. rewrite R in A. discriminate. }
  destruct (client e) as [c|].
  - split; [intros [msg H]; discriminate|].
    intros (_ & _ & [H | [H _]]); discriminate.
  - split; [intros _; auto | intros _; eexists; reflexivity].
Qed.

(** X12. [Evaluate] sends at most one request.  It sends none when no score is
    free of an error; the request it sends holds one annotation per score
    without error, in the order of the metrics, each on the span of the
    input and with the name, score and reason of its score; a failure of
    the request is reported in the metadata of the result and not as an
    error. *)
Theorem Evaluate_request (e : Evaluator) (input : EvalInput)
    (metrics : list Metric) :
  let scores := map (Spec.metric_score input) metrics in
  let annotations :=
    map (annotation_of (EvalInput_SpanID input)) (List.filter recorded scores)
  in
  fst (Evals.Evaluate api_AnnotateSpans e input metrics) = [] \/
  exists c,
    client e = Some c /\ existsb recorded scores = true /\
    Evals.Evaluate api_AnnotateSpans e input metrics =
      ([annotations],
       Returned
         (Some (mkEvalResult scores
                  (record_error (api_AnnotateSpans c annotations))), None)).
Proof.
  cbn zeta. rewrite Evaluate_closed.
  destruct (recordResults e && _); [|now left].
  destruct (existsb unchecked _); [now left|].
  destruct (map (annotation_of _) _) as [|a l] eqn:A; [now left|].
  destruct (client e) as [c|]; [|now left].
  right. exists c. repeat split.
  destruct (existsb recorded _) eqn:R; [reflexivity|].
  apply filter_recorded_nil in R. rewrite R in A. discriminate.
Qed.

(** X13. The evaluator's [AddFeedbackScore] sends at most one request: a span
    annotation when the span identifier is set, whatever the trace
    identifier; otherwise a trace annotation when the trace identifier is
    set; and with neither it sends nothing and returns nil.  The error of
    the request is returned as it is.  For one source string the trace
    annotation has the annotator kind and the result of the span
    annotation. *)
Theorem evaluator_AddFeedbackScore_spec (c : Phoenix.Client) (record : bool)
    (opts : FeedbackScoreOpts) :
  let e := mkEvaluator (Some c) record in
  let span_body :=
    addSpanAnnotation_request (FeedbackScoreOpts_SpanID opts)
      (FeedbackScoreOpts_Name opts) (FeedbackScoreOpts_Score opts)
      (FeedbackScoreOpts_Reason opts) (FeedbackScoreOpts_Source opts) in
  let trace_body :=
    addTraceAnnotation_request (FeedbackScoreOpts_TraceID opts)
      (FeedbackScoreOpts_Name opts) (FeedbackScoreOpts_Score opts)
      (FeedbackScoreOpts_Reason opts) (FeedbackScoreOpts_Source opts) in
  EvalsFeedback.AddFeedbackScore api_AnnotateSpans api_AnnotateTraces e opts =
    (if String.eqb (FeedbackScoreOpts_SpanID opts) "" then
       if String.eqb (FeedbackScoreOpts_TraceID opts) ""
       then ([], Returned None)
       else ([SentTraces trace_body],
             Returned (api_AnnotateTraces c trace_body))
     else ([SentSpans span_body], Returned (api_AnnotateSpans c span_body))) /\
  map TraceData_AnnotatorKind trace_body =
    map (fun d => received_kind (Annotation_AnnotatorKind d)) span_body /\
  map TraceData_Result trace_body = map Annotation_Result span_body.
Proof.
  cbn zeta. split; [|split].
  - unfold AddFeedbackScore. cbn [client].
    destruct (String.eqb (FeedbackScoreOpts_SpanID opts) ""); cbn [negb];
      [|reflexivity].
    now destruct (String.eqb (FeedbackScoreOpts_TraceID opts) "").
  - unfold addTraceAnnotation_request, addSpanAnnotation_request,
      parseTraceAnnotatorKind, parseSpanAnnotatorKind.
    cbn [map TraceData_AnnotatorKind Annotation_AnnotatorKind].
    destruct (_ || _); [reflexivity|]. now destruct (_ || _).
  - reflexivity.
Qed.

(** X14. The evaluator's span annotation is the one the client's
    [CreateSpanAnnotation] builds from the same reason and source, except
    for the two lower-case sources: the evaluator reads [llm] and [code] as
    the kinds LLM and CODE, the client as HUMAN. *)
Theorem addSpanAnnotation_vs_client (spanID name reason source : string)
    (score : float) :
  EvalsFeedback.addSpanAnnotation_request spanID name score reason source =
    CreateSpanAnnotation_request spanID name score
      [WithAnnotationExplanation reason; WithAnnotationSource source] <->
  source <> "llm" /\ source <> "code".
Proof.
  unfold addSpanAnnotation_request, CreateSpanAnnotation_request,
    apply_annotation_options, annotation_result, buildAnnotationResult,
    parseSpanAnnotatorKind, AnnotatorKindLLM, AnnotatorKindCode.
  cbn [fold_left apply_annotation_option ao_source ao_explanation ao_label
       String.eqb negb].
  destruct (String.eqb source "llm") eqn:E1.
  { apply String.eqb_eq in E1. subst source. cbn.
    split; [discriminate | intros [H _]; congruence]. }
  destruct (String.eqb source "code") eqn:E2.
  { apply String.eqb_eq in E2. subst source. cbn.
    split; [discriminate | intros [_ H]; congruence]. }
  apply String.eqb_neq in E1, E2. cbn [orb].
  split; [auto|intros _].
  destruct (String.eqb source "LLM"); [reflexivity|].
  cbn [orb]. now destruct (String.eqb source "CODE").
Qed.

End EvaluatorMoreFacts.

(** ** The provider: evaluation and annotations *)

Section ProviderAnnotationFacts.

Import LlmopsAPI Phoenix PhoenixRest PhoenixAnnotations AdapterProvider
  EvalsSpec.

Lemma Provider_run_metrics_closed (input : EvalInput) (metrics : list Metric)
    (scores : list MetricScore) :
  Provider_run_metrics input metrics scores =
    (scores ++ map (Spec.metric_score input) metrics)%list.
Proof.
  revert scores. induction metrics as [|m rest IH]; intros scores.
  - cbn. now rewrite app_nil_r.
  - cbn [Provider_run_metrics map].
    destruct (Metric_Evaluate m input) as [score [msg|]] eqn:E;
      rewrite IH, <- app_assoc; cbn [app]; unfold Spec.metric_score;
      rewrite E; reflexivity.
Qed.

(** X15. [Provider.Evaluate] never records: it returns what the evaluator's
    [Evaluate] returns with recording switched off, and what it returns
    for the same input without its span identifier, and in both cases the
    evaluator sends nothing. *)
Theorem Provider_Evaluate_is_unrecorded
    (api_AnnotateSpans :
       Phoenix.Client -> list Evals.SpanAnnotationData -> option string)
    (c : option Phoenix.Client) (record : bool) (input : EvalInput)
    (metrics : list Metric) :
  Evals.Evaluate api_AnnotateSpans (Evals.mkEvaluator c false) input metrics =
    ([], Returned (AdapterProvider.Provider_Evaluate input metrics)) /\
  (EvalInput_SpanID input = "" ->
   Evals.Evaluate api_AnnotateSpans (Evals.mkEvaluator c record) input metrics =
     ([], Returned (AdapterProvider.Provider_Evaluate input metrics))).
Proof.
  split; [|intros H]; unfold Evals.Evaluate, Provider_Evaluate;
    rewrite ?H, Provider_run_metrics_closed, run_metrics_closed;
    cbn [Evals.recordResults andb negb String.eqb];
    rewrite ?andb_false_r; reflexivity.
Qed.

(** X16. An annotation goes round: what [CreateAnnotation] sends for an
    annotation on a span, once stored by the server and listed again, is
    converted back to the annotation's span, name, score, label and
    explanation.  The trace identifier is lost, and a source other than LLM
    and Code comes back as Human. *)
Theorem annotation_round_trip
    (api_AnnotateSpans : list Evals.SpanAnnotationData -> option error)
    (api_AnnotateTraces : list TraceAnnotationData -> option error)
    (a : LAnnotation) (id : string) (created updated : GoTime) :
  LA_SpanID a <> "" ->
  exists d,
    AdapterProvider.CreateAnnotation api_AnnotateSpans api_AnnotateTraces a =
      api_AnnotateSpans [d] /\
    convertAnnotation
      (convertSpanAnnotation (Some (stored id created updated d)))
    = Some (mkLAnnotation id (LA_SpanID a) "" (LA_Name a) (LA_Score a)
              (LA_Label a) (LA_Explanation a)
              (match LA_Source a with
               | LKindLLM => LKindLLM
               | LKindCode => LKindCode
               | _ => LKindHuman
               end)
              created updated).
Proof.
  intros H. apply String.eqb_neq in H.
  unfold CreateAnnotation, CreateSpanAnnotation, CreateSpanAnnotation_request.
  rewrite H. cbn [negb]. eexists. split; [reflexivity|].
  unfold CreateAnnotation_opts, apply_annotation_options, annotation_result.
  destruct (String.eqb (LA_Explanation a) "") eqn:E;
    destruct (String.eqb (LA_Label a) "") eqn:L;
    cbn [negb app fold_left apply_annotation_option ao_source ao_label
         ao_explanation];
    rewrite ?E, ?L; cbn [negb];
    try (apply String.eqb_eq in E; rewrite E);
    try (apply String.eqb_eq in L; rewrite L);
    destruct (LA_Source a); reflexivity.
Qed.

(** The round trip on an annotation by a rater of no named kind. *)
Lemma annotation_round_trip_rated :
  LA_SpanID MoreFixtures.rated <> "" /\
  exists d,
    AdapterProvider.CreateAnnotation MoreFixtures.spans_accepted
      MoreFixtures.traces_accepted MoreFixtures.rated =
      MoreFixtures.spans_accepted [d] /\
    convertAnnotation (convertSpanAnnotation (Some (stored "a-1" 1%Z 2%Z d)))
    = Some (mkLAnnotation "a-1" "span-123" "" "quality" 0.5%float "good" ""
              LKindHuman 1%Z 2%Z).
Proof.
  split; [discriminate|].
  apply (annotation_round_trip MoreFixtures.spans_accepted
           MoreFixtures.traces_accepted MoreFixtures.rated "a-1" 1%Z 2%Z).
  discriminate.
Defined.

(** [CreateAnnotation] makes no request for an annotation that names
    neither a span nor a trace: whatever the requests would answer, it
    returns an [APIError] with status 0, which no classifier recognises. *)
Lemma CreateAnnotation_without_target
    (api_AnnotateSpans : list Evals.SpanAnnotationData -> option error)
    (api_AnnotateTraces : list TraceAnnotationData -> option error)
    (id name label explanation : string) (score : float)
    (source : LAnnotatorKind) (created updated : GoTime) :
  let err :=
    AdapterProvider.CreateAnnotation api_AnnotateSpans api_AnnotateTraces
      (mkLAnnotation id "" "" name score label explanation source created
         updated) in
  err = Some (EAPI (mkAPIError 0 "either SpanID or TraceID must be set" "")) /\
  IsNotFound err = false /\ IsUnauthorized err = false /\
  IsForbidden err = false /\ IsRateLimited err = false.
Proof. repeat split. Qed.

End ProviderAnnotationFacts.

(** ** Package otel: endpoints, environment and exporter *)

Section OtelMoreFacts.

Import GoStrings Otel OtelSpec.

Variable url_Parse : string -> URL + string.
Variable otlptracehttp_New : list ExporterOption -> option string.
Variable resource_Merge : list KeyValue -> option string.

Lemma slashes_snoc (k : nat) : slashes k ++ "/" = slashes (S k).
Proof.
  induction k as [|k IH]; [reflexivity|].
  cbn [slashes]. rewrite append_cons, IH. reflexivity.
Qed.

Lemma length_slashes (k : nat) : String.length (slashes k) = k.
Proof. induction k as [|k IH]; cbn; [reflexivity | now rewrite IH]. Qed.

Lemma append_cancel_r (a b x : string) : a ++ x = b ++ x -> a = b.
Proof.
  intros H.
  assert (L : String.length a = String.length b).
  { apply (f_equal String.length) in H. rewrite !length_append in H. lia. }
  revert b H L. induction a as [|c a IH]; intros [|d b] H L;
    try discriminate; [reflexivity|].
  rewrite !append_cons in H. injection H as -> H.
  f_equal. apply IH; [exact H | now injection L].
Qed.

Lemma strip_slashes_spec (s : string) (fuel : nat) :
  (String.length s <= fuel)%nat ->
  exists k,
    s = strip_slashes s fuel ++ slashes k /\
    HasSuffix (strip_slashes s fuel) "/" = false.
Proof.
  revert s. induction fuel as [|fuel IH]; intros s Hs.
  - destruct s; [|cbn in Hs; lia]. exists 0%nat. split; reflexivity.
  - cbn [strip_slashes]. destruct (HasSuffix s "/") eqn:E.
    + apply HasSuffix_true in E as [p ->].
      rewrite length_append in *. cbn [String.length] in *.
      replace (0 <? String.length p + 1)%nat with true
        by (symmetry; apply Nat.ltb_lt; lia).
      cbn [andb]. rewrite Nat.add_sub, substring_append_l.
      destruct (IH p) as (k & Hp & Hn); [lia|].
      exists (S k). split; [|exact Hn].
      rewrite <- slashes_snoc, <- append_assoc, <- Hp. reflexivity.
    + cbn [andb]. exists 0%nat. cbn [slashes]. rewrite append_empty_r.
      split; [reflexivity | exact E].
Qed.

(** X17. [EffectiveEndpoint] is the endpoint itself without a space
    identifier.  With one, every trailing slash of the endpoint is removed
    and [/s/] and the space identifier follow: the endpoint is split into
    a part that does not end in a slash and some slashes. *)
Theorem EffectiveEndpoint_spec (c : Otel.Config) :
  (SpaceID c = "" -> Otel.EffectiveEndpoint c = Endpoint c) /\
  (SpaceID c <> "" ->
   exists base k,
     Endpoint c = base ++ slashes k /\
     HasSuffix base "/" = false /\
     Otel.EffectiveEndpoint c = base ++ "/s/" ++ SpaceID c).
Proof.
  unfold EffectiveEndpoint. split.
  - intros ->. reflexivity.
  - intros H. apply String.eqb_neq in H. rewrite H. cbn [negb].
    destruct (strip_slashes_spec (Endpoint c) (String.length (Endpoint c)))
      as (k & Hk & Hn); [lia|].
    exists (strip_slashes (Endpoint c) (String.length (Endpoint c))), k.
    repeat split; assumption.
Qed.

Lemma HasSuffix_double (s : string) :
  HasSuffix s "//" = true -> HasSuffix s "/" = true.
Proof.
  intros H. apply HasSuffix_true in H as [p ->]. apply HasSuffix_true.
  exists (p ++ "/"). now rewrite append_assoc.
Qed.

(** X18. The REST client and the tracer agree on the address for one URL and
    one space identifier exactly when the URL (not empty) does not end in
    a slash, or, with a space identifier, in two: [Validate] removes one
    trailing slash, in every case; [EffectiveEndpoint] removes all of them
    and only when a space identifier is set. *)
Theorem BaseURL_vs_EffectiveEndpoint (u space key project : string)
    (oc : Otel.Config) :
  u <> "" ->
  (Phoenix.BaseURL
     (fst (Phoenix.Validate (Phoenix.mkConfig u space key project))) =
   Otel.EffectiveEndpoint (set_SpaceID space (set_Endpoint u oc))
   <->
   HasSuffix u (if String.eqb space "" then "/" else "//") = false).
Proof.
  intros Hu. apply String.eqb_neq in Hu.
  unfold Phoenix.Validate, Phoenix.BaseURL, EffectiveEndpoint.
  cbn [Phoenix.URL Phoenix.SpaceID Phoenix.set_URL fst SpaceID Endpoint
       set_SpaceID set_Endpoint].
  rewrite Hu.
  cbn [Phoenix.URL Phoenix.SpaceID Phoenix.set_URL].
  destruct (String.eqb space "") eqn:Hspace;
    cbn [negb fst Phoenix.URL Phoenix.SpaceID Phoenix.set_URL].
  - destruct (TrimSuffix_cases u "/") as [[H1 H2]|[H1 H2]]; rewrite H1.
    + split; [|discriminate]. intros E. rewrite E in H2.
      apply (f_equal String.length) in H2. rewrite length_append in H2.
      cbn in H2. lia.
    + split; auto.
  - cbn [Phoenix.set_URL Phoenix.URL Phoenix.SpaceID].
    destruct (strip_slashes_spec u (String.length u)) as (k & Hk & Hn);
      [lia|].
    remember (strip_slashes u (String.length u)) as base eqn:Hb. clear Hb.
    destruct k as [|[|k]].
    + cbn [slashes] in Hk. rewrite append_empty_r in Hk. subst u.
      rewrite (TrimSuffix_none _ _ Hn). split; [intros _|reflexivity].
      destruct (HasSuffix base "//") eqn:D; [|reflexivity].
      apply HasSuffix_double in D. congruence.
    + change (slashes 1) with "/" in Hk. subst u.
      rewrite TrimSuffix_append. split; [intros _|reflexivity].
      destruct (HasSuffix (base ++ "/") "//") eqn:D; [|reflexivity].
      apply HasSuffix_true in D as [p D].
      change "//" with ("/" ++ "/") in D. rewrite <- append_assoc in D.
      apply append_cancel_r in D.
      assert (HasSuffix base "/" = true) by (apply HasSuffix_true; eauto).
      congruence.
    + assert (E : u = (base ++ slashes (S k)) ++ "/").
      { rewrite append_assoc, slashes_snoc. exact Hk. }
      assert (D : HasSuffix u "//" = true).
      { apply HasSuffix_true. exists (base ++ slashes k).
        rewrite Hk, <- !slashes_snoc, !append_assoc. reflexivity. }
      rewrite D. split; [|discriminate]. intros F. exfalso.
      rewrite E, TrimSuffix_append in F.
      apply (f_equal String.length) in F.
      rewrite !length_append, length_slashes in F. lia.
Qed.

(** On Phoenix Cloud's URL with one trailing slash and a space: both
    give the same address. *)
Lemma BaseURL_vs_EffectiveEndpoint_cloud :
  "https://app.phoenix.arize.com/" <> "" /\
  (Phoenix.BaseURL
     (fst (Phoenix.Validate
             (Phoenix.mkConfig "https://app.phoenix.arize.com/" "team-a" ""
                "default"))) =
   Otel.EffectiveEndpoint
     (set_SpaceID "team-a"
        (set_Endpoint "https://app.phoenix.arize.com/" (DefaultConfig ∅)))
   <->
   HasSuffix "https://app.phoenix.arize.com/"
     (if String.eqb "team-a" "" then "/" else "//") = false).
Proof.
  split; [discriminate|].
  apply (BaseURL_vs_EffectiveEndpoint "https://app.phoenix.arize.com/"
           "team-a" "" "default" (DefaultConfig ∅)).
  discriminate.
Defined.

Lemma DefaultConfig_credentials (env : Os.Environ) :
  SpaceID (Otel.DefaultConfig env) = Phoenix.SpaceID (Phoenix.LoadConfig env) /\
  APIKey (Otel.DefaultConfig env) = Phoenix.APIKey (Phoenix.LoadConfig env).
Proof.
  unfold DefaultConfig, Phoenix.LoadConfig, Phoenix.loadFromEnv,
    Phoenix.NewConfig.
  change Phoenix.EnvSpaceID with EnvSpaceID.
  change Phoenix.EnvAPIKey with EnvAPIKey.
  destruct (String.eqb (getEnvCollectorEndpoint env) "");
  destruct (String.eqb (Os.Getenv env Phoenix.EnvURL) "");
  destruct (String.eqb (Os.Getenv env EnvSpaceID) "");
  destruct (String.eqb (Os.Getenv env EnvProjectName) "");
  destruct (String.eqb (Os.Getenv env Phoenix.EnvProjectName) "");
  destruct (String.eqb (Os.Getenv env EnvAPIKey) "");
  destruct (String.eqb (Os.Getenv env EnvClientHeaders) "");
  cbn [negb set_Endpoint set_SpaceID set_ProjectName set_APIKey set_Headers
       Endpoint SpaceID ProjectName APIKey Headers
       Phoenix.set_URL Phoenix.set_SpaceID Phoenix.set_APIKey
       Phoenix.set_ProjectName Phoenix.URL Phoenix.SpaceID Phoenix.APIKey
       Phoenix.ProjectName];
  repeat match goal with
         | |- context [if ?b then _ else _] => destruct b
         end;
  split; reflexivity.
Qed.

(** X19. The REST client and the tracer read the space identifier, the API key
    and the project name from the same variables and so agree on them;
    they agree on the address when [PHOENIX_URL] holds what the tracer's
    endpoint variables give, in particular when none of them is set; and
    the tracer's endpoint is never empty. *)
Theorem environment_shared (env : Os.Environ) :
  SpaceID (Otel.DefaultConfig env) = Phoenix.SpaceID (Phoenix.LoadConfig env) /\
  APIKey (Otel.DefaultConfig env) = Phoenix.APIKey (Phoenix.LoadConfig env) /\
  ProjectName (Otel.DefaultConfig env) =
    Phoenix.ProjectName (Phoenix.LoadConfig env) /\
  (Os.Getenv env Phoenix.EnvURL = Otel.getEnvCollectorEndpoint env ->
   Endpoint (Otel.DefaultConfig env) = Phoenix.URL (Phoenix.LoadConfig env)) /\
  Endpoint (Otel.DefaultConfig env) <> "".
Proof.
  unfold DefaultConfig, Phoenix.LoadConfig, Phoenix.loadFromEnv,
    Phoenix.NewConfig.
  change Phoenix.EnvSpaceID with EnvSpaceID.
  change Phoenix.EnvAPIKey with EnvAPIKey.
  change Phoenix.EnvProjectName with EnvProjectName.
  change Phoenix.DefaultURL with DefaultEndpoint.
  change Phoenix.DefaultProjectName with DefaultProjectName.
  destruct (String.eqb (getEnvCollectorEndpoint env) "") eqn:E0;
  destruct (String.eqb (Os.Getenv env Phoenix.EnvURL) "") eqn:E1;
  destruct (String.eqb (Os.Getenv env EnvSpaceID) "") eqn:E2;
  destruct (String.eqb (Os.Getenv env EnvProjectName) "") eqn:E3;
  destruct (String.eqb (Os.Getenv env EnvAPIKey) "") eqn:E4;
  destruct (String.eqb (Os.Getenv env EnvClientHeaders) "") eqn:E5;
  cbn [negb set_Endpoint set_SpaceID set_ProjectName set_APIKey set_Headers
       Endpoint SpaceID ProjectName APIKey Headers
       Phoenix.set_URL Phoenix.set_SpaceID Phoenix.set_APIKey
       Phoenix.set_ProjectName Phoenix.URL Phoenix.SpaceID Phoenix.APIKey
       Phoenix.ProjectName];
  rewrite ?String.eqb_refl;
  try (destruct (String.eqb (getEnvCollectorEndpoint env) DefaultEndpoint)
         eqn:E6);
  try (destruct (String.eqb (Os.Getenv env Phoenix.EnvURL) DefaultEndpoint)
         eqn:E7);
  cbn [negb set_Endpoint set_SpaceID set_ProjectName set_APIKey set_Headers
       Endpoint SpaceID ProjectName APIKey Headers
       Phoenix.set_URL Phoenix.set_SpaceID Phoenix.set_APIKey
       Phoenix.set_ProjectName Phoenix.URL Phoenix.SpaceID Phoenix.APIKey
       Phoenix.ProjectName];
  repeat split; try reflexivity; try discriminate;
  try (apply String.eqb_neq; assumption);
  try (intros H; rewrite H in *; congruence).
Qed.

Lemma apply_options_blanked (opts : list Otel.Option) (c1 c2 : Otel.Config) :
  blanked c1 = blanked c2 ->
  blanked (apply_options opts c1) =
  blanked (apply_options (List.filter reaches_transport opts) c2).
Proof.
  revert c1 c2. induction opts as [|opt rest IH]; intros c1 c2 H;
    [exact H|].
  unfold apply_options in *. cbn [fold_left List.filter].
  destruct opt; cbn [reaches_transport fold_left]; apply IH;
    destruct c1, c2; unfold blanked in *; cbn in *;
    injection H as -> -> -> -> -> -> -> -> -> -> ->; reflexivity.
Qed.

Lemma blanked_processing (c1 c2 : Otel.Config) :
  blanked c1 = blanked c2 ->
  Batch c1 = Batch c2 /\ BatchTimeout c1 = BatchTimeout c2 /\
  BatchSize c1 = BatchSize c2 /\ SetGlobalProvider c1 = SetGlobalProvider c2.
Proof.
  destruct c1, c2. unfold blanked. cbn. intros H.
  injection H as -> -> -> -> -> -> -> -> -> -> ->. repeat split.
Qed.

Lemma Register_blanked (c : Otel.Config) :
  createExporter url_Parse otlptracehttp_New c =
    createExporter url_Parse otlptracehttp_New (blanked c) /\
  createResource resource_Merge c = createResource resource_Merge (blanked c).
Proof. destruct c. split; reflexivity. Qed.

(** X20. [WithProtocol] and [WithInsecure] change nothing of what [Register]
    builds: without them the exporter, the resource, the span processor
    and the process-wide provider are the same, and so is the error. *)
Theorem Register_ignores_protocol (env : Os.Environ)
    (opts : list Otel.Option) (global : GlobalProvider) :
  let kept := List.filter reaches_transport opts in
  match Otel.Register url_Parse otlptracehttp_New resource_Merge env opts
          global,
        Otel.Register url_Parse otlptracehttp_New resource_Merge env kept
          global with
  | (inl tp, g), (inl tp', g') =>
      TracerProvider_sdk tp = TracerProvider_sdk tp' /\ g = g'
  | (inr err, g), (inr err', g') => err = err' /\ g = g'
  | _, _ => False
  end.
Proof.
  cbn zeta. unfold Register, Register_config.
  pose proof (apply_options_blanked opts (DefaultConfig env)
                (DefaultConfig env) eq_refl) as B.
  set (c1 := apply_options opts (DefaultConfig env)) in *.
  set (c2 := apply_options (List.filter reaches_transport opts)
               (DefaultConfig env)) in *.
  destruct (Register_blanked c1) as [X1 R1].
  destruct (Register_blanked c2) as [X2 R2].
  rewrite X1, R1, X2, R2, B.
  destruct (blanked_processing c1 c2 B) as (F1 & F2 & F3 & F4).
  rewrite F1, F2, F3, F4.
  destruct (createExporter _ _ (blanked c2)) as [exporter|err];
    [|split; reflexivity].
  destruct (createResource _ (blanked c2)) as [res|err];
    split; reflexivity.
Qed.

(** X21. The headers of the exporter are the configured ones with the API key
    and the project name written over them: a configured [Authorization]
    header is replaced when an API key is set.  A failure is the wrapped
    error of the URL parser or the error of the exporter. *)
Theorem createExporter_headers (cfg : Otel.Config) :
  match Otel.createExporter url_Parse otlptracehttp_New cfg with
  | inr err =>
      exists msg,
        err = Phoenix.EWrap "invalid endpoint URL: " (Phoenix.EOther msg) \/
        err = Phoenix.EOther msg
  | inl exporter =>
      let sent := exporter_headers exporter in
      sent !! "Authorization" =
        (if String.eqb (APIKey cfg) ""
         then configured_headers cfg !! "Authorization"
         else Some ("Bearer " ++ APIKey cfg)) /\
      sent !! "x-phoenix-project-name" =
        (if String.eqb (ProjectName cfg) ""
         then configured_headers cfg !! "x-phoenix-project-name"
         else Some (ProjectName cfg)) /\
      (forall k, k <> "Authorization" -> k <> "x-phoenix-project-name" ->
         sent !! k = configured_headers cfg !! k)
  end.
Proof.
  unfold createExporter.
  destruct (url_Parse _) as [u|msg]; [|eexists; left; reflexivity].
  set (headers :=
         if negb (String.eqb (ProjectName cfg) "")
         then <["x-phoenix-project-name" := ProjectName cfg]>
                (if negb (String.eqb (APIKey cfg) "")
                 then <["Authorization" := "Bearer " ++ APIKey cfg]>
                        (default ∅ (Headers cfg))
                 else default ∅ (Headers cfg))
         else (if negb (String.eqb (APIKey cfg) "")
               then <["Authorization" := "Bearer " ++ APIKey cfg]>
                      (default ∅ (Headers cfg))
               else default ∅ (Headers cfg))).
  match goal with
  | |- context [otlptracehttp_New ?o] => set (opts := o)
  end.
  assert (S : fold_left
                (fun acc o =>
                   match o with OtlpWithHeaders h => h | _ => acc end)
                opts ∅ = headers).
  { subst opts. destruct (0 <? size headers)%nat eqn:Z.
    - destruct (String.eqb (Scheme u) "http"); reflexivity.
    - apply Nat.ltb_ge in Z.
      assert (size headers = 0%nat) as Z0 by lia.
      apply map_size_empty_iff in Z0. rewrite Z0.
      destruct (String.eqb (Scheme u) "http"); reflexivity. }
  destruct (otlptracehttp_New opts) as [msg|];
    [eexists; right; reflexivity|].
  cbn zeta. unfold exporter_headers. cbn [exporter_options]. rewrite S.
  unfold headers, configured_headers.
  destruct (String.eqb (APIKey cfg) ""), (String.eqb (ProjectName cfg) "");
    cbn [negb]; repeat split; intros;
    rewrite ?lookup_insert_eq, ?lookup_insert_ne by congruence;
    rewrite ?lookup_insert_eq; try reflexivity.
Qed.

End OtelMoreFacts.

(** ** The provider: construction *)

Section ProviderNewFacts.

Import Otel AdapterProvider.

Variable api_NewClient : string -> option Phoenix.error.
Variable net : Http.Request -> Http.Response + string.
Variable url_Parse : string -> URL + string.
Variable otlptracehttp_New : list ExporterOption -> option string.
Variable resource_Merge : list KeyValue -> option string.

Lemma New_otel_config (env : Os.Environ) (cfg : ClientOptions) :
  let c := Register_config env (New_otelOpts cfg) in
  Batch c = true /\ SetGlobalProvider c = false /\
  BatchTimeout c = (5 * second)%Z /\ BatchSize c = 512%Z /\
  ServiceName c = New_serviceName cfg /\
  SpaceID c =
    (if String.eqb (co_Workspace cfg) "" then SpaceID (DefaultConfig env)
     else co_Workspace cfg) /\
  APIKey c =
    (if String.eqb (co_APIKey cfg) "" then APIKey (DefaultConfig env)
     else co_APIKey cfg).
Proof.
  cbn zeta. unfold Register_config, New_otelOpts, apply_options.
  destruct (DefaultConfig_processing env) as (_ & T & Z & _).
  destruct (String.eqb (co_Endpoint cfg) ""),
           (String.eqb (co_Workspace cfg) ""),
           (String.eqb (co_APIKey cfg) ""),
           (String.eqb (co_ProjectName cfg) "");
    cbn - [Z.mul DefaultConfig]; repeat split; assumption.
Qed.

Lemma New_phoenix_config (env : Os.Environ) (cfg : ClientOptions) :
  let c :=
    Phoenix.config
      (Phoenix.apply_options (New_phoenixOpts cfg)
         (Phoenix.defaultClientOptions env)) in
  Phoenix.SpaceID c =
    (if String.eqb (co_Workspace cfg) ""
     then Phoenix.SpaceID (Phoenix.LoadConfig env) else co_Workspace cfg) /\
  Phoenix.APIKey c =
    (if String.eqb (co_APIKey cfg) ""
     then Phoenix.APIKey (Phoenix.LoadConfig env) else co_APIKey cfg) /\
  Phoenix.ProjectName c = Phoenix.ProjectName (Phoenix.LoadConfig env).
Proof.
  cbn zeta. unfold New_phoenixOpts, Phoenix.apply_options,
    Phoenix.defaultClientOptions.
  destruct (String.eqb (co_Endpoint cfg) ""),
           (String.eqb (co_Workspace cfg) ""),
           (String.eqb (co_APIKey cfg) ""),
           (co_HTTPClient cfg), (0 <? co_Timeout cfg)%Z;
    cbn - [Phoenix.LoadConfig]; repeat split.
Qed.

Lemma Validate_keeps (c c' : Phoenix.Config) :
  Phoenix.Validate c = (c', None) ->
  Phoenix.SpaceID c' = Phoenix.SpaceID c /\
  Phoenix.APIKey c' = Phoenix.APIKey c /\
  Phoenix.ProjectName c' = Phoenix.ProjectName c.
Proof.
  unfold Phoenix.Validate.
  destruct (String.eqb (Phoenix.URL c) ""); [discriminate|].
  cbn [Phoenix.SpaceID Phoenix.set_URL].
  destruct (negb (String.eqb (Phoenix.SpaceID c) "")); intros H;
    injection H as <-; repeat split.
Qed.

(** X22. [New] never replaces the process-wide tracer provider.  The provider
    it returns exports in batches with the default timeout of five seconds
    and batch size of 512; its service name is not empty and is an
    attribute of the resource; the REST client and the tracer hold the same
    space identifier and API key; and the project name of the client
    options reaches the tracer only, the REST client keeps the one of the
    environment. *)
Theorem New_spec (env : Os.Environ) (cfg : ClientOptions)
    (global : GlobalProvider) :
  let r :=
    AdapterProvider.New api_NewClient net url_Parse otlptracehttp_New
      resource_Merge env cfg global in
  snd r = global /\
  match fst r with
  | inr _ => True
  | inl p =>
      let tracing := TracerProvider_config (p_tp p) in
      let rest := Phoenix.client_config (p_client p) in
      (exists exporter,
         spanProcessors (TracerProvider_sdk (p_tp p)) =
           [BatchSpanProcessor exporter (5 * second) 512]) /\
      p_serviceName p <> "" /\
      In (AttrString "service.name" (p_serviceName p))
        (resource_attrs (resource (TracerProvider_sdk (p_tp p)))) /\
      SpaceID tracing = Phoenix.SpaceID rest /\
      APIKey tracing = Phoenix.APIKey rest /\
      APIKey tracing = Phoenix.apiKey (Phoenix.client_transport (p_client p)) /\
      Phoenix.ProjectName rest = Phoenix.ProjectName (Phoenix.LoadConfig env)
  end.
Proof.
  cbn zeta. unfold New.
  destruct (Phoenix.NewClient _ _ _ _) as [client|err] eqn:HC;
    [|split; [reflexivity | exact I]].
  apply NewClient_config in HC. cbn zeta in HC. destruct HC as (HV & _ & HK).
  apply Validate_keeps in HV. destruct HV as (V1 & V2 & V3).
  destruct (New_phoenix_config env cfg) as (P1 & P2 & P3).
  destruct (New_otel_config env cfg) as (B & G & T & Z & N & S1 & S2).
  destruct (DefaultConfig_credentials env) as (D1 & D2).
  unfold Register.
  set (c := Register_config env (New_otelOpts cfg)) in *. clearbody c.
  destruct (createExporter _ _ c) as [exporter|err];
    [|split; [reflexivity | exact I]].
  unfold createResource.
  assert (NE : New_serviceName cfg <> "").
  { unfold New_serviceName.
    destruct (String.eqb (co_ProjectName cfg) "") eqn:E;
      [discriminate | now apply String.eqb_neq]. }
  rewrite N. apply String.eqb_neq in NE. rewrite NE. cbn [negb].
  destruct (resource_Merge _) as [msg|]; [split; [reflexivity | exact I]|].
  rewrite B, G, T, Z. cbn - [Z.mul].
  split; [reflexivity|]. split; [eauto|]. split; [now apply String.eqb_neq|].
  split.
  { destruct (negb (String.eqb (ServiceVersion c) ""));
      rewrite ?in_app_iff; cbn; auto. }
  rewrite S1, S2, V1, V2, P1, P2, D1, D2, HK, P2, V3, P3.
  repeat split.
Qed.

End ProviderNewFacts.

(** ** The tracing adapter: contexts and calls *)

Section AdapterMoreFacts.

Import LlmopsAPI Adapter AdapterSpec.

Variable Tracer : Type.
Variable tracer_newSpan : Tracer -> Context -> string -> Tracer * OtelSpan.
Variable json_Marshal : any -> option string.


(** X24. The wrappers' own [StartSpan] take the identifiers from the wrapper
    and not from the context: a span started from a trace has that trace's
    identifier and no parent, a span started from a span has that span's
    trace identifier and that span as parent, whatever trace and span the
    context holds; the returned context holds the new span. *)
Theorem wrapper_StartSpan_linkage (t : traceWrapper) (p : spanWrapper)
    (tr : Tracer) (ctx : Context) (name : string) (cfg : SpanOptions) :
  let a := Adapter.trace_StartSpan tracer_newSpan json_Marshal t tr ctx name
             cfg in
  let b := Adapter.span_StartSpan tracer_newSpan json_Marshal p tr ctx name
             cfg in
  (span_TraceID (st_value a) = trace_ID t /\
   span_ParentSpanID (st_value a) = "" /\
   Provider_SpanFromContext (st_ctx a) = (Some (st_value a), true) /\
   traceFromContext (st_ctx a) = traceFromContext ctx) /\
  (span_TraceID (st_value b) = span_TraceID p /\
   span_ParentSpanID (st_value b) = span_ID p /\
   Provider_SpanFromContext (st_ctx b) = (Some (st_value b), true) /\
   traceFromContext (st_ctx b) = traceFromContext ctx).
Proof.
  cbn zeta.
  destruct (TraceStartSpan_unfold Tracer tracer_newSpan json_Marshal t tr ctx
              name cfg) as [-> ->].
  destruct (SpanStartSpan_unfold Tracer tracer_newSpan json_Marshal p tr ctx
              name cfg) as [-> ->].
  split; (split; [|repeat split]).
  - apply span_TraceID_stored, trace_ID_nonempty.
  - apply span_TraceID_stored, span_TraceID_nonempty.
Qed.

Lemma Forall_tags (h : nat) (tags : list string) :
  forallb (sets_attributes_on h)
    (concat (map (AddTag_calls h) tags)) = true.
Proof.
  induction tags as [|tag rest IH]; [reflexivity|].
  cbn. now rewrite Nat.eqb_refl.
Qed.

Lemma forallb_app_true {A : Type} (f : A -> bool) (l1 l2 : list A) :
  forallb f l1 = true -> forallb f l2 = true -> forallb f (l1 ++ l2) = true.
Proof. intros H1 H2. rewrite forallb_app, H1, H2. reflexivity. Qed.

Lemma newSpan_calls (name : string) (o : OtelSpan) (tid pid : string)
    (cfg : SpanOptions) :
  forallb (sets_attributes_on (otel_handle o))
    (snd (newSpan json_Marshal name o tid pid cfg)) = true.
Proof.
  unfold newSpan. cbn [snd].
  repeat apply forallb_app_true.
  - destruct (negb _); cbn; now rewrite ?Nat.eqb_refl.
  - destruct (negb _); cbn; now rewrite ?Nat.eqb_refl.
  - destruct (so_Metadata cfg) as [m|]; [|reflexivity].
    unfold SetMetadata_calls. destruct (json_Marshal _); cbn;
      now rewrite ?Nat.eqb_refl.
  - apply Forall_tags.
  - destruct (negb _); cbn; now rewrite ?Nat.eqb_refl.
  - destruct (negb _); cbn; now rewrite ?Nat.eqb_refl.
  - destruct (so_Usage cfg); cbn; now rewrite ?Nat.eqb_refl.
Qed.

Lemma newTrace_calls (name : string) (o : OtelSpan) (cfg : TraceOptions) :
  forallb (sets_attributes_on (otel_handle o))
    (snd (newTrace json_Marshal name o cfg)) = true.
Proof.
  unfold newTrace. cbn [snd].
  repeat apply forallb_app_true.
  - destruct (negb _); cbn; now rewrite ?Nat.eqb_refl.
  - destruct (to_Metadata cfg) as [m|]; [|reflexivity].
    unfold SetMetadata_calls. destruct (json_Marshal _); cbn;
      now rewrite ?Nat.eqb_refl.
  - apply Forall_tags.
  - destruct (negb _); cbn; now rewrite ?Nat.eqb_refl.
Qed.

(** X25. Starting a trace or a span touches the new span of the SDK only:
    every call made sets attributes on it, no event is added and no other
    span is written to; the tracer is asked for exactly one span, on the
    incoming context and with the given name. *)
Theorem start_calls_on_new_span (t : traceWrapper) (p : spanWrapper)
    (tr : Tracer) (ctx : Context) (name : string) (tcfg : TraceOptions)
    (cfg : SpanOptions) :
  let made := tracer_newSpan tr ctx name in
  let on_new {A : Type} (r : started Tracer A) :=
    st_tracer r = fst made /\
    forallb (sets_attributes_on (otel_handle (snd made))) (st_calls r) = true in
  on_new (Adapter.Provider_StartTrace tracer_newSpan json_Marshal tr ctx name
            tcfg) /\
  on_new (Adapter.Provider_StartSpan tracer_newSpan json_Marshal tr ctx name
            cfg) /\
  on_new (Adapter.trace_StartSpan tracer_newSpan json_Marshal t tr ctx name
            cfg) /\
  on_new (Adapter.span_StartSpan tracer_newSpan json_Marshal p tr ctx name
            cfg).
Proof.
  cbn zeta.
  unfold Provider_StartTrace, Provider_StartSpan, trace_StartSpan,
    span_StartSpan, tracer_Start.
  destruct (tracer_newSpan tr ctx name) as [tr' o]. cbn [fst snd].
  split; [|split; [|split]].
  - pose proof (newTrace_calls name o tcfg) as H.
    destruct (newTrace json_Marshal name o tcfg) as [w calls].
    split; [reflexivity | exact H].
  - destruct (spanFromContext ctx) as [q|];
      match goal with
      | |- context [newSpan json_Marshal name o ?a ?b cfg] =>
          pose proof (newSpan_calls name o a b cfg) as H;
          destruct (newSpan json_Marshal name o a b cfg) as [w calls]
      end; (split; [reflexivity | exact H]).
  - pose proof (newSpan_calls name o (trace_ID t) "" cfg) as H.
    destruct (newSpan json_Marshal name o (trace_ID t) "" cfg) as [w calls].
    split; [reflexivity | exact H].
  - pose proof (newSpan_calls name o (span_TraceID p) (span_ID p) cfg) as H.
    destruct (newSpan json_Marshal name o (span_TraceID p) (span_ID p) cfg)
      as [w calls].
    split; [reflexivity | exact H].
Qed.

End AdapterMoreFacts.

(** ** Identifiers and annotator kinds *)

Section IdentifierFacts.

Import LlmopsAPI Adapter.

Lemma append_inj_length (a b x y : string) :
  String.length a = String.length b -> a ++ x = b ++ y -> a = b /\ x = y.
Proof.
  revert b. induction a as [|c a IH]; intros [|d b] L H; try discriminate.
  - now split.
  - rewrite !append_cons in H. injection H as -> H. injection L as L.
    destruct (IH b L H) as [-> ->]. now split.
Qed.

Lemma hex_digit_inj (x y : Z) :
  (0 <= x < 16)%Z -> (0 <= y < 16)%Z -> hex_digit x = hex_digit y -> x = y.
Proof.
  intros Hx Hy.
  assert (X : exists n, x = Z.of_nat n /\ (n < 16)%nat)
    by (exists (Z.to_nat x); lia).
  assert (Y : exists n, y = Z.of_nat n /\ (n < 16)%nat)
    by (exists (Z.to_nat y); lia).
  destruct X as (n & -> & Hn), Y as (m & -> & Hm).
  unfold hex_digit. rewrite !Nat2Z.id. intros H. f_equal.
  do 16 (destruct n as [|n]; [do 16 (destruct m as [|m];
           [first [reflexivity | discriminate H]|]); lia|]).
  lia.
Qed.

Lemma hex_fixed_faithful (w : nat) (a b : Z) :
  hex_fixed w a = hex_fixed w b <->
  (a mod 16 ^ Z.of_nat w = b mod 16 ^ Z.of_nat w)%Z.
Proof.
  revert a b. induction w as [|w IH]; intros a b.
  - cbn. rewrite !Z.mod_1_r. tauto.
  - cbn [hex_fixed]. rewrite Nat2Z.inj_succ, Z.pow_succ_r by lia.
    rewrite !(Z.rem_mul_r _ 16 (16 ^ Z.of_nat w)) by lia.
    pose proof (Z.mod_pos_bound a 16 ltac:(lia)) as Ha.
    pose proof (Z.mod_pos_bound b 16 ltac:(lia)) as Hb.
    split.
    + intros H. apply append_inj_length in H;
        [|now rewrite !hex_fixed_length].
      destruct H as [H1 H2]. apply IH in H1. injection H2 as H2.
      apply hex_digit_inj in H2; [|assumption..]. lia.
    + intros H.
      assert (H0 : (a mod 16 = b mod 16)%Z) by lia.
      assert (H1 : ((a / 16) mod 16 ^ Z.of_nat w =
                    (b / 16) mod 16 ^ Z.of_nat w)%Z) by lia.
      apply IH in H1. now rewrite H0, H1.
Qed.

(** X26. The identifiers of traces and spans are rendered faithfully: the
    text of a trace identifier has 32 characters and that of a span
    identifier 16, and two identifiers have the same text exactly when
    they are the same 128-bit, respectively 64-bit, number. *)
Theorem identifier_strings_faithful (a b : Z) :
  String.length (Adapter.TraceID_String a) = 32%nat /\
  String.length (Adapter.SpanID_String a) = 16%nat /\
  (Adapter.TraceID_String a = Adapter.TraceID_String b <->
   (a mod 2 ^ 128 = b mod 2 ^ 128)%Z) /\
  (Adapter.SpanID_String a = Adapter.SpanID_String b <->
   (a mod 2 ^ 64 = b mod 2 ^ 64)%Z).
Proof.
  unfold TraceID_String, SpanID_String.
  split; [apply hex_fixed_length|]. split; [apply hex_fixed_length|].
  split.
  - rewrite hex_fixed_faithful.
    change (16 ^ Z.of_nat 32)%Z with (2 ^ 128)%Z. tauto.
  - rewrite hex_fixed_faithful.
    change (16 ^ Z.of_nat 16)%Z with (2 ^ 64)%Z. tauto.
Qed.

(** X27. The two readings of an annotator kind have different defaults.
    [inferAnnotatorKind] gives HUMAN only for a metadata map whose [kind]
    is the string [human] or [HUMAN], and CODE for a score without
    metadata; [parseSpanAnnotatorKind] gives HUMAN for every source other
    than [llm], [LLM], [code] and [CODE], the empty one included. *)
Theorem annotator_kind_defaults (s : MetricScore) (source : string) :
  (Evals.inferAnnotatorKind s = Evals.KindHUMAN <->
   exists m,
     MetricScore_Metadata s = AnyMap m /\
     (m !! "kind" = Some (EString "human") \/
      m !! "kind" = Some (EString "HUMAN"))) /\
  (MetricScore_Metadata s = AnyNil ->
   Evals.inferAnnotatorKind s = Evals.KindCODE) /\
  (Evals.parseSpanAnnotatorKind source = Evals.KindHUMAN <->
   source <> "llm" /\ source <> "LLM" /\ source <> "code" /\
   source <> "CODE") /\
  Evals.parseSpanAnnotatorKind "" = Evals.KindHUMAN.
Proof.
  split; [|split; [|split]].
  - unfold Evals.inferAnnotatorKind.
    destruct (MetricScore_Metadata s) as [| | | | |m];
      try (split; [discriminate | intros (m' & H & _); discriminate]).
    destruct (m !! "kind") as [[kind| |]|] eqn:K;
      try (split; [discriminate
                  | intros (m' & H & [H'|H']); injection H as <-;
                    congruence]).
    destruct (String.eqb kind "llm") eqn:E1;
      [apply String.eqb_eq in E1; subst kind; cbn;
       split; [discriminate
              | intros (m' & H & [H'|H']); injection H as <-; congruence]|].
    destruct (String.eqb kind "LLM") eqn:E2;
      [apply String.eqb_eq in E2; subst kind; cbn;
       split; [discriminate
              | intros (m' & H & [H'|H']); injection H as <-; congruence]|].
    destruct (String.eqb kind "code") eqn:E3;
      [apply String.eqb_eq in E3; subst kind; cbn;
       split; [discriminate
              | intros (m' & H & [H'|H']); injection H as <-; congruence]|].
    destruct (String.eqb kind "CODE") eqn:E4;
      [apply String.eqb_eq in E4; subst kind; cbn;
       split; [discriminate
              | intros (m' & H & [H'|H']); injection H as <-; congruence]|].
    cbn [orb].
    destruct (String.eqb kind "human") eqn:E5;
      [apply String.eqb_eq in E5; subst kind; cbn;
       split; [intros _; exists m; auto | reflexivity]|].
    destruct (String.eqb kind "HUMAN") eqn:E6;
      [apply String.eqb_eq in E6; subst kind; cbn;
       split; [intros _; exists m; auto | reflexivity]|].
    cbn [orb]. apply String.eqb_neq in E5, E6.
    split; [discriminate|].
    intros (m' & H & [H'|H']); injection H as <-; congruence.
  - unfold Evals.inferAnnotatorKind. now intros ->.
  - unfold Evals.parseSpanAnnotatorKind.
    destruct (String.eqb source "llm") eqn:E1;
      [apply String.eqb_eq in E1; cbn; split; [discriminate | tauto]|].
    destruct (String.eqb source "LLM") eqn:E2;
      [apply String.eqb_eq in E2; cbn; split; [discriminate | tauto]|].
    destruct (String.eqb source "code") eqn:E3;
      [apply String.eqb_eq in E3; cbn; split; [discriminate | tauto]|].
    destruct (String.eqb source "CODE") eqn:E4;
      [apply String.eqb_eq in E4; cbn; split; [discriminate | tauto]|].
    apply String.eqb_neq in E1, E2, E3, E4. cbn. tauto.
  - reflexivity.
Qed.

End IdentifierFacts.

(** ** Package otel: the parser of [PHOENIX_CLIENT_HEADERS] *)

Section HeaderParserFacts.

Import Otel ParseSpec.

Lemma substring_middle (a b c : string) :
  substring (String.length a) (String.length b) (a ++ b ++ c) = b.
Proof.
  induction a as [|x a IH].
  - rewrite append_nil. apply substring_append_l.
  - rewrite append_cons. simpl. exact IH.
Qed.

Lemma get_append (a : string) (x : ascii) (r : string) :
  String.get (String.length a) (a ++ String x r) = Some x.
Proof. induction a as [|y a IH]; [reflexivity | exact IH]. Qed.

Lemma trim_start_spec (b a : string) (fuel : nat) :
  (String.length b <= fuel)%nat ->
  trim_start (a ++ b) (String.length a) (String.length a + String.length b) fuel
  = (String.length a + leading b)%nat.
Proof.
  revert a fuel. induction b as [|x r IH]; intros a fuel Hf.
  - cbn [String.length leading]. rewrite Nat.add_0_r.
    destruct fuel; [reflexivity|]. cbn [trim_start].
    now rewrite Nat.ltb_irrefl.
  - destruct fuel as [|f]; [cbn in Hf; lia|]. cbn [trim_start].
    replace
      (String.length a <? String.length a + String.length (String x r))%nat
      with true by (symmetry; apply Nat.ltb_lt; cbn; lia).
    rewrite get_append. cbn [andb leading].
    destruct (is_blank x); [|lia].
    replace (a ++ String x r) with ((a ++ String x "") ++ r)
      by now rewrite append_assoc.
    replace (S (String.length a)) with (String.length (a ++ String x ""))
      by (rewrite length_append; cbn; lia).
    replace (String.length a + String.length (String x r))%nat
      with (String.length (a ++ String x "") + String.length r)%nat
      by (rewrite length_append; cbn; lia).
    rewrite IH by (cbn in Hf; lia).
    rewrite length_append. cbn. lia.
Qed.

Lemma leading_split (s : string) :
  exists l m, s = l ++ m /\ String.length l = leading s /\
              all_blank l = true /\ starts_blank m = false.
Proof.
  induction s as [|c r (l & m & E & L & B & S)].
  - exists "", "". repeat split.
  - cbn [leading]. destruct (is_blank c) eqn:C.
    + exists (String c l), m. rewrite append_cons, <- E. cbn. rewrite C, L.
      repeat split; assumption.
    + exists "", (String c r). cbn. repeat split. exact C.
Qed.

Lemma snoc_view (s : string) :
  s = "" \/ exists s' x, s = s' ++ String x "".
Proof.
  induction s as [|c r [->|(s' & x & ->)]]; [now left | right | right].
  - exists "", c. reflexivity.
  - exists (String c s'), x. reflexivity.
Qed.

Lemma last_char_snoc (s : string) (x : ascii) :
  last_char (s ++ String x "") = Some x.
Proof.
  induction s as [|c r IH]; [reflexivity|].
  rewrite append_cons. cbn [last_char]. rewrite IH.
  destruct (r ++ String x "") eqn:E; [|reflexivity].
  destruct r; discriminate.
Qed.

Lemma all_blank_app (a b : string) :
  all_blank (a ++ b) = all_blank a && all_blank b.
Proof.
  induction a as [|c a IH]; [reflexivity|].
  rewrite append_cons. cbn. now rewrite IH, andb_assoc.
Qed.

Lemma trim_end_spec (fuel : nat) (a b t : string) :
  (String.length b <= fuel)%nat ->
  exists m r,
    b = m ++ r /\ all_blank r = true /\ ends_blank m = false /\
    trim_end (a ++ b ++ t) (String.length a)
      (String.length a + String.length b) fuel
    = (String.length a + String.length m)%nat.
Proof.
  revert b t. induction fuel as [|f IH]; intros b t Hf.
  - destruct b; [|cbn in Hf; lia]. exists "", "". repeat split.
  - cbn [trim_end]. destruct (snoc_view b) as [->|(b' & x & ->)].
    + cbn [String.length]. rewrite Nat.add_0_r, Nat.ltb_irrefl. cbn [andb].
      exists "", "". repeat split. cbn. lia.
    + rewrite length_append in *. cbn [String.length] in *.
      replace (String.length a <? String.length a + (String.length b' + 1))%nat
        with true by (symmetry; apply Nat.ltb_lt; lia).
      replace (String.length a + (String.length b' + 1) - 1)%nat
        with (String.length (a ++ b')) by (rewrite length_append; lia).
      replace (a ++ (b' ++ String x "") ++ t)
        with ((a ++ b') ++ String x t)
        by now rewrite !append_assoc.
      rewrite get_append. cbn [andb].
      destruct (is_blank x) eqn:X.
      * replace ((a ++ b') ++ String x t) with (a ++ b' ++ String x t)
          by now rewrite append_assoc.
        rewrite length_append.
        destruct (IH b' (String x t)) as (m & r & E & B & N & R); [lia|].
        exists m, (r ++ String x ""). rewrite R. repeat split.
        -- now rewrite E, append_assoc.
        -- rewrite all_blank_app, B. cbn. now rewrite X.
        -- exact N.
      * exists (b' ++ String x ""), "". rewrite append_empty_r.
        repeat split.
        -- unfold ends_blank. now rewrite last_char_snoc.
        -- rewrite !length_append. cbn. lia.
Qed.

Lemma starts_blank_app (m r : string) :
  starts_blank (m ++ r) = false -> starts_blank m = false.
Proof. destruct m; [reflexivity | exact id]. Qed.

Lemma trim_decomposition (s : string) :
  exists l r,
    s = l ++ trim s ++ r /\
    all_blank l = true /\ all_blank r = true /\
    starts_blank (trim s) = false /\ ends_blank (trim s) = false.
Proof.
  unfold trim.
  destruct (leading_split s) as (l & b & E & L & Bl & Sb).
  pose proof (trim_start_spec s "" (String.length s) (le_n _)) as TS.
  change (trim_start s 0 (String.length s) (String.length s) = leading s)
    in TS.
  rewrite TS, <- L.
  destruct (trim_end_spec (String.length s) l b "")
    as (m & r & Eb & Br & Em & TE).
  { rewrite E, length_append. lia. }
  rewrite append_empty_r, <- E in TE.
  assert (Hn : (String.length l + String.length b)%nat = String.length s)
    by (rewrite E, length_append; reflexivity).
  rewrite Hn in TE. rewrite TE.
  replace (String.length l + String.length m - String.length l)%nat
    with (String.length m) by lia.
  assert (Es : s = l ++ m ++ r) by (rewrite E, Eb; reflexivity).
  assert (T : substring (String.length l) (String.length m) s = m)
    by (rewrite Es; apply substring_middle).
  rewrite T. exists l, r. repeat split; try assumption.
  rewrite Eb in Sb. now apply starts_blank_app in Sb.
Qed.

Lemma all_blank_ends (m : string) :
  all_blank m = true -> m <> "" -> ends_blank m = true.
Proof.
  intros B N. destruct (snoc_view m) as [->|(m' & x & ->)]; [contradiction|].
  unfold ends_blank. rewrite last_char_snoc.
  rewrite all_blank_app in B. apply andb_true_iff in B as [_ B].
  cbn in B. now rewrite andb_true_r in B.
Qed.

Lemma all_blank_starts (m : string) :
  all_blank m = true -> m <> "" -> starts_blank m = true.
Proof.
  destruct m as [|c m]; [contradiction|]. cbn.
  intros B _. now apply andb_true_iff in B as [B _].
Qed.

Lemma ends_blank_cons (c : ascii) (m : string) :
  ends_blank (String c m) = false -> ends_blank m = false.
Proof. unfold ends_blank. cbn [last_char]. now destruct m. Qed.

Lemma blank_only (m : string) :
  all_blank m = true -> starts_blank m = false -> m = "".
Proof.
  intros B S. destruct m as [|c m]; [reflexivity|].
  rewrite all_blank_starts in S; [discriminate | exact B | discriminate].
Qed.

Lemma right_unique (m m' r r' : string) :
  m ++ r = m' ++ r' ->
  all_blank r = true -> all_blank r' = true ->
  ends_blank m = false -> ends_blank m' = false -> m = m'.
Proof.
  revert m'. induction m as [|c m IH]; intros [|c' m'] E Br Br' Em Em'.
  - reflexivity.
  - exfalso. rewrite append_nil in E. rewrite E, all_blank_app in Br.
    apply andb_true_iff in Br as [B _].
    rewrite all_blank_ends in Em'; [discriminate | exact B | discriminate].
  - exfalso. rewrite append_nil in E. rewrite <- E, all_blank_app in Br'.
    apply andb_true_iff in Br' as [B _].
    rewrite all_blank_ends in Em; [discriminate | exact B | discriminate].
  - rewrite !append_cons in E. injection E as -> E. f_equal.
    apply IH; try assumption; eapply ends_blank_cons; eassumption.
Qed.

Lemma decomposition_unique (l m r l' m' r' : string) :
  l ++ m ++ r = l' ++ m' ++ r' ->
  all_blank l = true -> all_blank r = true ->
  starts_blank m = false -> ends_blank m = false ->
  all_blank l' = true -> all_blank r' = true ->
  starts_blank m' = false -> ends_blank m' = false ->
  m = m'.
Proof.
  revert l'. induction l as [|c l IH];
    intros [|c' l'] E Bl Br Sm Em Bl' Br' Sm' Em'.
  - rewrite !append_nil in E. eapply right_unique; eassumption.
  - rewrite append_nil, append_cons in E. cbn in Bl'.
    apply andb_true_iff in Bl' as [Bc Bl'].
    destruct m as [|x m].
    + rewrite append_nil in E. symmetry.
      apply blank_only; [|exact Sm'].
      assert (B : all_blank (String c' (l' ++ m' ++ r')) = true)
        by now rewrite <- E.
      cbn in B. rewrite !all_blank_app in B.
      apply andb_true_iff in B as [_ B]. apply andb_true_iff in B as [_ B].
      now apply andb_true_iff in B as [B _].
    + rewrite append_cons in E. injection E as -> _. cbn in Sm. congruence.
  - rewrite append_nil, append_cons in E. cbn in Bl.
    apply andb_true_iff in Bl as [Bc Bl].
    destruct m' as [|x m'].
    + rewrite append_nil in E.
      apply blank_only; [|exact Sm].
      assert (B : all_blank (String c (l ++ m ++ r)) = true)
        by now rewrite E.
      cbn in B. rewrite !all_blank_app in B.
      apply andb_true_iff in B as [_ B]. apply andb_true_iff in B as [_ B].
      now apply andb_true_iff in B as [B _].
    + rewrite append_cons in E. injection E as <- _. cbn in Sm'. congruence.
  - rewrite !append_cons in E. injection E as -> E. cbn in Bl, Bl'.
    apply andb_true_iff in Bl as [_ Bl]. apply andb_true_iff in Bl' as [_ Bl'].
    eapply IH; eassumption.
Qed.

Lemma trim_unique (s m : string) :
  (exists l r,
     s = l ++ m ++ r /\ all_blank l = true /\ all_blank r = true /\
     starts_blank m = false /\ ends_blank m = false) ->
  trim s = m.
Proof.
  intros (l & r & E & Bl & Br & Sm & Em).
  destruct (trim_decomposition s) as (l' & r' & E' & Bl' & Br' & Sm' & Em').
  symmetry. eapply (decomposition_unique l m r l' (trim s) r');
    try eassumption.
  now rewrite <- E, <- E'.
Qed.

Lemma trim_idempotent (s : string) : trim (trim s) = trim s.
Proof.
  destruct (trim_decomposition s) as (l & r & _ & _ & _ & S & E).
  apply trim_unique. exists "", "". rewrite append_nil, append_empty_r.
  repeat split; assumption.
Qed.

Lemma substring_one (a : string) (x : ascii) (r : string) :
  substring (String.length a) 1 (a ++ String x r) = String x "".
Proof.
  induction a as [|y a IH]; [cbn; now destruct r | exact IH].
Qed.

Lemma char_eqb (x c : ascii) :
  String.eqb (String x "") (String c "") = Ascii.eqb x c.
Proof. cbn. now destruct (Ascii.eqb x c). Qed.

Lemma splitTrim_loop_spec (c : ascii) (rest done cur : string)
    (result : list string) :
  finish (done ++ cur ++ rest)
    (splitTrim_loop (done ++ cur ++ rest) (String c "") (String.length rest)
       (String.length done + String.length cur) (String.length done) result)
  = (result ++ keep (fields_from c cur rest))%list.
Proof.
  revert done cur result. induction rest as [|x r IH]; intros done cur result.
  - cbn [String.length splitTrim_loop finish fields_from keep map List.filter].
    rewrite append_empty_r, length_append.
    replace (String.length done + String.length cur - String.length done)%nat
      with (String.length cur) by lia.
    rewrite substring_append_r.
    destruct (negb (String.eqb (trim cur) "")); [reflexivity|].
    now rewrite app_nil_r.
  - cbn [String.length splitTrim_loop fields_from].
    replace (String.length done + String.length cur + 1 <=?
             String.length (done ++ cur ++ String x r))%nat with true
      by (symmetry; apply Nat.leb_le; rewrite !length_append; cbn; lia).
    cbn [andb].
    replace (substring (String.length done + String.length cur) 1
               (done ++ cur ++ String x r)) with (String x "")
      by (rewrite <- append_assoc, <- length_append; symmetry;
          apply substring_one).
    rewrite char_eqb. destruct (Ascii.eqb x c) eqn:X.
    + replace (String.length done + String.length cur - String.length done)%nat
        with (String.length cur) by lia.
      rewrite substring_middle.
      replace (done ++ cur ++ String x r)
        with ((done ++ cur ++ String x "") ++ "" ++ r)
        by (rewrite !append_assoc; reflexivity).
      replace (S (String.length done + String.length cur))
        with (String.length (done ++ cur ++ String x "") + String.length "")%nat
        by (rewrite !length_append; cbn; lia).
      replace (String.length done + String.length cur + 1)%nat
        with (String.length (done ++ cur ++ String x ""))
        by (rewrite !length_append; cbn; lia).
      rewrite IH. unfold keep at 2. cbn [map List.filter].
      destruct (negb (String.eqb (trim cur) ""));
        [now rewrite <- app_assoc | reflexivity].
    + replace (done ++ cur ++ String x r)
        with (done ++ (cur ++ String x "") ++ r)
        by (rewrite !append_assoc; reflexivity).
      replace (S (String.length done + String.length cur))
        with (String.length done + String.length (cur ++ String x ""))%nat
        by (rewrite !length_append; cbn; lia).
      apply IH.
Qed.

Lemma splitTrim_trimmed_fields (c : ascii) (s : string) :
  splitTrim s (String c "") = trimmed_fields c s.
Proof.
  pose proof (splitTrim_loop_spec c s "" "" []) as H.
  change ("" ++ "" ++ s) with s in H.
  cbn [String.length Nat.add app] in H.
  unfold splitTrim, trimmed_fields, fields.
  unfold finish, keep in H.
  destruct (splitTrim_loop s (String c "") (String.length s) 0 0 [])
    as [result start].
  exact H.
Qed.

Lemma has_char_app (d : ascii) (a b : string) :
  has_char d (a ++ b) = has_char d a || has_char d b.
Proof.
  induction a as [|x a IH]; [reflexivity|].
  rewrite append_cons. cbn. now rewrite IH, orb_assoc.
Qed.

Lemma fields_from_chars (c d : ascii) (s cur : string) :
  has_char d cur = false ->
  d = c \/ has_char d s = false ->
  Forall (fun f => has_char d f = false) (fields_from c cur s).
Proof.
  revert cur. induction s as [|x r IH]; intros cur Hc Hs; cbn [fields_from].
  - now constructor.
  - assert (Hr : d = c \/ has_char d r = false).
    { destruct Hs as [->|Hs]; [now left | right].
      cbn in Hs. now apply orb_false_iff in Hs as [_ Hs]. }
    destruct (Ascii.eqb x c) eqn:X.
    + constructor; [exact Hc | now apply IH].
    + apply IH; [|exact Hr]. rewrite has_char_app, Hc. cbn.
      rewrite orb_false_r. destruct Hs as [->|Hs]; [exact X|].
      cbn in Hs. now apply orb_false_iff in Hs as [Hs _].
Qed.

Lemma trim_chars (d : ascii) (s : string) :
  has_char d s = false -> has_char d (trim s) = false.
Proof.
  destruct (trim_decomposition s) as (l & r & E & _). intros H.
  rewrite E, !has_char_app in H.
  apply orb_false_iff in H as [_ H]. now apply orb_false_iff in H as [H _].
Qed.

Lemma trimmed_fields_elem (c : ascii) (s e : string) :
  In e (trimmed_fields c s) ->
  e <> "" /\ trim e = e /\ has_char c e = false /\
  (forall d, has_char d s = false -> has_char d e = false).
Proof.
  unfold trimmed_fields. rewrite filter_In, in_map_iff.
  intros [(f & <- & Hf) Hn]. split; [|split; [|split]].
  - apply negb_true_iff in Hn. now apply String.eqb_neq.
  - apply trim_idempotent.
  - apply trim_chars.
    pose proof (fields_from_chars c c s "" eq_refl (or_introl eq_refl)) as F.
    rewrite Forall_forall in F. apply F. now apply list_elem_of_In.
  - intros d Hd. apply trim_chars.
    pose proof (fields_from_chars c d s "" eq_refl (or_intror Hd)) as F.
    rewrite Forall_forall in F. apply F. now apply list_elem_of_In.
Qed.

Lemma parseHeaders_fold (parts : list string) (h : gmap string string) :
  Forall (fun part => has_char "," part = false) parts ->
  map_Forall (fun k v => well_formed k /\ well_formed v) h ->
  map_Forall (fun k v => well_formed k /\ well_formed v)
    (fold_left
       (fun headers part =>
          match splitTrim part "=" with
          | [k; v] => <[k := v]> headers
          | _ => headers
          end) parts h).
Proof.
  revert h. induction parts as [|part rest IH]; intros h Hp Hh; [exact Hh|].
  cbn [fold_left]. inversion Hp as [|? ? Hpart Hrest]; subst.
  apply IH; [exact Hrest|].
  rewrite splitTrim_trimmed_fields.
  destruct (trimmed_fields "=" part) as [|k [|v [|? ?]]] eqn:E; try exact Hh.
  assert (Hk : In k (trimmed_fields "=" part)) by (rewrite E; now left).
  assert (Hv : In v (trimmed_fields "=" part)) by (rewrite E; right; now left).
  apply trimmed_fields_elem in Hk as (K1 & K2 & K3 & K4).
  apply trimmed_fields_elem in Hv as (V1 & V2 & V3 & V4).
  apply map_Forall_insert_2; [|exact Hh].
  split; repeat split; auto.
Qed.

Lemma fields_from_plain (c : ascii) (a cur : string) :
  has_char c a = false -> fields_from c cur a = [cur ++ a].
Proof.
  revert cur. induction a as [|x a IH]; intros cur H; cbn [fields_from].
  - now rewrite append_empty_r.
  - cbn in H. apply orb_false_iff in H as [X H]. rewrite X, IH by exact H.
    now rewrite append_assoc.
Qed.

Lemma fields_from_sep (c : ascii) (a b cur : string) :
  has_char c a = false ->
  fields_from c cur (a ++ String c b) = (cur ++ a) :: fields_from c "" b.
Proof.
  revert cur. induction a as [|x a IH]; intros cur H.
  - rewrite append_nil, append_empty_r. cbn [fields_from].
    now rewrite Ascii.eqb_refl.
  - rewrite append_cons. cbn [fields_from]. cbn in H.
    apply orb_false_iff in H as [X H]. rewrite X, IH by exact H.
    now rewrite append_assoc.
Qed.

Lemma trim_clean (s : string) :
  starts_blank s = false -> ends_blank s = false -> trim s = s.
Proof.
  intros S E. apply trim_unique. exists "", "".
  rewrite append_nil, append_empty_r. repeat split; assumption.
Qed.

Lemma ends_blank_app (a b : string) :
  b <> "" -> ends_blank (a ++ b) = ends_blank b.
Proof.
  intros Hb. destruct (snoc_view b) as [->|(b' & x & ->)]; [contradiction|].
  unfold ends_blank. now rewrite <- append_assoc, !last_char_snoc.
Qed.

Lemma starts_blank_app_l (a b : string) :
  a <> "" -> starts_blank (a ++ b) = starts_blank a.
Proof. destruct a; [contradiction | reflexivity]. Qed.

(** X28. [trim] removes the spaces and tabs at both ends and nothing else: its
    result is the one middle part of the string, between spaces and tabs
    only, that neither starts nor ends with a space or a tab.  Trimming
    twice changes nothing more. *)
Theorem trim_iff (s m : string) :
  (Otel.trim s = m <->
   exists l r,
     s = l ++ m ++ r /\ all_blank l = true /\ all_blank r = true /\
     starts_blank m = false /\ ends_blank m = false) /\
  Otel.trim (Otel.trim s) = Otel.trim s.
Proof.
  split; [split|apply trim_idempotent].
  - intros <-. apply trim_decomposition.
  - apply trim_unique.
Qed.

(** X29. [splitTrim] on a one-character separator gives the fields between the
    occurrences of the separator, each trimmed, in order and without the
    empty ones: no part it returns is empty, untrimmed or holds the
    separator. *)
Theorem splitTrim_fields (c : ascii) (s : string) :
  Otel.splitTrim s (String c "") = trimmed_fields c s /\
  Forall (fun part => part <> "" /\ Otel.trim part = part /\
                      has_char c part = false)
    (Otel.splitTrim s (String c "")).
Proof.
  split; [apply splitTrim_trimmed_fields|].
  rewrite splitTrim_trimmed_fields. apply List.Forall_forall.
  intros part Hp. apply trimmed_fields_elem in Hp as (H1 & H2 & H3 & _).
  auto.
Qed.

(** X30. [parseHeaders] returns well-formed pairs only: every key and every
    value is not empty, has no space or tab at either end and holds neither
    a comma nor an equals sign.  And one pair written that way is parsed to
    exactly that pair. *)
Theorem parseHeaders_spec (s k v : string) :
  (Otel.parseHeaders s !! k = Some v -> well_formed k /\ well_formed v) /\
  (clean k = true -> clean v = true ->
   Otel.parseHeaders (k ++ "=" ++ v) = {[ k := v ]}).
Proof.
  split.
  - intros H.
    assert (M : map_Forall (fun k v => well_formed k /\ well_formed v)
                  (parseHeaders s)).
    { unfold parseHeaders. apply parseHeaders_fold; [|apply map_Forall_empty].
      rewrite splitTrim_trimmed_fields. apply Forall_forall. intros part Hp.
      apply list_elem_of_In in Hp.
      now apply trimmed_fields_elem in Hp as (_ & _ & Hc & _). }
    exact (M k v H).
  - unfold clean. intros Hk Hv.
    repeat (apply andb_true_iff in Hk as [Hk ?]).
    repeat (apply andb_true_iff in Hv as [Hv ?]).
    repeat match goal with
           | H : negb _ = true |- _ => apply negb_true_iff in H
           end.
    apply String.eqb_neq in Hk, Hv.
    assert (Hkv : trim (k ++ "=" ++ v) = k ++ "=" ++ v).
    { apply trim_clean.
      - now rewrite starts_blank_app_l.
      - rewrite !ends_blank_app; [assumption.. | ].
        destruct v; [contradiction | discriminate]. }
    assert (Hne : String.eqb (k ++ "=" ++ v) "" = false).
    { apply String.eqb_neq. destruct k; [contradiction | discriminate]. }
    unfold parseHeaders. rewrite splitTrim_trimmed_fields.
    unfold trimmed_fields at 1, fields.
    rewrite fields_from_plain
      by (rewrite !has_char_app; cbn;
          repeat match goal with H : _ = false |- _ => rewrite H end;
          reflexivity).
    rewrite append_nil. cbn [map List.filter]. rewrite Hkv, Hne.
    cbn [negb fold_left].
    rewrite splitTrim_trimmed_fields. unfold trimmed_fields, fields.
    change (k ++ "=" ++ v) with (k ++ String "=" v).
    rewrite fields_from_sep by assumption.
    rewrite fields_from_plain by assumption.
    rewrite !append_nil. cbn [map List.filter].
    rewrite !trim_clean by assumption.
    apply String.eqb_neq in Hk, Hv. rewrite Hk, Hv. cbn [negb].
    reflexivity.
Qed.

End HeaderParserFacts.

(** ** Further concrete runs *)

Section MoreExamples.

(** Equals signs at the end of a value are separators too: the padding of
    a Base64 credential is lost. *)
Example parse_headers_padding :
  Otel.parseHeaders "Authorization=Basic dXNlcjpwYXNz==, x-team = a" =
  {[ "Authorization" := "Basic dXNlcjpwYXNz"; "x-team" := "a" ]}.
Proof. vm_compute. reflexivity. Qed.

(** With two trailing slashes and a space identifier the REST client and
    the tracer address different paths. *)
Example double_slash_addresses :
  Phoenix.BaseURL
    (fst (Phoenix.Validate
            (Phoenix.mkConfig "https://host//" "team-a" "" "default"))) =
    "https://host//s/team-a" /\
  Otel.EffectiveEndpoint
    (Otel.set_SpaceID "team-a"
       (Otel.set_Endpoint "https://host//" (Otel.DefaultConfig ∅))) =
    "https://host/s/team-a".
Proof. split; vm_compute; reflexivity. Qed.

(** A 404 of the server, once wrapped, is no longer "not found". *)
Example wrapped_404 :
  Phoenix.IsNotFound
    (Some (Phoenix.EAPI (Phoenix.mkAPIError 404 "missing" ""))) = true /\
  Phoenix.IsNotFound
    (Some (Phoenix.EWrap "get project: "
             (Phoenix.EAPI (Phoenix.mkAPIError 404 "missing" "")))) = false.
Proof. split; reflexivity. Qed.

End MoreExamples.
